(** * Xray reporting glue of the Playwright demo: a shallow embedding

    The development follows the JavaScript/TypeScript sources of the
    repository: the Playwright reporters ([xray-reporter.js],
    [xray-reporter-hybrid.js], [xray-reporter-full.js]), the Jira/Xray
    REST clients ([XrayClientFull], [XrayClientReadOnly],
    [XrayClientHybrid]), the configuration managers and the Google home
    page object.

    Strings are [string]; JavaScript values that may be [undefined] or
    [null] are [option]; a method is a computation that starts from the
    events so far, returns or throws, and emits its own external effects
    (HTTP requests, log lines, file-system accesses) in order.  The Jira
    server, the clock and the file system are parameters of a run.

    The definitions come first, module by module as in the sources; the
    properties follow. *)

From Stdlib Require Import String Ascii List ZArith Bool Lia Arith.
From Stdlib Require Import DecimalString.
Import ListNotations.
Open Scope string_scope.

(** ** Characters and strings *)

Module Js.

Definition isUpper (c : ascii) : bool :=
  let n := nat_of_ascii c in (65 <=? n)%nat && (n <=? 90)%nat.

Definition isDigit (c : ascii) : bool :=
  let n := nat_of_ascii c in (48 <=? n)%nat && (n <=? 57)%nat.

(** [String.prototype.toLowerCase] on the ASCII range. *)
Definition lowerChar (c : ascii) : ascii :=
  if isUpper c then ascii_of_nat (nat_of_ascii c + 32) else c.

Fixpoint toLowerCase (s : string) : string :=
  match s with
  | EmptyString => EmptyString
  | String c s' => String (lowerChar c) (toLowerCase s')
  end.

Fixpoint startsWith (p s : string) : bool :=
  match p, s with
  | EmptyString, _ => true
  | String a p', String b s' => Ascii.eqb a b && startsWith p' s'
  | String _ _, EmptyString => false
  end.

(** [String.prototype.includes]. *)
Fixpoint includes (s needle : string) : bool :=
  startsWith needle s ||
  match s with
  | EmptyString => false
  | String _ s' => includes s' needle
  end.

Fixpoint take (n : nat) (s : string) : string :=
  match n, s with
  | S n', String c s' => String c (take n' s')
  | _, _ => EmptyString
  end.

(** Truthiness of a value that is a string or [undefined]/[null]. *)
Definition truthy (v : option string) : bool :=
  match v with
  | Some EmptyString => false
  | Some _ => true
  | None => false
  end.

(** [a || b] on such values. *)
Definition or_else (a b : option string) : option string :=
  if truthy a then a else b.

(** [a || 'default'] where the default is a string. *)
Definition or_default (a : option string) (d : string) : string :=
  match a with
  | Some (String c s) => String c s
  | _ => d
  end.

(** Template-literal rendering of a possibly undefined string. *)
Definition show (v : option string) : string :=
  match v with
  | Some s => s
  | None => "undefined"
  end.

(** Template-literal rendering of a number.  The numbers the code prints
    are counts, HTTP status codes and whole milliseconds, all integers
    below 1e21 in absolute value, which JavaScript prints in plain
    decimal notation; fractions and the exponent notation of larger
    numbers are not covered. *)
Definition show_Z (z : Z) : string := NilZero.string_of_int (Z.to_int z).

Definition show_nat (n : nat) : string := show_Z (Z.of_nat n).

(** [Array.prototype.join]. *)
Fixpoint join (sep : string) (xs : list string) : string :=
  match xs with
  | [] => ""
  | [x] => x
  | x :: rest => x ++ sep ++ join sep rest
  end.

(** [s.split(sep)[0]] for a one-character separator. *)
Fixpoint split_head (sep : ascii) (s : string) : string :=
  match s with
  | EmptyString => EmptyString
  | String c s' => if Ascii.eqb c sep then EmptyString else String c (split_head sep s')
  end.

(** An error object: its [message], and as [err_name] what
    [toString] prints before the colon.  For an error of the language
    that is the [name]; an error raised by Node's own modules prints its
    code after the name (see [NodeTypeError]). *)
Record Error := mkError { err_name : string; err_message : string }.

(** [`${error}`], that is [Error.prototype.toString]. *)
Definition Error_toString (e : Error) : string :=
  err_name e ++ ": " ++ err_message e.

Definition TypeError (msg : string) : Error := mkError "TypeError" msg.
Definition NewError (msg : string) : Error := mkError "Error" msg.

(** A [TypeError] of Node's internals, which prints as
    [TypeError [CODE]: message]. *)
Definition NodeTypeError (code msg : string) : Error :=
  mkError ("TypeError [" ++ code ++ "]") msg.

End Js.

(** ** Regular expressions of the reporters

    The two patterns of [extractTestKey] are sequences of literal
    characters and greedy one-or-more character classes, with one
    capture group opened at the start.  [exec] is the backtracking
    matcher anchored at the start of the input ([^]): a greedy class
    first tries to take one more character and falls back to the rest
    of the pattern. *)

Module Regex.

Inductive item :=
| Lit (c : ascii)
| Plus (cls : ascii -> bool)
| CloseGroup.

(** [exec items pos s] matches [items] against [s], [pos] characters
    into the input; the result is the position where group 1 closed. *)
Fixpoint exec (items : list item) : nat -> string -> option (option nat) :=
  match items with
  | [] => fun _ _ => Some None
  | Lit c :: rest => fun pos s =>
      match s with
      | String c' s' => if Ascii.eqb c c' then exec rest (S pos) s' else None
      | EmptyString => None
      end
  | CloseGroup :: rest => fun pos s =>
      match exec rest pos s with
      | Some _ => Some (Some pos)
      | None => None
      end
  | Plus cls :: rest =>
      fix loop (pos : nat) (s : string) {struct s} : option (option nat) :=
        match s with
        | String c s' =>
            if cls c then
              match loop (S pos) s' with
              | Some r => Some r
              | None => exec rest (S pos) s'
              end
            else None
        | EmptyString => None
        end
  end.

(** [s.match(re)] followed by [[1]]: the text of capture group 1. *)
Definition match1 (items : list item) (s : string) : option string :=
  match exec items 0 s with
  | Some (Some n) => Some (Js.take n s)
  | _ => None
  end.

(** [/^([A-Z]+-\d+):/] *)
Definition title_re : list item :=
  [Plus Js.isUpper; Lit "-"; Plus Js.isDigit; CloseGroup; Lit ":"].

(** [/^([A-Z]+-\d+)/] *)
Definition file_re : list item :=
  [Plus Js.isUpper; Lit "-"; Plus Js.isDigit; CloseGroup].

End Regex.

(** ** [path.basename] and [path.join] (POSIX flavour of Node's [path]
       module)

    For [basename], trailing separators are ignored and the portion
    after the last remaining ['/'] is returned.  [join] puts a separator
    between its non-empty arguments and normalises the result. *)

Module Path.

Definition isSep (c : ascii) : bool := Ascii.eqb c "/".

(** Scans from the left, keeping the segment being read ([cur]) and
    the last non-empty segment already closed by a separator ([last]). *)
Fixpoint basename_scan (s : string) (cur last : string) : string :=
  match s with
  | EmptyString => match cur with EmptyString => last | _ => cur end
  | String c s' =>
      if isSep c
      then basename_scan s' EmptyString (match cur with EmptyString => last | _ => cur end)
      else basename_scan s' (cur ++ String c EmptyString) last
  end.

Definition basename (p : string) : string := basename_scan p "" "".

(** The segments of a path: what stands between its separators. *)
Fixpoint segments (s : string) (cur : string) : list string :=
  match s with
  | EmptyString => [cur]
  | String c s' =>
      if isSep c then cur :: segments s' EmptyString
      else segments s' (cur ++ String c EmptyString)
  end.

(** [normalizeString]: empty segments and ['.'] are dropped; ['..']
    removes the segment before it, or stays when there is none to remove
    and the path is relative.  [res] holds the segments kept so far, the
    last one first. *)
Fixpoint normalizeString (allowAboveRoot : bool) (segs res : list string)
  : list string :=
  match segs with
  | [] => rev res
  | seg :: rest =>
      if String.eqb seg "" || String.eqb seg "." then
        normalizeString allowAboveRoot rest res
      else if String.eqb seg ".." then
        match res with
        | last :: res' =>
            if String.eqb last ".."
            then normalizeString allowAboveRoot rest
                   (if allowAboveRoot then seg :: res else res)
            else normalizeString allowAboveRoot rest res'
        | [] =>
            normalizeString allowAboveRoot rest
              (if allowAboveRoot then [seg] else [])
        end
      else normalizeString allowAboveRoot rest (seg :: res)
  end.

Fixpoint endsWithSep (s : string) : bool :=
  match s with
  | EmptyString => false
  | String c EmptyString => isSep c
  | String _ s' => endsWithSep s'
  end.

(** [path.normalize] *)
Definition normalize (p : string) : string :=
  match p with
  | EmptyString => "."
  | String c _ =>
      let isAbsolute := isSep c in
      let trailingSeparator := endsWithSep p in
      match Js.join "/" (normalizeString (negb isAbsolute)
                           (segments p EmptyString) []) with
      | EmptyString =>
          if isAbsolute then "/" else if trailingSeparator then "./" else "."
      | String c' body =>
          (if isAbsolute then "/" else "") ++ String c' body
          ++ (if trailingSeparator then "/" else "")
      end
  end.

(** [path.join(a, b)] *)
Definition join (a b : string) : string :=
  let joined :=
    match a, b with
    | EmptyString, _ => b
    | _, EmptyString => a
    | _, _ => a ++ "/" ++ b
    end in
  match joined with
  | EmptyString => "."
  | _ => normalize joined
  end.

End Path.

(** ** Data of the Xray integration *)

(** [XrayConfig] of [src/config/xray-config.ts]. *)
Record XrayConfig := mkXrayConfig {
  jiraBaseUrl : string;
  jiraUsername : string;
  jiraApiToken : string;
  projectKey : string;
  cfg_testExecutionKey : option string;
  cfg_testPlanKey : option string;
  cfg_environment : option string;
  cfg_version : option string;
  cfg_reporter : option string
}.

(** [XrayTestResult]: one collected result.  [evidence] lists the
    attachment paths, each possibly [undefined]. *)
Record XrayTestResult := mkResult {
  testKey : string;
  status : string;
  comment : option string;
  evidence : option (list (option string));
  executionTime : option Z
}.

(** The [info] object of an [XrayTestExecution]. *)
Record ExecutionInfo := mkInfo {
  summary : string;
  description : option string;
  testEnvironments : option (list (option string));
  testPlanKey : option string;
  version : option string;
  user : option string;
  startDate : option string
}.

Record XrayTestExecution := mkExecution {
  info : ExecutionInfo;
  tests : list XrayTestResult
}.

(** One entry of the [tests] array posted to [/testexecution]. *)
Record PayloadTest := mkPayloadTest {
  pt_testKey : string;
  pt_status : string;
  pt_comment : string;
  pt_executionTime : Z
}.

Record PayloadInfo := mkPayloadInfo {
  pi_summary : string;
  pi_description : string;
  pi_testEnvironments : list (option string);
  pi_version : option string;
  pi_user : string;
  pi_startDate : string
}.

(** The [fields] object of a new test case posted to [/issue]. *)
Record IssueFieldsPayload := mkIssuePayload {
  ip_project : string;
  ip_summary : string;
  ip_description : string;
  ip_issuetype : string;
  ip_priority : string;
  ip_assignee : string
}.

Inductive Method := GET | POST | PUT.

Definition Method_toUpperCase (m : Method) : string :=
  match m with GET => "GET" | POST => "POST" | PUT => "PUT" end.

Inductive Body :=
| BNone
| BIssue (fields : IssueFieldsPayload)
| BStatus (name : string)
| BComment (body : string)
| BExecution (i : PayloadInfo) (ts : list PayloadTest).

Record Request := mkRequest {
  req_method : Method;
  req_url : string;
  req_body : Body
}.

(** What a response body offers to the clients: [data.key], [data.id],
    [data.testExecutionKey], [data.fields.issuetype.name] and
    [data.fields.summary], each of which may be missing. *)
Record IssueType := mkIssueType { it_name : option string }.

Record Fields := mkFields {
  issuetype : option IssueType;
  f_summary : option string
}.

Record Data := mkData {
  d_key : option string;
  d_id : option string;
  d_testExecutionKey : option string;
  d_fields : option Fields
}.

(** An axios call resolves with [response.data] or rejects with an
    error that may carry the response status and body.  The data are the
    parsed JSON object of the answer; for an answer without a body axios
    gives the empty string, which is [None] here: it is falsy, and each
    of its properties reads as [undefined]. *)
Inductive Response :=
| Resolved (data : option Data)
| Rejected (e : Js.Error) (resp : option (Z * string)).

Inductive Level := Info | Warn | ErrorLevel | Debug.

(** What [fs.writeFileSync] is given. *)
Inductive FileContent :=
| KeyText (key : option string)
| ResultsJson (timestamp : string) (executionKey : option string)
    (results : list XrayTestResult) (totalTests commentsAdded : nat)
    (executionCreated : bool).

(** Everything observable from outside, in the order it happens. *)
Inductive Event :=
| EHttp (r : Request)
| ELog (l : Level) (msg : string)
| EExists (path : string)
| EWrite (path : string) (content : FileContent).

Fixpoint requests_of (evs : list Event) : list Request :=
  match evs with
  | [] => []
  | EHttp r :: rest => r :: requests_of rest
  | _ :: rest => requests_of rest
  end.

(** The surroundings of a run: the Jira server (its answer may depend on
    the requests it has already received), the clock, the file system
    and the loaded configuration. *)
Record Env := mkEnv {
  server : list Request -> Request -> Response;
  now_ms : list Event -> Z;
  now_iso : list Event -> string;
  file_exists : string -> bool;
  write_error : string -> option Js.Error;
  config : XrayConfig
}.

(** What a method starts from: the events that have happened so far and
    the one field of client state, [XrayClientHybrid.canCreateIssues]. *)
Record World := mkWorld {
  events : list Event;
  canCreateIssues : bool
}.

(** [private canCreateIssues: boolean = true] on a fresh process. *)
Definition initial_world : World := mkWorld [] true.

(** ** The monad of asynchronous methods

    A method, started in a world, returns or throws, emits events and
    leaves a value of [canCreateIssues]. *)

Inductive Outcome (A : Type) :=
| Ret (a : A)
| Throw (e : Js.Error).
Arguments Ret {A} a.
Arguments Throw {A} e.

Record Run (A : Type) := mkRun {
  outcome : Outcome A;
  emitted : list Event;
  flag_after : bool
}.
Arguments mkRun {A} _ _ _.
Arguments outcome {A} _.
Arguments emitted {A} _.
Arguments flag_after {A} _.

Definition M (A : Type) : Type := World -> Run A.

(** The world a run leaves behind. *)
Definition after {A} (w : World) (r : Run A) : World :=
  mkWorld (events w ++ emitted r) (flag_after r).

Definition ret {A} (a : A) : M A :=
  fun w => mkRun (Ret a) [] (canCreateIssues w).

Definition throw {A} (e : Js.Error) : M A :=
  fun w => mkRun (Throw e) [] (canCreateIssues w).

Definition bind {A B} (m : M A) (k : A -> M B) : M B :=
  fun w =>
    let r := m w in
    match outcome r with
    | Ret a =>
        let r' := k a (after w r) in
        mkRun (outcome r') (emitted r ++ emitted r') (flag_after r')
    | Throw e => mkRun (Throw e) (emitted r) (flag_after r)
    end.

Definition try_catch {A} (m : M A) (handler : Js.Error -> M A) : M A :=
  fun w =>
    let r := m w in
    match outcome r with
    | Ret a => r
    | Throw e =>
        let r' := handler e (after w r) in
        mkRun (outcome r') (emitted r ++ emitted r') (flag_after r')
    end.

Declare Scope js_scope.
Delimit Scope js_scope with js.
Notation "x <- m ; k" := (bind m (fun x => k))
  (at level 61, m at next level, right associativity) : js_scope.
Notation "m ;; k" := (bind m (fun _ => k))
  (at level 61, right associativity) : js_scope.
Open Scope js_scope.

Definition emit (e : Event) : M unit :=
  fun w => mkRun (Ret tt) [e] (canCreateIssues w).

Definition logger (l : Level) (msg : string) : M unit := emit (ELog l msg).

Definition get_events : M (list Event) :=
  fun w => mkRun (Ret (events w)) [] (canCreateIssues w).

Definition get_canCreateIssues : M bool :=
  fun w => mkRun (Ret (canCreateIssues w)) [] (canCreateIssues w).

Definition set_canCreateIssues (b : bool) : M unit :=
  fun w => mkRun (Ret tt) [] b.

Definition Date_now (env : Env) : M Z :=
  evs <- get_events ; ret (now_ms env evs).

Definition Date_toISOString (env : Env) : M string :=
  evs <- get_events ; ret (now_iso env evs).

Definition nl : string := String (ascii_of_nat 10) "".

(** ** [XrayConfigManager] *)

Module XrayConfigManager.

(** The constructor, from [process.env]. *)
Definition new (process_env : string -> option string) : XrayConfig :=
  {| jiraBaseUrl := Js.or_default (process_env "JIRA_BASE_URL") "";
     jiraUsername := Js.or_default (process_env "JIRA_USERNAME") "";
     jiraApiToken := Js.or_default (process_env "JIRA_API_TOKEN") "";
     projectKey := Js.or_default (process_env "JIRA_PROJECT_KEY") "";
     cfg_testExecutionKey :=
       Js.or_else (process_env "JIRA_TEST_EXECUTION_KEY") None;
     cfg_testPlanKey := Js.or_else (process_env "JIRA_TEST_PLAN_KEY") None;
     cfg_environment :=
       Some (Js.or_default (process_env "JIRA_ENVIRONMENT") "CI/CD");
     cfg_version := Some (Js.or_default (process_env "JIRA_VERSION") "1.0.0");
     cfg_reporter :=
       Some (Js.or_default (process_env "JIRA_REPORTER") "Playwright Automation")
  |}.

Definition requiredFields : list (XrayConfig -> string) :=
  [jiraBaseUrl; jiraUsername; jiraApiToken; projectKey].

Definition validateConfig (c : XrayConfig) : bool :=
  forallb (fun field => Js.truthy (Some (field c))) requiredFields.

Definition getJiraApiUrl (c : XrayConfig) : string :=
  jiraBaseUrl c ++ "/rest/api/3".

Definition getXrayApiUrl (c : XrayConfig) : string :=
  jiraBaseUrl c ++ "/rest/api/2".

(** The class of [src/config/xray-config.ts], the module the clients
    import, declares the methods above and no other: [getJiraApiUrlV2],
    which the constructors of the clients call, exists only in the
    compiled copy under [scripts/config], and reads as [undefined] on an
    instance of this class. *)
Definition getJiraApiUrlV2 : option (XrayConfig -> string) := None.

End XrayConfigManager.

(** Calling a member that may be [undefined]. *)
Definition call {A} (name : string) (member : option (M A)) : M A :=
  match member with
  | Some m => m
  | None => throw (Js.TypeError (name ++ " is not a function"))
  end.

(** ** Shared axios plumbing

    A client is a singleton, handed out by [getInstance].  Its
    constructor reads the configuration, builds the axios instance (base
    URL, credentials, headers) and installs the interceptors; it sends
    nothing.  The methods of a client are given as they run on an
    instance, whatever built it.  The three clients install the same
    response interceptors: a successful call is
    logged at [info]; a failed one is logged at [error], with status and
    body when the server answered, and the rejection is passed on
    unchanged.  Requests are recorded with the path given to axios. *)

(** The rejection interceptor.  [product] is the name the client puts in
    the message and [with_response] tells whether the client also logs
    the response status and body. *)
Definition onRejected {A} (product : string) (with_response : bool)
    (m : Method) (url : string) (resp : option (Z * string))
    (error : Js.Error) : M A :=
  logger ErrorLevel (product ++ " API call failed: " ++ Method_toUpperCase m
                     ++ " " ++ url ++ " - " ++ Js.err_message error) ;;
  match with_response, resp with
  | true, Some (st, data) =>
      logger ErrorLevel ("Response status: " ++ Js.show_Z st) ;;
      logger ErrorLevel ("Response data: " ++ data)
  | _, _ => ret tt
  end ;;
  throw error.

Definition axios (env : Env) (m : Method) (url : string) (b : Body)
  : M (option Data) :=
  evs <- get_events ;
  let req := mkRequest m url b in
  emit (EHttp req) ;;
  match server env (requests_of evs) req with
  | Resolved data =>
      logger Info ("Xray API call successful: " ++ Method_toUpperCase m
                   ++ " " ++ url) ;;
      ret data
  | Rejected e resp => onRejected "Xray" true m url resp e
  end.

(** [response.data.fields.issuetype.name]: reading through a missing
    object is a [TypeError]. *)
Definition issuetype_name (data : Data) : M (option string) :=
  match d_fields data with
  | None => throw (Js.TypeError "Cannot read properties of undefined (reading 'issuetype')")
  | Some f =>
      match issuetype f with
      | None => throw (Js.TypeError "Cannot read properties of undefined (reading 'name')")
      | Some it => ret (it_name it)
      end
  end.

(** [response.data.key]: [undefined] when the answer had no body. *)
Definition data_key (data : option Data) : M (option string) :=
  match data with
  | None => ret None
  | Some d => ret (d_key d)
  end.

(** The body of a test case posted to [/issue], common to
    [XrayClientFull.createTestCase] and
    [XrayClientHybrid.tryCreateTestCase]. *)
Definition testCaseData (env : Env) (testKey testTitle : string)
    (testDescription : option string) (iso : string) : IssueFieldsPayload :=
  {| ip_project := Js.split_head "-" testKey;
     ip_summary := testTitle;
     ip_description :=
       Js.or_default testDescription
         ("Automated test case created by Playwright integration" ++ nl ++ nl
          ++ "Test Key: " ++ testKey ++ nl ++ "Created: " ++ iso);
     ip_issuetype := "Test";
     ip_priority := "Medium";
     ip_assignee := jiraUsername (config env) |}.

(** The [executionData] object posted to [/testexecution]; only the
    default description differs between the clients. *)
Definition payloadTest (t : XrayTestResult) : PayloadTest :=
  {| pt_testKey := testKey t;
     pt_status := status t;
     pt_comment := Js.or_default (comment t) "Test executed via Playwright automation";
     pt_executionTime := match executionTime t with Some z => z | None => 0%Z end |}.

Definition executionData (env : Env) (defaultDescription : string)
    (i : ExecutionInfo) (iso : string) (existing : list XrayTestResult) : Body :=
  BExecution
    {| pi_summary := summary i;
       pi_description := Js.or_default (description i) defaultDescription;
       pi_testEnvironments :=
         match testEnvironments i with
         | Some l => l
         | None => [cfg_environment (config env)]
         end;
       pi_version := Js.or_else (version i) (cfg_version (config env));
       pi_user := Js.or_default (user i) (jiraUsername (config env));
       pi_startDate := Js.or_default (startDate i) iso |}
    (map payloadTest existing).

(** [response.data.key || response.data.testExecutionKey]:
    [undefined] when the answer had no body. *)
Definition executionKey_of (data : option Data) : M (option string) :=
  match data with
  | None => ret None
  | Some d => ret (Js.or_else (d_key d) (d_testExecutionKey d))
  end.

(** ** [XrayClientFull] ([src/utils/xray-client-full.ts]) *)

Module XrayClientFull.

(** The constructor.  [axios.create] is given
    [this.config.getJiraApiUrlV2()] as its base URL, so the constructor
    fails before an instance exists. *)
Definition new (env : Env) : M unit :=
  baseURL <- call "this.config.getJiraApiUrlV2"
               (option_map (fun f => ret (f (config env)))
                           XrayConfigManager.getJiraApiUrlV2) ;
  ret tt.

(** [getInstance]: the static [instance] is assigned once the
    constructor has returned, so every call runs the constructor until
    one returns. *)
Definition getInstance (env : Env) : M unit := new env.

Definition findTestCase_catch (testKey : string) (error : Js.Error) : M (option Data) :=
  logger Info ("Test case " ++ testKey ++ " not found - will create it") ;;
  ret None.

Definition findTestCase (env : Env) (testKey : string) : M (option Data) :=
  try_catch
    (logger Info ("Searching for test case: " ++ testKey) ;;
     response_data <- axios env GET ("/issue/" ++ testKey) BNone ;
     match response_data with
     | Some data =>
         name <- issuetype_name data ;
         logger Info ("Found existing test case: " ++ testKey ++ " (Type: "
                      ++ Js.show name ++ ")") ;;
         ret (Some data)
     | None =>
         logger Info ("Test case not found: " ++ testKey ++ " - will create it") ;;
         ret None
     end)
    (findTestCase_catch testKey).

Definition createTestCase_catch (testKey : string) (error : Js.Error) : M (option string) :=
  logger ErrorLevel ("Failed to create test case " ++ testKey ++ ": "
                     ++ Js.Error_toString error) ;;
  throw error.

Definition createTestCase (env : Env) (testKey testTitle : string)
    (testDescription : option string) : M (option string) :=
  try_catch
    (logger Info ("Creating test case: " ++ testKey) ;;
     iso <- Date_toISOString env ;
     response_data <-
       axios env POST "/issue"
         (BIssue (testCaseData env testKey testTitle testDescription iso)) ;
     createdTestKey <- data_key response_data ;
     logger Info ("Successfully created new test case: " ++ Js.show createdTestKey) ;;
     ret createdTestKey)
    (createTestCase_catch testKey).

Definition ensureTestCaseExists (env : Env) (testKey testTitle : string)
    (testDescription : option string) : M (option string) :=
  testCase <- findTestCase env testKey ;
  match testCase with
  | Some data => ret (d_key data)
  | None =>
      logger Info ("Creating test case " ++ testKey ++ " in Xray Test Repository") ;;
      createdKey <- createTestCase env testKey testTitle testDescription ;
      ret createdKey
  end.

Definition mapXrayStatusToJira (xrayStatus : string) : string :=
  if String.eqb xrayStatus "PASSED" then "Done"
  else if String.eqb xrayStatus "FAILED" then "In Progress"
  else if String.eqb xrayStatus "SKIPPED" then "To Do"
  else if String.eqb xrayStatus "TODO" then "To Do"
  else if String.eqb xrayStatus "EXECUTING" then "In Progress"
  else "To Do".

Definition updateTestCaseStatus_catch (testKey : string) (error : Js.Error) : M unit :=
  logger ErrorLevel ("Failed to update test case " ++ testKey ++ " status: "
                     ++ Js.Error_toString error).

Definition updateTestCaseStatus (env : Env) (testKey status : string) : M unit :=
  try_catch
    (testCase <- findTestCase env testKey ;
     match testCase with
     | None =>
         logger Warn ("Cannot update status - test case not found: " ++ testKey)
     | Some _ =>
         let jiraStatus := mapXrayStatusToJira status in
         axios env PUT ("/issue/" ++ testKey) (BStatus jiraStatus) ;;
         logger Info ("Updated test case " ++ testKey ++ " status to " ++ status
                      ++ " (Jira: " ++ jiraStatus ++ ")")
     end)
    (updateTestCaseStatus_catch testKey).

Fixpoint updateAll_loop (env : Env) (testResults : list XrayTestResult) : M unit :=
  match testResults with
  | [] => ret tt
  | test :: rest =>
      updateTestCaseStatus env (testKey test) (status test) ;;
      updateAll_loop env rest
  end.

Definition updateAllTestCaseStatuses (env : Env) (testResults : list XrayTestResult)
  : M unit :=
  updateAll_loop env testResults ;;
  logger Info ("Updated statuses for " ++ Js.show_nat (length testResults)
               ++ " test cases").

(** [test.comment?.split('\n')[0] || `Test ${test.testKey}`] *)
Definition testTitle_of (test : XrayTestResult) : string :=
  Js.or_default (option_map (Js.split_head (ascii_of_nat 10)) (comment test))
                ("Test " ++ testKey test).

Definition testDescription_of (test : XrayTestResult) : string :=
  Js.or_default (comment test) ("Automated test case for " ++ testKey test).

(** The [for] loop of [createTestExecution]: every test is pushed to
    [existingTestCases] together with the key [ensureTestCaseExists]
    returned. *)
Fixpoint ensure_loop (env : Env) (ts : list XrayTestResult)
    (existingTestCases : list (XrayTestResult * option string))
  : M (list (XrayTestResult * option string)) :=
  match ts with
  | [] => ret existingTestCases
  | test :: rest =>
      testCaseKey <- ensureTestCaseExists env (testKey test) (testTitle_of test)
                       (Some (testDescription_of test)) ;
      ensure_loop env rest (existingTestCases ++ [(test, testCaseKey)])
  end.

Definition createTestExecution_catch (error : Js.Error) : M (option string) :=
  logger ErrorLevel ("Failed to create test execution: "
                     ++ Js.Error_toString error) ;;
  throw error.

Definition createTestExecution (env : Env) (execution : XrayTestExecution)
  : M (option string) :=
  try_catch
    (existingTestCases <- ensure_loop env (tests execution) [] ;
     match existingTestCases with
     | [] => throw (Js.NewError "No test cases could be created or found in Xray Test Repository")
     | _ :: _ =>
         iso <- Date_toISOString env ;
         response_data <-
           axios env POST "/testexecution"
             (executionData env "Automated test execution from Playwright"
                (info execution) iso (map fst existingTestCases)) ;
         testExecutionKey <- executionKey_of response_data ;
         logger Info ("Created test execution: " ++ Js.show testExecutionKey) ;;
         ret testExecutionKey
     end)
    createTestExecution_catch.

(** Strings hold the bytes of the sources, which are in UTF-8. *)
Definition executionComment (status : string) (executionTime : option Z)
    (comment : option string) (iso : string) : Body :=
  BComment ("## 🧪 Test Execution Result" ++ nl ++ nl
            ++ "**Status**: " ++ status ++ nl
            ++ "**Execution Time**: "
            ++ match executionTime with Some z => Js.show_Z z | None => "undefined" end
            ++ "ms" ++ nl
            ++ "**Timestamp**: " ++ iso ++ nl ++ nl
            ++ Js.or_default comment "Test executed via Playwright automation").

Definition addTestExecutionComment_catch (testKey : string) (error : Js.Error) : M unit :=
  logger ErrorLevel ("Failed to add comment to test case " ++ testKey ++ ": "
                     ++ Js.Error_toString error).

Definition addTestExecutionComment (env : Env) (testKey status : string)
    (executionTime : option Z) (comment : option string) : M unit :=
  try_catch
    (iso <- Date_toISOString env ;
     axios env POST ("/issue/" ++ testKey ++ "/comment")
       (executionComment status executionTime comment iso) ;;
     logger Info ("Added execution comment to test case " ++ testKey))
    (addTestExecutionComment_catch testKey).

End XrayClientFull.

(** ** [XrayClientReadOnly] ([src/utils/xray-client-readonly.ts]) *)

Module XrayClientReadOnly.

(** The constructor.  [axios.create] is given
    [this.config.getJiraApiUrlV2()] as its base URL, so the constructor
    fails before an instance exists. *)
Definition new (env : Env) : M unit :=
  baseURL <- call "this.config.getJiraApiUrlV2"
               (option_map (fun f => ret (f (config env)))
                           XrayConfigManager.getJiraApiUrlV2) ;
  ret tt.

(** [getInstance]: the static [instance] is assigned once the
    constructor has returned, so every call runs the constructor until
    one returns. *)
Definition getInstance (env : Env) : M unit := new env.

Definition findTestCase_catch (testKey : string) (error : Js.Error) : M (option Data) :=
  logger ErrorLevel ("Failed to find test case " ++ testKey ++ ": "
                     ++ Js.Error_toString error) ;;
  ret None.

Definition findTestCase (env : Env) (testKey : string) : M (option Data) :=
  try_catch
    (logger Info ("Searching for test case: " ++ testKey) ;;
     response_data <- axios env GET ("/issue/" ++ testKey) BNone ;
     match response_data with
     | Some data =>
         name <- issuetype_name data ;
         logger Info ("Found existing test case: " ++ testKey ++ " (Type: "
                      ++ Js.show name ++ ")") ;;
         ret (Some data)
     | None =>
         logger Warn ("Test case not found: " ++ testKey) ;;
         ret None
     end)
    (findTestCase_catch testKey).

(** The [for] loop of [createTestExecution]: only the tests whose case
    was found are pushed, with the found issue's [id]. *)
Fixpoint find_loop (env : Env) (ts : list XrayTestResult)
    (existingTestCases : list (XrayTestResult * option string))
  : M (list (XrayTestResult * option string)) :=
  match ts with
  | [] => ret existingTestCases
  | test :: rest =>
      testCase <- findTestCase env (testKey test) ;
      match testCase with
      | Some data =>
          logger Info ("Test case " ++ testKey test
                       ++ " exists and is ready for execution") ;;
          find_loop env rest (existingTestCases ++ [(test, d_id data)])
      | None =>
          logger Warn ("Test case " ++ testKey test ++ " not found - skipping") ;;
          find_loop env rest existingTestCases
      end
  end.

Definition createTestExecution_catch (error : Js.Error) : M (option string) :=
  logger ErrorLevel ("Failed to create test execution: "
                     ++ Js.Error_toString error) ;;
  throw error.

Definition createTestExecution (env : Env) (execution : XrayTestExecution)
  : M (option string) :=
  try_catch
    (existingTestCases <- find_loop env (tests execution) [] ;
     match existingTestCases with
     | [] => throw (Js.NewError "No existing test cases found to execute")
     | _ :: _ =>
         iso <- Date_toISOString env ;
         response_data <-
           axios env POST "/testexecution"
             (executionData env
                "Automated test execution from Playwright (Read-only mode)"
                (info execution) iso (map fst existingTestCases)) ;
         testExecutionKey <- executionKey_of response_data ;
         logger Info ("Created test execution: " ++ Js.show testExecutionKey) ;;
         ret testExecutionKey
     end)
    createTestExecution_catch.

(** [testCase.fields.summary] of a found test case. *)
Definition fields_summary (data : Data) : M (option string) :=
  match d_fields data with
  | None => throw (Js.TypeError "Cannot read properties of undefined (reading 'summary')")
  | Some f => ret (f_summary f)
  end.

Fixpoint logTestResults_loop (env : Env) (testResults : list XrayTestResult)
  : M unit :=
  match testResults with
  | [] => ret tt
  | test :: rest =>
      testCase <- findTestCase env (testKey test) ;
      match testCase with
      | Some data =>
          s <- fields_summary data ;
          logger Info ("✅ " ++ testKey test ++ ": " ++ status test ++ " - "
                       ++ Js.show s)
      | None =>
          logger Warn ("❌ " ++ testKey test ++ ": " ++ status test
                       ++ " - Test case not found")
      end ;;
      logTestResults_loop env rest
  end.

Definition logTestResults (env : Env) (testResults : list XrayTestResult)
  : M unit :=
  logger Info "=== Test Execution Summary ===" ;;
  logger Info ("Total Tests: " ++ Js.show_nat (length testResults)) ;;
  logTestResults_loop env testResults ;;
  logger Info "=== End Test Execution Summary ===".

(** The class declares [findTestCase], [createTestExecution] and
    [logTestResults] and nothing else: reading
    [updateTestExecutionStatus] off an instance gives [undefined]. *)
Definition updateTestExecutionStatus
  : option (Env -> option string -> string -> M unit) := None.

End XrayClientReadOnly.

(** ** [XrayClientHybrid] *)

Module XrayClientHybrid.

(** The constructor.  [axios.create] is given
    [this.config.getJiraApiUrlV2()] as its base URL, so the constructor
    fails before an instance exists. *)
Definition new (env : Env) : M unit :=
  baseURL <- call "this.config.getJiraApiUrlV2"
               (option_map (fun f => ret (f (config env)))
                           XrayConfigManager.getJiraApiUrlV2) ;
  ret tt.

(** [getInstance]: the static [instance] is assigned once the
    constructor has returned, so every call runs the constructor until
    one returns. *)
Definition getInstance (env : Env) : M unit := new env.

Definition findTestCase_catch (testKey : string) (error : Js.Error) : M (option Data) :=
  logger Info ("Test case " ++ testKey
               ++ " not found - will attempt to create it") ;;
  ret None.

Definition findTestCase (env : Env) (testKey : string) : M (option Data) :=
  try_catch
    (logger Info ("Searching for test case: " ++ testKey) ;;
     response_data <- axios env GET ("/issue/" ++ testKey) BNone ;
     match response_data with
     | Some data =>
         name <- issuetype_name data ;
         logger Info ("Found existing test case: " ++ testKey ++ " (Type: "
                      ++ Js.show name ++ ")") ;;
         ret (Some data)
     | None =>
         logger Info ("Test case not found: " ++ testKey) ;;
         ret None
     end)
    (findTestCase_catch testKey).

Definition tryCreateTestCase_catch (testKey : string) (error : Js.Error) : M (option string) :=
  logger Warn ("Failed to create test case " ++ testKey ++ ": "
               ++ Js.Error_toString error) ;;
  logger Info "Disabling test case creation for future attempts" ;;
  set_canCreateIssues false ;;
  ret None.

Definition tryCreateTestCase (env : Env) (testKey testTitle : string)
    (testDescription : option string) : M (option string) :=
  can <- get_canCreateIssues ;
  if negb can then
    logger Info ("Skipping test case creation for " ++ testKey
                 ++ " - creation disabled") ;;
    ret None
  else
    try_catch
      (logger Info ("Attempting to create test case: " ++ testKey) ;;
       iso <- Date_toISOString env ;
       response_data <-
         axios env POST "/issue"
           (BIssue (testCaseData env testKey testTitle testDescription iso)) ;
       createdTestKey <- data_key response_data ;
       logger Info ("Successfully created new test case: "
                    ++ Js.show createdTestKey) ;;
       ret createdTestKey)
      (tryCreateTestCase_catch testKey).

Definition ensureTestCaseExists (env : Env) (testKey testTitle : string)
    (testDescription : option string) : M (option string) :=
  testCase <- findTestCase env testKey ;
  match testCase with
  | Some data => ret (d_key data)
  | None =>
      createdKey <- tryCreateTestCase env testKey testTitle testDescription ;
      if Js.truthy createdKey then ret createdKey
      else
        logger Warn ("Test case " ++ testKey
                     ++ " not found and could not be created") ;;
        ret None
  end.

Definition mapXrayStatusToJira (xrayStatus : string) : string :=
  if String.eqb xrayStatus "PASSED" then "Done"
  else if String.eqb xrayStatus "FAILED" then "In Progress"
  else if String.eqb xrayStatus "SKIPPED" then "To Do"
  else if String.eqb xrayStatus "TODO" then "To Do"
  else if String.eqb xrayStatus "EXECUTING" then "In Progress"
  else "To Do".

Definition updateTestCaseStatus_catch (testKey : string) (error : Js.Error) : M (bool) :=
  logger ErrorLevel ("Failed to update test case " ++ testKey ++ " status: "
                     ++ Js.Error_toString error) ;;
  ret false.

Definition updateTestCaseStatus (env : Env) (testKey status : string) : M bool :=
  try_catch
    (testCase <- findTestCase env testKey ;
     match testCase with
     | None =>
         logger Warn ("Cannot update status - test case not found: " ++ testKey) ;;
         ret false
     | Some _ =>
         let jiraStatus := mapXrayStatusToJira status in
         axios env PUT ("/issue/" ++ testKey) (BStatus jiraStatus) ;;
         logger Info ("Updated test case " ++ testKey ++ " status to " ++ status
                      ++ " (Jira: " ++ jiraStatus ++ ")") ;;
         ret true
     end)
    (updateTestCaseStatus_catch testKey).

Fixpoint updateAll_loop (env : Env) (testResults : list XrayTestResult)
    (successCount : nat) : M nat :=
  match testResults with
  | [] => ret successCount
  | test :: rest =>
      success <- updateTestCaseStatus env (testKey test) (status test) ;
      updateAll_loop env rest (if success then S successCount else successCount)
  end.

Definition updateAllTestCaseStatuses (env : Env) (testResults : list XrayTestResult)
  : M unit :=
  successCount <- updateAll_loop env testResults 0 ;
  logger Info ("Updated statuses for " ++ Js.show_nat successCount ++ "/"
               ++ Js.show_nat (length testResults) ++ " test cases").

Definition addTestExecutionComment_catch (testKey : string) (error : Js.Error) : M (bool) :=
  logger ErrorLevel ("Failed to add comment to test case " ++ testKey ++ ": "
                     ++ Js.Error_toString error) ;;
  ret false.

Definition addTestExecutionComment (env : Env) (testKey status : string)
    (executionTime : option Z) (comment : option string) : M bool :=
  try_catch
    (testCase <- findTestCase env testKey ;
     match testCase with
     | None =>
         logger Warn ("Cannot add comment - test case not found: " ++ testKey) ;;
         ret false
     | Some _ =>
         iso <- Date_toISOString env ;
         axios env POST ("/issue/" ++ testKey ++ "/comment")
           (XrayClientFull.executionComment status executionTime comment iso) ;;
         logger Info ("Added execution comment to test case " ++ testKey) ;;
         ret true
     end)
    (addTestExecutionComment_catch testKey).

(** The [for] loop of [createTestExecution]. *)
Fixpoint find_loop (env : Env) (ts : list XrayTestResult)
    (existingTestCases : list (XrayTestResult * option string))
  : M (list (XrayTestResult * option string)) :=
  match ts with
  | [] => ret existingTestCases
  | test :: rest =>
      testCase <- findTestCase env (testKey test) ;
      match testCase with
      | Some data =>
          find_loop env rest (existingTestCases ++ [(test, d_key data)])
      | None =>
          logger Warn ("Test case " ++ testKey test
                       ++ " not found - skipping from execution") ;;
          find_loop env rest existingTestCases
      end
  end.

Definition createTestExecution_catch (error : Js.Error) : M (option string) :=
  logger ErrorLevel ("Failed to create test execution: "
                     ++ Js.Error_toString error) ;;
  ret None.

Definition createTestExecution (env : Env) (execution : XrayTestExecution)
  : M (option string) :=
  try_catch
    (existingTestCases <- find_loop env (tests execution) [] ;
     match existingTestCases with
     | [] =>
         logger Warn "No existing test cases found for execution" ;;
         ret None
     | _ :: _ =>
         iso <- Date_toISOString env ;
         response_data <-
           axios env POST "/testexecution"
             (executionData env "Automated test execution from Playwright"
                (info execution) iso (map fst existingTestCases)) ;
         testExecutionKey <- executionKey_of response_data ;
         logger Info ("Created test execution: " ++ Js.show testExecutionKey) ;;
         ret testExecutionKey
     end)
    createTestExecution_catch.

End XrayClientHybrid.

(** ** What Playwright hands to a reporter *)

Record Location := mkLocation { file : string }.

Record TestCase := mkTestCase {
  id : string;
  title : string;
  location : option Location
}.

Record TestError := mkTestError { message : option string }.

Record Attachment := mkAttachment { path : option string }.

(** [duration] is in whole milliseconds. *)
Record TestResult := mkTestResult {
  r_status : string;
  duration : option Z;
  error : option TestError;
  attachments : option (list Attachment)
}.

(** The reporter options read by the code. *)
Record Options := mkOptions {
  o_environment : option string;
  o_testPlanKey : option string;
  o_version : option string;
  o_outputDir : option string
}.

(** The fields of a reporter instance.  [testResults] is a JavaScript
    [Map] keyed by [test.id]: iteration follows the order of first
    insertion, and setting an existing key keeps its place. *)
Record Reporter := mkReporter {
  options : Options;
  testResults : list (string * XrayTestResult);
  startTime : Z
}.

Fixpoint Map_set (m : list (string * XrayTestResult)) (k : string)
    (v : XrayTestResult) : list (string * XrayTestResult) :=
  match m with
  | [] => [(k, v)]
  | (k', v') :: rest =>
      if String.eqb k' k then (k, v) :: rest else (k', v') :: Map_set rest k v
  end.

Definition Map_values (m : list (string * XrayTestResult)) : list XrayTestResult :=
  map snd m.

(** [title.replace(/\s+/g, '-')].  The class [\s] holds the white space
    and the line terminators of ECMAScript: six ASCII characters and the
    characters U+00A0, U+1680, U+2000 to U+200A, U+2028, U+2029, U+202F,
    U+205F, U+3000 and U+FEFF, which take two or three bytes each in
    UTF-8. *)
Definition isSpace (c : ascii) : bool :=
  let n := nat_of_ascii c in ((9 <=? n)%nat && (n <=? 13)%nat) || (n =? 32)%nat.

Definition isSpace3 (a b c : nat) : bool :=
  ((a =? 225) && (b =? 154) && (c =? 128)
   || (a =? 226) && (b =? 128)
      && ((128 <=? c) && (c <=? 138) || (c =? 168) || (c =? 169) || (c =? 175))
   || (a =? 226) && (b =? 129) && (c =? 159)
   || (a =? 227) && (b =? 128) && (c =? 128)
   || (a =? 239) && (b =? 187) && (c =? 191))%nat.

(** The number of bytes of the white-space character [s] starts with,
    [0] when it starts with none. *)
Definition space_length (s : string) : nat :=
  match s with
  | EmptyString => 0
  | String c s1 =>
      if isSpace c then 1
      else
        match s1 with
        | EmptyString => 0
        | String c1 s2 =>
            if ((nat_of_ascii c =? 194) && (nat_of_ascii c1 =? 160))%nat then 2
            else
              match s2 with
              | EmptyString => 0
              | String c2 _ =>
                  if isSpace3 (nat_of_ascii c) (nat_of_ascii c1) (nat_of_ascii c2)
                  then 3 else 0
              end
        end
  end.

(** [skip] counts the bytes still to pass of the white-space character
    being read; [in_run] tells whether the run of white space being read
    has already been replaced. *)
Fixpoint replace_spaces_from (skip : nat) (in_run : bool) (s : string) : string :=
  match s with
  | EmptyString => EmptyString
  | String c s' =>
      match skip with
      | S n => replace_spaces_from n in_run s'
      | O =>
          match space_length s with
          | S n =>
              if in_run then replace_spaces_from n true s'
              else String "-" (replace_spaces_from n true s')
          | O => String c (replace_spaces_from 0 false s')
          end
      end
  end.

Definition replace_spaces (in_run : bool) (s : string) : string :=
  replace_spaces_from 0 in_run s.

(** [fs.writeFileSync]. *)
Definition writeFileSync (env : Env) (p : string) (c : FileContent) : M unit :=
  emit (EWrite p c) ;;
  match write_error env p with
  | Some e => throw e
  | None => ret tt
  end.

(** [fs.writeFileSync(outputFile, testExecutionKey)]: Node refuses data
    that is [undefined] before it touches the file. *)
Definition writeKeyFile (env : Env) (outputFile : string)
    (testExecutionKey : option string) : M unit :=
  match testExecutionKey with
  | Some k => writeFileSync env outputFile (KeyText (Some k))
  | None =>
      let quote := String (ascii_of_nat 34) "" in
      throw (Js.NodeTypeError "ERR_INVALID_ARG_TYPE"
               ("The " ++ quote ++ "data" ++ quote
                ++ " argument must be of type string or an instance of Buffer, TypedArray, or DataView. Received undefined"))
  end.

(** ** [XrayReporter] ([xray-reporter.js]) *)

Module XrayReporter.

(** [new XrayReporter(options)] *)
Definition new (env : Env) (opts : Options) : M Reporter :=
  now <- Date_now env ;
  ret (mkReporter opts [] now).

Definition extractTestKey (test : TestCase) : option string :=
  match Regex.match1 Regex.title_re (title test) with
  | Some key => Some key
  | None =>
      let fileName :=
        Path.basename
          (Js.or_default (option_map file (location test)) "") in
      match Regex.match1 Regex.file_re fileName with
      | Some key => Some key
      | None => None
      end
  end.

Definition mapTestStatus (playwrightStatus : string) : string :=
  if String.eqb playwrightStatus "passed" then "PASSED"
  else if String.eqb playwrightStatus "failed" then "FAILED"
  else if String.eqb playwrightStatus "skipped" then "SKIPPED"
  else if String.eqb playwrightStatus "timedOut" then "FAILED"
  else "FAILED".

Definition generateTestComment (test : TestCase) (result : TestResult) : string :=
  let comment := "Test: " ++ title test ++ nl in
  let comment := comment ++ "Status: " ++ r_status result ++ nl in
  let comment :=
    comment ++ "Duration: "
    ++ match duration result with Some d => Js.show_Z d | None => "undefined" end
    ++ "ms" ++ nl in
  let comment :=
    match error result with
    | Some e => comment ++ "Error: " ++ Js.show (message e) ++ nl
    | None => comment
    end in
  let comment :=
    match attachments result with
    | Some l => comment ++ "Attachments: " ++ Js.show_nat (length l) ++ " file(s)" ++ nl
    | None => comment
    end in
  comment.

Definition attachment_paths (l : list Attachment) : list (option string) :=
  map (fun p => Some p)
      (flat_map (fun a => if Js.truthy (path a)
                          then match path a with Some p => [p] | None => [] end
                          else [])
                l).

Definition generateEvidence (env : Env) (test : TestCase) (result : TestResult)
  : M (list (option string)) :=
  let evidence :=
    match attachments result with
    | Some l => attachment_paths l
    | None => []
    end in
  if String.eqb (r_status result) "failed"
     && match error result with Some _ => true | None => false end
  then
    now <- Date_now env ;
    let screenshotPath :=
      "test-results/failure-" ++ replace_spaces false (title test) ++ "-"
      ++ Js.show_Z now ++ ".png" in
    emit (EExists screenshotPath) ;;
    if file_exists env screenshotPath
    then ret (evidence ++ [Some screenshotPath])%list
    else ret evidence
  else ret evidence.

Definition onBegin (env : Env) (this : Reporter) : M Reporter :=
  logger Info "Xray Reporter: Test execution started" ;;
  now <- Date_now env ;
  ret (mkReporter (options this) (testResults this) now).

Definition onTestBegin (env : Env) (this : Reporter) (test : TestCase)
    (result : TestResult) : M Reporter :=
  match extractTestKey test with
  | Some testKey =>
      ret (mkReporter (options this)
             (Map_set (testResults this) (id test)
                {| testKey := testKey;
                   status := "EXECUTING";
                   comment := Some ("Test started: " ++ title test);
                   evidence := None;
                   executionTime := Some 0%Z |})
             (startTime this))
  | None => ret this
  end.

Definition onTestEnd (env : Env) (this : Reporter) (test : TestCase)
    (result : TestResult) : M Reporter :=
  match extractTestKey test with
  | Some testKey =>
      let status := mapTestStatus (r_status result) in
      let executionTime := match duration result with Some d => d | None => 0%Z end in
      ev <- generateEvidence env test result ;
      let xrayResult :=
        {| testKey := testKey;
           status := status;
           comment := Some (generateTestComment test result);
           evidence := Some ev;
           executionTime := Some executionTime |} in
      logger Info ("Test " ++ testKey ++ " completed with status: " ++ status) ;;
      ret (mkReporter (options this)
             (Map_set (testResults this) (id test) xrayResult)
             (startTime this))
  | None => ret this
  end.

(** [results.some(r => r.status === 'FAILED')] *)
Definition hasFailures (results : list XrayTestResult) : bool :=
  existsb (fun r => String.eqb (status r) "FAILED") results.

Definition finalStatus (results : list XrayTestResult) : string :=
  if hasFailures results then "FAILED" else "PASSED".

Definition reportToXray_catch (error : Js.Error) : M unit :=
  logger ErrorLevel ("Failed to report test results to Xray: "
                     ++ Js.Error_toString error) ;;
  throw error.

Definition reportToXray (env : Env) (this : Reporter) : M unit :=
  let results := Map_values (testResults this) in
  match results with
  | [] => logger Warn "No test results to report to Xray"
  | _ :: _ =>
      try_catch
        (XrayClientReadOnly.getInstance env ;;
         logger Info "Logging test results..." ;;
         XrayClientReadOnly.logTestResults env results ;;
         logger Info "Creating test execution for tracking..." ;;
         iso <- Date_toISOString env ;
         now <- Date_now env ;
         let executionInfo :=
           {| summary := "Automated Test Execution - " ++ iso;
              description :=
                Some ("Playwright test execution completed in "
                      ++ Js.show_Z (now - startTime this) ++ "ms");
              testEnvironments :=
                Some [Js.or_else (o_environment (options this))
                                 (cfg_environment (config env))];
              testPlanKey := o_testPlanKey (options this);
              version := Js.or_else (o_version (options this))
                                    (cfg_version (config env));
              user := Some (jiraUsername (config env));
              startDate := None |} in
         testExecutionKey <-
           XrayClientReadOnly.createTestExecution env
             (mkExecution executionInfo results) ;
         let finalStatus := finalStatus results in
         call "xrayClient.updateTestExecutionStatus"
           (option_map (fun f => f env testExecutionKey finalStatus)
                       XrayClientReadOnly.updateTestExecutionStatus) ;;
         logger Info ("Successfully reported " ++ Js.show_nat (length results)
                      ++ " test results to Xray. Test Execution: "
                      ++ Js.show testExecutionKey) ;;
         match o_outputDir (options this) with
         | Some (String c d) =>
             writeKeyFile env (Path.join (String c d) "xray-execution-key.txt")
               testExecutionKey
         | _ => ret tt
         end)
        reportToXray_catch
  end.

Definition onEnd_catch (error : Js.Error) : M unit :=
  logger ErrorLevel ("Failed to report to Xray: " ++ Js.Error_toString error).

Definition onEnd (env : Env) (this : Reporter) : M unit :=
  logger Info "Xray Reporter: Test execution completed" ;;
  try_catch
    (if XrayConfigManager.validateConfig (config env)
     then reportToXray env this
     else logger Warn "Xray configuration is incomplete. Skipping Xray reporting.")
    onEnd_catch.

End XrayReporter.

(** ** [XrayReporterHybrid] ([xray-reporter-hybrid.js]) *)

Module XrayReporterHybrid.

Definition new (env : Env) (opts : Options) : M Reporter :=
  now <- Date_now env ;
  ret (mkReporter opts [] now).

Definition extractTestKey (test : TestCase) : option string :=
  match Regex.match1 Regex.title_re (title test) with
  | Some key => Some key
  | None =>
      let fileName :=
        Path.basename
          (Js.or_default (option_map file (location test)) "") in
      match Regex.match1 Regex.file_re fileName with
      | Some key => Some key
      | None => None
      end
  end.

Definition mapTestStatus (playwrightStatus : string) : string :=
  if String.eqb playwrightStatus "passed" then "PASSED"
  else if String.eqb playwrightStatus "failed" then "FAILED"
  else if String.eqb playwrightStatus "skipped" then "SKIPPED"
  else if String.eqb playwrightStatus "timedOut" then "FAILED"
  else "FAILED".

Definition generateTestComment (test : TestCase) (result : TestResult) : string :=
  let comment := "Test: " ++ title test ++ nl in
  let comment := comment ++ "Status: " ++ r_status result ++ nl in
  let comment :=
    comment ++ "Duration: "
    ++ Js.show_Z (match duration result with Some d => d | None => 0%Z end)
    ++ "ms" ++ nl in
  match error result with
  | Some e => comment ++ "Error: " ++ Js.show (message e) ++ nl
  | None => comment
  end.

Definition generateEvidence (test : TestCase) (result : TestResult)
  : list (option string) :=
  match attachments result with
  | Some l => map path l
  | None => []
  end.

Definition onBegin (env : Env) (this : Reporter) : M Reporter :=
  logger Info "Xray Reporter (Hybrid): Test execution started" ;;
  now <- Date_now env ;
  ret (mkReporter (options this) (testResults this) now).

Definition onTestBegin (env : Env) (this : Reporter) (test : TestCase)
    (result : TestResult) : M Reporter :=
  match extractTestKey test with
  | Some testKey =>
      ret (mkReporter (options this)
             (Map_set (testResults this) (id test)
                {| testKey := testKey;
                   status := "EXECUTING";
                   comment := Some ("Test started: " ++ title test);
                   evidence := None;
                   executionTime := Some 0%Z |})
             (startTime this))
  | None => ret this
  end.

Definition onTestEnd (env : Env) (this : Reporter) (test : TestCase)
    (result : TestResult) : M Reporter :=
  match extractTestKey test with
  | Some testKey =>
      let status := mapTestStatus (r_status result) in
      let executionTime := match duration result with Some d => d | None => 0%Z end in
      let xrayResult :=
        {| testKey := testKey;
           status := status;
           comment := Some (generateTestComment test result);
           evidence := Some (generateEvidence test result);
           executionTime := Some executionTime |} in
      logger Info ("Test " ++ testKey ++ " completed with status: " ++ status) ;;
      ret (mkReporter (options this)
             (Map_set (testResults this) (id test) xrayResult)
             (startTime this))
  | None => ret this
  end.

(** Step 2 of [reportToXray]: one comment per collected result. *)
Fixpoint comment_loop (env : Env) (results : list XrayTestResult)
    (commentSuccessCount : nat) : M nat :=
  match results with
  | [] => ret commentSuccessCount
  | test :: rest =>
      success <-
        XrayClientHybrid.addTestExecutionComment env (testKey test) (status test)
          (executionTime test) (comment test) ;
      comment_loop env rest
        (if success then S commentSuccessCount else commentSuccessCount)
  end.

Definition reportToXray_catch (error : Js.Error) : M unit :=
  logger ErrorLevel ("Failed to report test results to Xray: "
                     ++ Js.Error_toString error) ;;
  throw error.

(** The summary lines are given with the bytes they have in the source
    file. *)
Definition reportToXray (env : Env) (this : Reporter) : M unit :=
  let results := Map_values (testResults this) in
  match results with
  | [] => logger Warn "No test results to report to Xray"
  | _ :: _ =>
      try_catch
        (XrayClientHybrid.getInstance env ;;
         logger Info "=== Starting Xray Integration ===" ;;
         logger Info "Updating test case statuses..." ;;
         XrayClientHybrid.updateAllTestCaseStatuses env results ;;
         logger Info "Adding execution comments to test cases..." ;;
         commentSuccessCount <- comment_loop env results 0 ;
         logger Info "Creating test execution..." ;;
         iso <- Date_toISOString env ;
         now <- Date_now env ;
         let executionInfo :=
           {| summary := "Automated Test Execution - " ++ iso;
              description :=
                Some ("Playwright test execution completed in "
                      ++ Js.show_Z (now - startTime this) ++ "ms" ++ nl ++ nl
                      ++ "Test Results:" ++ nl
                      ++ Js.join nl
                           (map (fun r => "- " ++ testKey r ++ ": " ++ status r)
                                results));
              testEnvironments :=
                Some [Js.or_else (o_environment (options this))
                                 (cfg_environment (config env))];
              testPlanKey := o_testPlanKey (options this);
              version := Js.or_else (o_version (options this))
                                    (cfg_version (config env));
              user := Some (jiraUsername (config env));
              startDate := None |} in
         testExecutionKey <-
           XrayClientHybrid.createTestExecution env
             (mkExecution executionInfo results) ;
         logger Info "=== Xray Integration Summary ===" ;;
         (if Js.truthy testExecutionKey
          then logger Info ("âœ… Test Execution Created: " ++ Js.show testExecutionKey)
          else logger Info "âš ï¸  Test Execution: Could not create (no existing test cases found)") ;;
         logger Info ("âœ… Test Cases Processed: " ++ Js.show_nat (length results)) ;;
         logger Info ("âœ… Comments Added: " ++ Js.show_nat commentSuccessCount ++ "/"
                      ++ Js.show_nat (length results)) ;;
         logger Info ("âœ… Status Updates: "
                      ++ Js.join ", "
                           (map (fun r => testKey r ++ " -> " ++ status r) results)) ;;
         logger Info "=== End Xray Integration Summary ===" ;;
         match o_outputDir (options this) with
         | Some (String c d) =>
             let outputFile := Path.join (String c d) "xray-integration-results.json" in
             iso' <- Date_toISOString env ;
             writeFileSync env outputFile
               (ResultsJson iso' testExecutionKey results (length results)
                  commentSuccessCount (Js.truthy testExecutionKey)) ;;
             logger Info ("Integration results saved to: " ++ outputFile)
         | _ => ret tt
         end ;;
         if Js.truthy testExecutionKey
         then logger Info ("ðŸŽ‰ Successfully integrated with Xray! Test Execution: "
                           ++ Js.show testExecutionKey)
         else
           logger Info "ðŸ“‹ Partial integration completed - test cases updated but execution not created" ;;
           logger Info "ðŸ”§ To create test executions, ensure test cases exist in Xray Test Repository")
        reportToXray_catch
  end.

Definition onEnd_catch (error : Js.Error) : M unit :=
  logger ErrorLevel ("Failed to report to Xray: " ++ Js.Error_toString error).

Definition onEnd (env : Env) (this : Reporter) : M unit :=
  logger Info "Xray Reporter (Hybrid): Test execution completed" ;;
  try_catch
    (if XrayConfigManager.validateConfig (config env)
     then reportToXray env this
     else logger Warn "Xray configuration is incomplete. Skipping Xray reporting.")
    onEnd_catch.

End XrayReporterHybrid.

(** ** [GoogleHomePage] ([src/pages/google/GoogleHomePage.ts]) *)

(** What the browser shows when the page object looks: whether the two
    locators become visible within the timeout, and the page title. *)
Record Page := mkPage {
  googleLogo_visible : bool;
  searchInput_visible : bool;
  page_title : string
}.

Module BasePage.

(** [expect(locator).toBeVisible()] throws when the element does not
    show up in time. *)
Definition assertElementVisible (visible : bool) (message : option string)
  : M unit :=
  if visible
  then logger Debug (Js.or_default message "Element visibility assertion passed")
  else throw (Js.NewError "expect(locator).toBeVisible() failed").

Definition getTitle (page : Page) : M string :=
  let title := page_title page in
  logger Debug ("Page title: " ++ title) ;;
  ret title.

End BasePage.

Module GoogleHomePage.

Definition verifyPageLoaded (page : Page) : M unit :=
  BasePage.assertElementVisible (googleLogo_visible page)
    (Some "Google logo should be visible") ;;
  BasePage.assertElementVisible (searchInput_visible page)
    (Some "Search input should be visible") ;;
  title <- BasePage.getTitle page ;
  if negb (Js.includes (Js.toLowerCase title) "google")
  then throw (Js.NewError ("Expected page title to contain 'Google', but got: "
                           ++ title))
  else logger Info "Google home page verified successfully".

End GoogleHomePage.

(** ** The remaining clients and reporters

    The other variants of the client and of the reporter differ from the
    ones above in endpoints and payloads.  What is needed of them here is
    how they treat a failure (each [catch] block and each rejection
    interceptor) and, for the reporters, how they map a Playwright
    status. *)

(** Of [XrayClient] of [src/utils/xray-client.ts], which creates a test execution issue and adds the tests to it. *)

Module XrayClient.

Definition interceptor_onRejected :=
  @onRejected (option Data) "Xray" false.

Definition createTestExecution_catch (error : Js.Error) : M (option string) :=
  logger ErrorLevel ("Failed to create test execution: " ++ Js.Error_toString error) ;;
  throw error.

Definition addTestsToExecution_catch (error : Js.Error) : M (option string) :=
  logger ErrorLevel ("Failed to add tests to execution: " ++ Js.Error_toString error) ;;
  throw error.

Definition updateTestExecutionStatus_catch (error : Js.Error) : M (option string) :=
  logger ErrorLevel ("Failed to update test execution status: " ++ Js.Error_toString error) ;;
  throw error.

End XrayClient.

(** Of [XrayClient] of [src/utils/xray-client-simple.ts]. *)

Module XrayClientSimple.

Definition interceptor_onRejected :=
  @onRejected (option Data) "Xray" false.

Definition createTestExecution_catch (error : Js.Error) : M (option string) :=
  logger ErrorLevel ("Failed to create test execution: " ++ Js.Error_toString error) ;;
  throw error.

Definition addTestsToExecution_catch (testExecutionKey : string) (error : Js.Error) : M (option string) :=
  logger ErrorLevel ("Failed to add tests to execution " ++ testExecutionKey ++ ": " ++ Js.Error_toString error) ;;
  throw error.

Definition updateTestExecutionStatus_catch (testExecutionKey : string) (error : Js.Error) : M unit :=
  logger Warn ("Could not update test execution status for " ++ testExecutionKey ++ ": " ++ Js.Error_toString error) ;;
  logger Info ("Test execution " ++ testExecutionKey ++ " completed successfully without status update").

End XrayClientSimple.

(** Of [XrayCloudClient] of [src/utils/xray-cloud-client.ts]. *)

Module XrayCloudClient.

Definition interceptor_onRejected :=
  @onRejected (option Data) "Xray Cloud" true.

Definition findTestCase_catch (testKey : string) (error : Js.Error) : M (option Data) :=
  logger Info ("Test case " ++ testKey ++ " not found in Xray Cloud - will import it") ;;
  ret None.

Definition importTestCase_catch (testKey : string) (error : Js.Error) : M (option string) :=
  logger ErrorLevel ("Failed to import test case " ++ testKey ++ " to Xray Cloud: " ++ Js.Error_toString error) ;;
  ret None.

Definition updateTestCaseStatus_catch (testKey : string) (error : Js.Error) : M bool :=
  logger ErrorLevel ("Failed to update test case " ++ testKey ++ " status in Xray Cloud: " ++ Js.Error_toString error) ;;
  ret false.

Definition createTestExecution_catch (error : Js.Error) : M (option string) :=
  logger ErrorLevel ("Failed to create test execution in Xray Cloud: " ++ Js.Error_toString error) ;;
  ret None.

Definition addTestExecutionComment_catch (testKey : string) (error : Js.Error) : M bool :=
  logger ErrorLevel ("Failed to add comment to test case " ++ testKey ++ " in Xray Cloud: " ++ Js.Error_toString error) ;;
  ret false.

End XrayCloudClient.

(** Of [XrayServerClient] of [src/utils/xray-server-client.ts]. *)

Module XrayServerClient.

Definition interceptor_onRejected :=
  @onRejected (option Data) "Xray Server" true.

Definition findTestCase_catch (testKey : string) (error : Js.Error) : M (option Data) :=
  logger Info ("Test case " ++ testKey ++ " not found in Xray Server - will create it") ;;
  ret None.

Definition findTestCaseByDescription_catch (error : Js.Error) : M (option Data) :=
  logger ErrorLevel ("Failed to search test case by description: " ++ Js.Error_toString error) ;;
  ret None.

Definition updateTestCaseSummary_catch (testKey : string) (error : Js.Error) : M bool :=
  logger ErrorLevel ("Failed to update test case " ++ testKey ++ " summary: " ++ Js.Error_toString error) ;;
  ret false.

Definition createTestCase_catch (testKey : string) (error : Js.Error) : M (option string) :=
  logger ErrorLevel ("Failed to create test case " ++ testKey ++ " in Xray Server: " ++ Js.Error_toString error) ;;
  ret None.

Definition updateTestCaseStatus_catch (testKey : string) (error : Js.Error) : M bool :=
  logger ErrorLevel ("Failed to update test case " ++ testKey ++ " status in Xray Server: " ++ Js.Error_toString error) ;;
  ret false.

Definition ensureTestExecutionExists_catch (error : Js.Error) : M (option string) :=
  logger ErrorLevel ("Failed to ensure test execution exists: " ++ Js.Error_toString error) ;;
  ret None.

Definition addTestCaseToExecution_catch (error : Js.Error) : M (option string) :=
  logger ErrorLevel ("Failed to add test case to execution: " ++ Js.Error_toString error) ;;
  ret None.

Definition createTestExecution_catch (error : Js.Error) : M (option string) :=
  logger ErrorLevel ("Failed to create test execution in Xray Server: " ++ Js.Error_toString error) ;;
  ret None.

End XrayServerClient.

(** Of [XrayClient] of [src/utils/xray-client.ts.old]. *)

Module XrayClientOld.

Definition interceptor_onRejected :=
  @onRejected (option Data) "Xray" false.

Definition createTestExecution_catch (error : Js.Error) : M (option string) :=
  logger ErrorLevel ("Failed to create test execution: " ++ Js.Error_toString error) ;;
  throw error.

Definition addTestsToExecution_catch (testExecutionKey : string) (error : Js.Error) : M (option string) :=
  logger ErrorLevel ("Failed to add tests to execution " ++ testExecutionKey ++ ": " ++ Js.Error_toString error) ;;
  throw error.

Definition updateTestExecutionStatus_catch (error : Js.Error) : M (option string) :=
  logger ErrorLevel ("Failed to update test execution status: " ++ Js.Error_toString error) ;;
  throw error.

Definition getTestExecution_catch (testExecutionKey : string) (error : Js.Error) : M (option string) :=
  logger ErrorLevel ("Failed to get test execution " ++ testExecutionKey ++ ": " ++ Js.Error_toString error) ;;
  throw error.

Definition searchTestCases_catch (error : Js.Error) : M (option string) :=
  logger ErrorLevel ("Failed to search test cases: " ++ Js.Error_toString error) ;;
  throw error.

Definition getTestCase_catch (testKey : string) (error : Js.Error) : M (option string) :=
  logger ErrorLevel ("Failed to get test case " ++ testKey ++ ": " ++ Js.Error_toString error) ;;
  throw error.

End XrayClientOld.

(** Of the [XrayClient] variant that looks test cases up and updates their status. *)

Module XrayClientUpdating.

Definition interceptor_onRejected :=
  @onRejected (option Data) "Xray" false.

Definition findTestCase_catch (testKey : string) (error : Js.Error) : M (option Data) :=
  logger ErrorLevel ("Failed to find test case " ++ testKey ++ ": " ++ Js.Error_toString error) ;;
  ret None.

Definition updateTestCaseStatus_catch (testKey : string) (error : Js.Error) : M unit :=
  logger ErrorLevel ("Failed to update test case " ++ testKey ++ " status: " ++ Js.Error_toString error).

Definition createTestExecution_catch (error : Js.Error) : M (option string) :=
  logger ErrorLevel ("Failed to create test execution: " ++ Js.Error_toString error) ;;
  throw error.

End XrayClientUpdating.

(** Of [XrayCloudClientAuth], the cloud client that authenticates first. *)

Module XrayCloudClientAuth.

Definition interceptor_onRejected :=
  @onRejected (option Data) "Xray Cloud" true.

Definition authenticate_catch (error : Js.Error) : M (option string) :=
  logger ErrorLevel ("Failed to authenticate with Xray Cloud: " ++ Js.Error_toString error) ;;
  throw error.

Definition findTestCase_catch (testKey : string) (error : Js.Error) : M (option Data) :=
  logger Info ("Test case " ++ testKey ++ " not found in Xray Cloud - will import it") ;;
  ret None.

Definition importTestCase_catch (testKey : string) (error : Js.Error) : M (option string) :=
  logger ErrorLevel ("Failed to import test case " ++ testKey ++ " to Xray Cloud: " ++ Js.Error_toString error) ;;
  ret None.

Definition updateTestCaseStatus_catch (testKey : string) (error : Js.Error) : M bool :=
  logger ErrorLevel ("Failed to update test case " ++ testKey ++ " status in Xray Cloud: " ++ Js.Error_toString error) ;;
  ret false.

Definition createTestExecution_catch (error : Js.Error) : M (option string) :=
  logger ErrorLevel ("Failed to create test execution in Xray Cloud: " ++ Js.Error_toString error) ;;
  ret None.

Definition addTestExecutionComment_catch (testKey : string) (error : Js.Error) : M bool :=
  logger ErrorLevel ("Failed to add comment to test case " ++ testKey ++ " in Xray Cloud: " ++ Js.Error_toString error) ;;
  ret false.

End XrayCloudClientAuth.

(** Of the [XrayServerClient] variant without the search by description. *)

Module XrayServerClientPlain.

Definition interceptor_onRejected :=
  @onRejected (option Data) "Xray Server" true.

Definition findTestCase_catch (testKey : string) (error : Js.Error) : M (option Data) :=
  logger Info ("Test case " ++ testKey ++ " not found in Xray Server - will create it") ;;
  ret None.

Definition createTestCase_catch (testKey : string) (error : Js.Error) : M (option string) :=
  logger ErrorLevel ("Failed to create test case " ++ testKey ++ " in Xray Server: " ++ Js.Error_toString error) ;;
  ret None.

Definition updateTestCaseStatus_catch (testKey : string) (error : Js.Error) : M bool :=
  logger ErrorLevel ("Failed to update test case " ++ testKey ++ " status in Xray Server: " ++ Js.Error_toString error) ;;
  ret false.

Definition addTestExecutionComment_catch (testKey : string) (error : Js.Error) : M bool :=
  logger ErrorLevel ("Failed to add comment to test case " ++ testKey ++ " in Xray Server: " ++ Js.Error_toString error) ;;
  ret false.

Definition createTestExecution_catch (error : Js.Error) : M (option string) :=
  logger ErrorLevel ("Failed to create test execution in Xray Server: " ++ Js.Error_toString error) ;;
  ret None.

End XrayServerClientPlain.

(** Of the [XrayClient] variant that creates missing test cases. *)

Module XrayClientCreating.

Definition interceptor_onRejected :=
  @onRejected (option Data) "Xray" true.

Definition findTestCase_catch (testKey : string) (error : Js.Error) : M (option Data) :=
  logger ErrorLevel ("Failed to find test case " ++ testKey ++ ": " ++ Js.Error_toString error) ;;
  ret None.

Definition createTestCase_catch (testKey : string) (error : Js.Error) : M (option string) :=
  logger ErrorLevel ("Failed to create test case " ++ testKey ++ ": " ++ Js.Error_toString error) ;;
  throw error.

Definition updateTestCaseStatus_catch (testKey : string) (error : Js.Error) : M unit :=
  logger ErrorLevel ("Failed to update test case " ++ testKey ++ " status: " ++ Js.Error_toString error).

Definition createTestExecution_catch (error : Js.Error) : M (option string) :=
  logger ErrorLevel ("Failed to create test execution: " ++ Js.Error_toString error) ;;
  throw error.

End XrayClientCreating.

(** Of [XrayReporterFull] of [xray-reporter-full.js]. *)

Module XrayReporterFull.

Definition mapTestStatus (playwrightStatus : string) : string :=
  if String.eqb playwrightStatus "passed" then "PASSED"
  else if String.eqb playwrightStatus "failed" then "FAILED"
  else if String.eqb playwrightStatus "skipped" then "SKIPPED"
  else if String.eqb playwrightStatus "timedOut" then "FAILED"
  else "FAILED".

Definition onEnd_catch (error : Js.Error) : M unit :=
  logger ErrorLevel ("Failed to report to Xray: " ++ Js.Error_toString error).

Definition reportToXray_catch (error : Js.Error) : M (option string) :=
  logger ErrorLevel ("Failed to report test results to Xray: " ++ Js.Error_toString error) ;;
  throw error.

(** The rest of the class ([xray-reporter-full.js]). *)

Definition new (env : Env) (opts : Options) : M Reporter :=
  now <- Date_now env ;
  ret (mkReporter opts [] now).

Definition extractTestKey (test : TestCase) : option string :=
  match Regex.match1 Regex.title_re (title test) with
  | Some key => Some key
  | None =>
      let fileName :=
        Path.basename
          (Js.or_default (option_map file (location test)) "") in
      match Regex.match1 Regex.file_re fileName with
      | Some key => Some key
      | None => None
      end
  end.

Definition generateTestComment (test : TestCase) (result : TestResult) : string :=
  let comment := "Test: " ++ title test ++ nl in
  let comment := comment ++ "Status: " ++ r_status result ++ nl in
  let comment :=
    comment ++ "Duration: "
    ++ Js.show_Z (match duration result with Some d => d | None => 0%Z end)
    ++ "ms" ++ nl in
  match error result with
  | Some e => comment ++ "Error: " ++ Js.show (message e) ++ nl
  | None => comment
  end.

Definition generateEvidence (test : TestCase) (result : TestResult)
  : list (option string) :=
  match attachments result with
  | Some l => map path l
  | None => []
  end.

Definition onBegin (env : Env) (this : Reporter) : M Reporter :=
  logger Info "Xray Reporter (Full): Test execution started" ;;
  now <- Date_now env ;
  ret (mkReporter (options this) (testResults this) now).

Definition onTestBegin (env : Env) (this : Reporter) (test : TestCase)
    (result : TestResult) : M Reporter :=
  match extractTestKey test with
  | Some testKey =>
      ret (mkReporter (options this)
             (Map_set (testResults this) (id test)
                {| testKey := testKey;
                   status := "EXECUTING";
                   comment := Some ("Test started: " ++ title test);
                   evidence := None;
                   executionTime := Some 0%Z |})
             (startTime this))
  | None => ret this
  end.

Definition onTestEnd (env : Env) (this : Reporter) (test : TestCase)
    (result : TestResult) : M Reporter :=
  match extractTestKey test with
  | Some testKey =>
      let status := mapTestStatus (r_status result) in
      let executionTime := match duration result with Some d => d | None => 0%Z end in
      let xrayResult :=
        {| testKey := testKey;
           status := status;
           comment := Some (generateTestComment test result);
           evidence := Some (generateEvidence test result);
           executionTime := Some executionTime |} in
      logger Info ("Test " ++ testKey ++ " completed with status: " ++ status) ;;
      ret (mkReporter (options this)
             (Map_set (testResults this) (id test) xrayResult)
             (startTime this))
  | None => ret this
  end.

(** Step 2 of [reportToXray]: one comment per collected result. *)
Fixpoint comment_loop (env : Env) (results : list XrayTestResult) : M unit :=
  match results with
  | [] => ret tt
  | test :: rest =>
      XrayClientFull.addTestExecutionComment env (testKey test) (status test)
        (executionTime test) (comment test) ;;
      comment_loop env rest
  end.

(** The summary lines are given with the bytes they have in the source
    file. *)
Definition reportToXray (env : Env) (this : Reporter) : M unit :=
  let results := Map_values (testResults this) in
  match results with
  | [] => logger Warn "No test results to report to Xray"
  | _ :: _ =>
      try_catch
        (XrayClientFull.getInstance env ;;
         logger Info "Updating test case statuses..." ;;
         XrayClientFull.updateAllTestCaseStatuses env results ;;
         logger Info "Adding execution comments to test cases..." ;;
         comment_loop env results ;;
         logger Info "Creating test execution..." ;;
         iso <- Date_toISOString env ;
         now <- Date_now env ;
         let executionInfo :=
           {| summary := "Automated Test Execution - " ++ iso;
              description :=
                Some ("Playwright test execution completed in "
                      ++ Js.show_Z (now - startTime this) ++ "ms" ++ nl ++ nl
                      ++ "Test Results:" ++ nl
                      ++ Js.join nl
                           (map (fun r => "- " ++ testKey r ++ ": " ++ status r)
                                results));
              testEnvironments :=
                Some [Js.or_else (o_environment (options this))
                                 (cfg_environment (config env))];
              testPlanKey := o_testPlanKey (options this);
              version := Js.or_else (o_version (options this))
                                    (cfg_version (config env));
              user := Some (jiraUsername (config env));
              startDate := None |} in
         testExecutionKey <-
           XrayClientFull.createTestExecution env
             (mkExecution executionInfo results) ;
         logger Info "=== Xray Integration Summary ===" ;;
         logger Info ("âœ… Test Execution Created: " ++ Js.show testExecutionKey) ;;
         logger Info ("âœ… Test Cases Updated: " ++ Js.show_nat (length results)) ;;
         logger Info ("âœ… Status Updates: "
                      ++ Js.join ", "
                           (map (fun r => testKey r ++ " -> " ++ status r) results)) ;;
         logger Info "=== End Xray Integration Summary ===" ;;
         match o_outputDir (options this) with
         | Some (String c d) =>
             let outputFile := Path.join (String c d) "xray-execution-key.txt" in
             writeKeyFile env outputFile testExecutionKey ;;
             logger Info ("Test execution key saved to: " ++ outputFile)
         | _ => ret tt
         end ;;
         logger Info ("ðŸŽ‰ Successfully integrated with Xray! Test Execution: "
                      ++ Js.show testExecutionKey))
        (fun error =>
           logger ErrorLevel ("Failed to report test results to Xray: "
                              ++ Js.Error_toString error) ;;
           throw error)
  end.

Definition onEnd (env : Env) (this : Reporter) : M unit :=
  logger Info "Xray Reporter (Full): Test execution completed" ;;
  try_catch
    (if XrayConfigManager.validateConfig (config env)
     then reportToXray env this
     else logger Warn "Xray configuration is incomplete. Skipping Xray reporting.")
    onEnd_catch.

End XrayReporterFull.

(** Of [XrayReporterServer] of [xray-reporter-server.js]. *)

Module XrayReporterServer.

Definition mapTestStatus (playwrightStatus : string) : string :=
  if String.eqb playwrightStatus "passed" then "PASSED"
  else if String.eqb playwrightStatus "failed" then "FAILED"
  else if String.eqb playwrightStatus "skipped" then "SKIPPED"
  else if String.eqb playwrightStatus "timedOut" then "FAILED"
  else "FAILED".

Definition onEnd_catch (error : Js.Error) : M unit :=
  logger ErrorLevel ("Failed to report to Xray Server: " ++ Js.Error_toString error).

Definition reportToXrayServer_catch (error : Js.Error) : M (option string) :=
  logger ErrorLevel ("Failed to report test results to Xray Server: " ++ Js.Error_toString error) ;;
  throw error.

End XrayReporterServer.

(** Of [XrayReporterSimple]. *)

Module XrayReporterSimple.

Definition mapTestStatus (playwrightStatus : string) : string :=
  if String.eqb playwrightStatus "passed" then "PASSED"
  else if String.eqb playwrightStatus "failed" then "FAILED"
  else if String.eqb playwrightStatus "skipped" then "SKIPPED"
  else if String.eqb playwrightStatus "timedOut" then "FAILED"
  else "FAILED".

Definition onEnd_catch (error : Js.Error) : M unit :=
  logger ErrorLevel ("Failed to report to Xray: " ++ Js.Error_toString error).

Definition reportToXray_catch (error : Js.Error) : M (option string) :=
  logger ErrorLevel ("Failed to report test results: " ++ Js.Error_toString error) ;;
  throw error.

End XrayReporterSimple.

(** Of the second copy of [XrayReporterServer]. *)

Module XrayReporterServerCopy.

Definition mapTestStatus (playwrightStatus : string) : string :=
  if String.eqb playwrightStatus "passed" then "PASSED"
  else if String.eqb playwrightStatus "failed" then "FAILED"
  else if String.eqb playwrightStatus "skipped" then "SKIPPED"
  else if String.eqb playwrightStatus "timedOut" then "FAILED"
  else "FAILED".

Definition onEnd_catch (error : Js.Error) : M unit :=
  logger ErrorLevel ("Failed to report to Xray Server: " ++ Js.Error_toString error).

Definition reportToXrayServer_catch (error : Js.Error) : M (option string) :=
  logger ErrorLevel ("Failed to report test results to Xray Server: " ++ Js.Error_toString error) ;;
  throw error.

End XrayReporterServerCopy.

(** Of the TypeScript [XrayReporter], which reports through [XrayClient]. *)

Module XrayReporterTs.

Definition mapTestStatus (playwrightStatus : string) : string :=
  if String.eqb playwrightStatus "passed" then "PASSED"
  else if String.eqb playwrightStatus "failed" then "FAILED"
  else if String.eqb playwrightStatus "skipped" then "SKIPPED"
  else if String.eqb playwrightStatus "timedOut" then "FAILED"
  else "FAILED".

Definition onEnd_catch (error : Js.Error) : M unit :=
  logger ErrorLevel ("Failed to report to Xray: " ++ Js.Error_toString error).

Definition reportToXray_catch (error : Js.Error) : M (option string) :=
  logger ErrorLevel ("Failed to report test results to Xray: " ++ Js.Error_toString error) ;;
  throw error.

End XrayReporterTs.

(** Of [XrayReporterCloud]. *)

Module XrayReporterCloud.

Definition mapTestStatus (playwrightStatus : string) : string :=
  if String.eqb playwrightStatus "passed" then "PASSED"
  else if String.eqb playwrightStatus "failed" then "FAILED"
  else if String.eqb playwrightStatus "skipped" then "SKIPPED"
  else if String.eqb playwrightStatus "timedOut" then "FAILED"
  else "FAILED".

Definition onEnd_catch (error : Js.Error) : M unit :=
  logger ErrorLevel ("Failed to report to Xray Cloud: " ++ Js.Error_toString error).

Definition reportToXrayCloud_catch (error : Js.Error) : M (option string) :=
  logger ErrorLevel ("Failed to report test results to Xray Cloud: " ++ Js.Error_toString error) ;;
  throw error.

End XrayReporterCloud.

(** ** The failure handlers, gathered

    A handler runs on the caught error, in the context of the failed
    call: the key the method was given ([testKey] or
    [testExecutionKey]) and, for an interceptor, the request and the
    response the error carries.  [h_fallback] is the value a handler of
    that result type hands back when it swallows the error: [null],
    [false], or nothing. *)

Record Ctx := mkCtx {
  key : string;
  c_method : Method;
  c_url : string;
  c_resp : option (Z * string)
}.

Record Handler := mkHandler {
  h_name : string;
  h_type : Type;
  h_fallback : h_type;
  h_run : Ctx -> Js.Error -> M h_type
}.

(** Every [catch] block of the reporters and of the Xray clients, class
    by class and in the order of the sources. *)
Definition catch_blocks : list Handler :=
[
  mkHandler "XrayClientFull.findTestCase" (option Data) None (fun c => XrayClientFull.findTestCase_catch (key c));
  mkHandler "XrayClientFull.createTestCase" (option string) None (fun c => XrayClientFull.createTestCase_catch (key c));
  mkHandler "XrayClientFull.updateTestCaseStatus" (unit) tt (fun c => XrayClientFull.updateTestCaseStatus_catch (key c));
  mkHandler "XrayClientFull.createTestExecution" (option string) None (fun c => XrayClientFull.createTestExecution_catch);
  mkHandler "XrayClientFull.addTestExecutionComment" (unit) tt (fun c => XrayClientFull.addTestExecutionComment_catch (key c));
  mkHandler "XrayClientReadOnly.findTestCase" (option Data) None (fun c => XrayClientReadOnly.findTestCase_catch (key c));
  mkHandler "XrayClientReadOnly.createTestExecution" (option string) None (fun c => XrayClientReadOnly.createTestExecution_catch);
  mkHandler "XrayClientHybrid.findTestCase" (option Data) None (fun c => XrayClientHybrid.findTestCase_catch (key c));
  mkHandler "XrayClientHybrid.tryCreateTestCase" (option string) None (fun c => XrayClientHybrid.tryCreateTestCase_catch (key c));
  mkHandler "XrayClientHybrid.updateTestCaseStatus" (bool) false (fun c => XrayClientHybrid.updateTestCaseStatus_catch (key c));
  mkHandler "XrayClientHybrid.addTestExecutionComment" (bool) false (fun c => XrayClientHybrid.addTestExecutionComment_catch (key c));
  mkHandler "XrayClientHybrid.createTestExecution" (option string) None (fun c => XrayClientHybrid.createTestExecution_catch);
  mkHandler "XrayReporter.reportToXray" (unit) tt (fun c => XrayReporter.reportToXray_catch);
  mkHandler "XrayReporter.onEnd" (unit) tt (fun c => XrayReporter.onEnd_catch);
  mkHandler "XrayReporterHybrid.reportToXray" (unit) tt (fun c => XrayReporterHybrid.reportToXray_catch);
  mkHandler "XrayReporterHybrid.onEnd" (unit) tt (fun c => XrayReporterHybrid.onEnd_catch);
  mkHandler "XrayClient.createTestExecution" (option string) None (fun c => XrayClient.createTestExecution_catch);
  mkHandler "XrayClient.addTestsToExecution" (option string) None (fun c => XrayClient.addTestsToExecution_catch);
  mkHandler "XrayClient.updateTestExecutionStatus" (option string) None (fun c => XrayClient.updateTestExecutionStatus_catch);
  mkHandler "XrayClientSimple.createTestExecution" (option string) None (fun c => XrayClientSimple.createTestExecution_catch);
  mkHandler "XrayClientSimple.addTestsToExecution" (option string) None (fun c => XrayClientSimple.addTestsToExecution_catch (key c));
  mkHandler "XrayClientSimple.updateTestExecutionStatus" (unit) tt (fun c => XrayClientSimple.updateTestExecutionStatus_catch (key c));
  mkHandler "XrayCloudClient.findTestCase" (option Data) None (fun c => XrayCloudClient.findTestCase_catch (key c));
  mkHandler "XrayCloudClient.importTestCase" (option string) None (fun c => XrayCloudClient.importTestCase_catch (key c));
  mkHandler "XrayCloudClient.updateTestCaseStatus" (bool) false (fun c => XrayCloudClient.updateTestCaseStatus_catch (key c));
  mkHandler "XrayCloudClient.createTestExecution" (option string) None (fun c => XrayCloudClient.createTestExecution_catch);
  mkHandler "XrayCloudClient.addTestExecutionComment" (bool) false (fun c => XrayCloudClient.addTestExecutionComment_catch (key c));
  mkHandler "XrayServerClient.findTestCase" (option Data) None (fun c => XrayServerClient.findTestCase_catch (key c));
  mkHandler "XrayServerClient.findTestCaseByDescription" (option Data) None (fun c => XrayServerClient.findTestCaseByDescription_catch);
  mkHandler "XrayServerClient.updateTestCaseSummary" (bool) false (fun c => XrayServerClient.updateTestCaseSummary_catch (key c));
  mkHandler "XrayServerClient.createTestCase" (option string) None (fun c => XrayServerClient.createTestCase_catch (key c));
  mkHandler "XrayServerClient.updateTestCaseStatus" (bool) false (fun c => XrayServerClient.updateTestCaseStatus_catch (key c));
  mkHandler "XrayServerClient.ensureTestExecutionExists" (option string) None (fun c => XrayServerClient.ensureTestExecutionExists_catch);
  mkHandler "XrayServerClient.addTestCaseToExecution" (option string) None (fun c => XrayServerClient.addTestCaseToExecution_catch);
  mkHandler "XrayServerClient.createTestExecution" (option string) None (fun c => XrayServerClient.createTestExecution_catch);
  mkHandler "XrayClientOld.createTestExecution" (option string) None (fun c => XrayClientOld.createTestExecution_catch);
  mkHandler "XrayClientOld.addTestsToExecution" (option string) None (fun c => XrayClientOld.addTestsToExecution_catch (key c));
  mkHandler "XrayClientOld.updateTestExecutionStatus" (option string) None (fun c => XrayClientOld.updateTestExecutionStatus_catch);
  mkHandler "XrayClientOld.getTestExecution" (option string) None (fun c => XrayClientOld.getTestExecution_catch (key c));
  mkHandler "XrayClientOld.searchTestCases" (option string) None (fun c => XrayClientOld.searchTestCases_catch);
  mkHandler "XrayClientOld.getTestCase" (option string) None (fun c => XrayClientOld.getTestCase_catch (key c));
  mkHandler "XrayClientUpdating.findTestCase" (option Data) None (fun c => XrayClientUpdating.findTestCase_catch (key c));
  mkHandler "XrayClientUpdating.updateTestCaseStatus" (unit) tt (fun c => XrayClientUpdating.updateTestCaseStatus_catch (key c));
  mkHandler "XrayClientUpdating.createTestExecution" (option string) None (fun c => XrayClientUpdating.createTestExecution_catch);
  mkHandler "XrayCloudClientAuth.authenticate" (option string) None (fun c => XrayCloudClientAuth.authenticate_catch);
  mkHandler "XrayCloudClientAuth.findTestCase" (option Data) None (fun c => XrayCloudClientAuth.findTestCase_catch (key c));
  mkHandler "XrayCloudClientAuth.importTestCase" (option string) None (fun c => XrayCloudClientAuth.importTestCase_catch (key c));
  mkHandler "XrayCloudClientAuth.updateTestCaseStatus" (bool) false (fun c => XrayCloudClientAuth.updateTestCaseStatus_catch (key c));
  mkHandler "XrayCloudClientAuth.createTestExecution" (option string) None (fun c => XrayCloudClientAuth.createTestExecution_catch);
  mkHandler "XrayCloudClientAuth.addTestExecutionComment" (bool) false (fun c => XrayCloudClientAuth.addTestExecutionComment_catch (key c));
  mkHandler "XrayServerClientPlain.findTestCase" (option Data) None (fun c => XrayServerClientPlain.findTestCase_catch (key c));
  mkHandler "XrayServerClientPlain.createTestCase" (option string) None (fun c => XrayServerClientPlain.createTestCase_catch (key c));
  mkHandler "XrayServerClientPlain.updateTestCaseStatus" (bool) false (fun c => XrayServerClientPlain.updateTestCaseStatus_catch (key c));
  mkHandler "XrayServerClientPlain.addTestExecutionComment" (bool) false (fun c => XrayServerClientPlain.addTestExecutionComment_catch (key c));
  mkHandler "XrayServerClientPlain.createTestExecution" (option string) None (fun c => XrayServerClientPlain.createTestExecution_catch);
  mkHandler "XrayClientCreating.findTestCase" (option Data) None (fun c => XrayClientCreating.findTestCase_catch (key c));
  mkHandler "XrayClientCreating.createTestCase" (option string) None (fun c => XrayClientCreating.createTestCase_catch (key c));
  mkHandler "XrayClientCreating.updateTestCaseStatus" (unit) tt (fun c => XrayClientCreating.updateTestCaseStatus_catch (key c));
  mkHandler "XrayClientCreating.createTestExecution" (option string) None (fun c => XrayClientCreating.createTestExecution_catch);
  mkHandler "XrayReporterFull.onEnd" (unit) tt (fun c => XrayReporterFull.onEnd_catch);
  mkHandler "XrayReporterFull.reportToXray" (option string) None (fun c => XrayReporterFull.reportToXray_catch);
  mkHandler "XrayReporterServer.onEnd" (unit) tt (fun c => XrayReporterServer.onEnd_catch);
  mkHandler "XrayReporterServer.reportToXrayServer" (option string) None (fun c => XrayReporterServer.reportToXrayServer_catch);
  mkHandler "XrayReporterSimple.onEnd" (unit) tt (fun c => XrayReporterSimple.onEnd_catch);
  mkHandler "XrayReporterSimple.reportToXray" (option string) None (fun c => XrayReporterSimple.reportToXray_catch);
  mkHandler "XrayReporterServerCopy.onEnd" (unit) tt (fun c => XrayReporterServerCopy.onEnd_catch);
  mkHandler "XrayReporterServerCopy.reportToXrayServer" (option string) None (fun c => XrayReporterServerCopy.reportToXrayServer_catch);
  mkHandler "XrayReporterTs.onEnd" (unit) tt (fun c => XrayReporterTs.onEnd_catch);
  mkHandler "XrayReporterTs.reportToXray" (option string) None (fun c => XrayReporterTs.reportToXray_catch);
  mkHandler "XrayReporterCloud.onEnd" (unit) tt (fun c => XrayReporterCloud.onEnd_catch);
  mkHandler "XrayReporterCloud.reportToXrayCloud" (option string) None (fun c => XrayReporterCloud.reportToXrayCloud_catch)
].

(** Every rejection interceptor of the Xray clients. *)
Definition interceptors : list Handler :=
[
  mkHandler "axios (XrayClientFull, XrayClientReadOnly, XrayClientHybrid)" (option Data) None
    (fun c => @onRejected (option Data) "Xray" true (c_method c) (c_url c) (c_resp c));
  mkHandler "XrayClient.interceptor" (option Data) None
    (fun c => XrayClient.interceptor_onRejected (c_method c) (c_url c) (c_resp c));
  mkHandler "XrayClientSimple.interceptor" (option Data) None
    (fun c => XrayClientSimple.interceptor_onRejected (c_method c) (c_url c) (c_resp c));
  mkHandler "XrayCloudClient.interceptor" (option Data) None
    (fun c => XrayCloudClient.interceptor_onRejected (c_method c) (c_url c) (c_resp c));
  mkHandler "XrayServerClient.interceptor" (option Data) None
    (fun c => XrayServerClient.interceptor_onRejected (c_method c) (c_url c) (c_resp c));
  mkHandler "XrayClientOld.interceptor" (option Data) None
    (fun c => XrayClientOld.interceptor_onRejected (c_method c) (c_url c) (c_resp c));
  mkHandler "XrayClientUpdating.interceptor" (option Data) None
    (fun c => XrayClientUpdating.interceptor_onRejected (c_method c) (c_url c) (c_resp c));
  mkHandler "XrayCloudClientAuth.interceptor" (option Data) None
    (fun c => XrayCloudClientAuth.interceptor_onRejected (c_method c) (c_url c) (c_resp c));
  mkHandler "XrayServerClientPlain.interceptor" (option Data) None
    (fun c => XrayServerClientPlain.interceptor_onRejected (c_method c) (c_url c) (c_resp c));
  mkHandler "XrayClientCreating.interceptor" (option Data) None
    (fun c => XrayClientCreating.interceptor_onRejected (c_method c) (c_url c) (c_resp c))
].

Definition handlers : list Handler := catch_blocks ++ interceptors.

(** ** Vocabulary of the statements *)

Fixpoint all_chars (p : ascii -> bool) (s : string) : bool :=
  match s with
  | EmptyString => true
  | String c s' => p c && all_chars p s'
  end.

(** A test case key: one or more upper-case letters, a dash, one or more
    digits. *)
Definition is_key (k : string) : Prop :=
  exists letters digits : string,
    k = letters ++ "-" ++ digits
    /\ letters <> "" /\ all_chars Js.isUpper letters = true
    /\ digits <> "" /\ all_chars Js.isDigit digits = true.

(** [s] begins with the key [k], immediately followed by a colon. *)
Definition begins_with_key_colon (s k : string) : Prop :=
  is_key k /\ exists rest : string, s = k ++ ":" ++ rest.

(** [s] begins with the key [k]. *)
Definition begins_with_key (s k : string) : Prop :=
  is_key k /\ exists rest : string, s = k ++ rest.

(** Length of the longest prefix of [s] made of characters in [p], and
    what follows a prefix of a given length. *)
Fixpoint span_len (p : ascii -> bool) (s : string) : nat :=
  match s with
  | String c s' => if p c then S (span_len p s') else 0
  | EmptyString => 0
  end.

Fixpoint drop (n : nat) (s : string) : string :=
  match n, s with
  | S n', String _ s' => drop n' s'
  | _, _ => s
  end.

(** The file a test comes from, as [extractTestKey] reads it:
    [path.basename(test.location?.file || '')]. *)
Definition fileName_of (test : TestCase) : string :=
  Path.basename (Js.or_default (option_map file (location test)) "").

(** The lifecycle callbacks Playwright makes while tests run. *)
Inductive Callback :=
| Begin
| TestBegin (test : TestCase) (result : TestResult)
| TestEnd (test : TestCase) (result : TestResult).

Definition callback_test (c : Callback) : option TestCase :=
  match c with
  | Begin => None
  | TestBegin t _ | TestEnd t _ => Some t
  end.

Module Lifecycle.

Definition step_basic (env : Env) (this : Reporter) (c : Callback) : M Reporter :=
  match c with
  | Begin => XrayReporter.onBegin env this
  | TestBegin t r => XrayReporter.onTestBegin env this t r
  | TestEnd t r => XrayReporter.onTestEnd env this t r
  end.

Definition step_hybrid (env : Env) (this : Reporter) (c : Callback) : M Reporter :=
  match c with
  | Begin => XrayReporterHybrid.onBegin env this
  | TestBegin t r => XrayReporterHybrid.onTestBegin env this t r
  | TestEnd t r => XrayReporterHybrid.onTestEnd env this t r
  end.

(** A run of callbacks, in order, on one reporter instance. *)
Fixpoint run (step : Reporter -> Callback -> M Reporter) (this : Reporter)
    (cs : list Callback) : M Reporter :=
  match cs with
  | [] => ret this
  | c :: rest => this' <- step this c ; run step this' rest
  end.

End Lifecycle.

(** Events that stay on the machine and change nothing there: a log
    line, a look at the file system. *)
Definition local_event (e : Event) : Prop :=
  match e with
  | ELog _ _ | EExists _ => True
  | EHttp _ | EWrite _ _ => False
  end.

(** The public methods of [XrayClientHybrid], as calls a user of the
    instance can make. *)
Inductive HybridCall :=
| CallFindTestCase (testKey : string)
| CallTryCreateTestCase (testKey testTitle : string) (testDescription : option string)
| CallEnsureTestCaseExists (testKey testTitle : string) (testDescription : option string)
| CallUpdateTestCaseStatus (testKey status : string)
| CallUpdateAllTestCaseStatuses (testResults : list XrayTestResult)
| CallAddTestExecutionComment (testKey status : string) (executionTime : option Z)
    (comment : option string)
| CallCreateTestExecution (execution : XrayTestExecution).

Module HybridUse.

(** One call on the instance; what it returns is dropped. *)
Definition call_one (env : Env) (c : HybridCall) : M unit :=
  match c with
  | CallFindTestCase k => XrayClientHybrid.findTestCase env k ;; ret tt
  | CallTryCreateTestCase k t d => XrayClientHybrid.tryCreateTestCase env k t d ;; ret tt
  | CallEnsureTestCaseExists k t d =>
      XrayClientHybrid.ensureTestCaseExists env k t d ;; ret tt
  | CallUpdateTestCaseStatus k st => XrayClientHybrid.updateTestCaseStatus env k st ;; ret tt
  | CallUpdateAllTestCaseStatuses rs => XrayClientHybrid.updateAllTestCaseStatuses env rs
  | CallAddTestExecutionComment k st t c =>
      XrayClientHybrid.addTestExecutionComment env k st t c ;; ret tt
  | CallCreateTestExecution ex => XrayClientHybrid.createTestExecution env ex ;; ret tt
  end.

(** The world after a series of calls on the one instance, whatever each
    call returned or threw. *)
Fixpoint calls (env : Env) (cs : list HybridCall) (w : World) : World :=
  match cs with
  | [] => w
  | c :: rest => calls env rest (after w (call_one env c w))
  end.

End HybridUse.

(** The request by which every client looks a test case up. *)
Definition lookup (testKey : string) : Request :=
  mkRequest GET ("/issue/" ++ testKey) BNone.

(** What [findTestCase] makes of the answer to a lookup: the issue, when
    the call resolved with data that carry [fields.issuetype]. *)
Definition found_data (r : Response) : option Data :=
  match r with
  | Resolved (Some d) =>
      match d_fields d with
      | Some f => match issuetype f with Some _ => Some d | None => None end
      | None => None
      end
  | _ => None
  end.

(** The key resolves to an existing issue. *)
Definition resolves (r : Response) : bool :=
  match found_data r with Some _ => true | None => false end.

(** The tests of a report whose keys resolve, when they are looked up one
    after the other by a client whose requests so far are [hist]. *)
Fixpoint found_tests (env : Env) (hist : list Request)
    (ts : list XrayTestResult) : list XrayTestResult :=
  match ts with
  | [] => []
  | t :: rest =>
      let q := lookup (testKey t) in
      ((if resolves (server env hist q) then [t] else [])
       ++ found_tests env (hist ++ [q]) rest)%list
  end.

(** A request that creates a test execution with the given tests. *)
Definition creates_execution (r : Request) (ts : list PayloadTest) : Prop :=
  exists i, r = mkRequest POST "/testexecution" (BExecution i ts).

Definition is_execution_post (r : Request) : bool :=
  match req_method r, req_body r with
  | POST, BExecution _ _ => String.eqb (req_url r) "/testexecution"
  | _, _ => false
  end.


Definition no_execution (r : Request) : Prop := is_execution_post r = false.

(** A request by which [ensureTestCaseExists] finds or creates a test
    case: a lookup, or the creation of an issue. *)
Definition ensures_test_case (r : Request) : Prop :=
  (exists k, r = lookup k)
  \/ (exists fields, r = mkRequest POST "/issue" (BIssue fields)).

(** A computation all of whose requests satisfy [P]. *)
Definition emits_only {A} (P : Request -> Prop) (m : M A) : Prop :=
  forall w, Forall P (requests_of (emitted (m w))).

(** A computation that never turns [canCreateIssues] back on. *)
Definition keeps_off {A} (m : M A) : Prop :=
  forall w, canCreateIssues w = false -> flag_after (m w) = false.

(** The error on which the constructor of a client fails, and the line
    [reportToXray] logs when it catches it. *)
Definition constructor_error : Js.Error :=
  Js.TypeError "this.config.getJiraApiUrlV2 is not a function".

Definition report_failure : Event :=
  ELog ErrorLevel
    "Failed to report test results to Xray: TypeError: this.config.getJiraApiUrlV2 is not a function".


(** ** A sample project

    A Jira server that knows the issue PROJ-1 and no other, accepts
    comments, status updates and test executions, and refuses to create
    issues; a complete configuration; a reporter that has collected one
    passed result for PROJ-1. *)

Module Sample.

Definition issue : Data :=
  mkData (Some "PROJ-1") (Some "10001") None
    (Some (mkFields (Some (mkIssueType (Some "Test"))) (Some "Login works"))).

Definition not_found : Response :=
  Rejected (Js.mkError "AxiosError" "Request failed with status code 404")
    (Some (404%Z, "{}")).

Definition forbidden : Response :=
  Rejected (Js.mkError "AxiosError" "Request failed with status code 403") None.

Definition jira (hist : list Request) (r : Request) : Response :=
  match req_method r with
  | GET => if String.eqb (req_url r) "/issue/PROJ-1"
           then Resolved (Some issue) else not_found
  | PUT => Resolved None
  | POST =>
      if String.eqb (req_url r) "/testexecution"
      then Resolved (Some (mkData (Some "PROJ-9") None None None))
      else if String.eqb (req_url r) "/issue/PROJ-1/comment"
           then Resolved (Some (mkData None (Some "20001") None None))
           else forbidden
  end.

Definition process_env (name : string) : option string :=
  if String.eqb name "JIRA_BASE_URL" then Some "https://jira.example.org"
  else if String.eqb name "JIRA_USERNAME" then Some "bot"
  else if String.eqb name "JIRA_API_TOKEN" then Some "secret"
  else if String.eqb name "JIRA_PROJECT_KEY" then Some "PROJ"
  else None.

Definition env : Env :=
  mkEnv jira (fun _ => 1735689600000%Z) (fun _ => "2025-01-01T00:00:00.000Z")
    (fun _ => false) (fun _ => None) (XrayConfigManager.new process_env).

Definition test : TestCase :=
  mkTestCase "a1b2-c3" "PROJ-1: login works"
    (Some (mkLocation "/repo/tests/login.spec.ts")).

Definition result : TestResult := mkTestResult "passed" (Some 1200%Z) None None.

Definition options : Options := mkOptions None None None None.

(** The lifecycle of a run of that one test, up to [onEnd]. *)
Definition callbacks : list Callback :=
  [Begin; TestBegin test result; TestEnd test result].

Definition basic_run : M unit :=
  this <- XrayReporter.new env options ;
  this <- Lifecycle.run (Lifecycle.step_basic env) this callbacks ;
  XrayReporter.onEnd env this.

(** The reporter as [onEnd] finds it in these runs. *)
Definition collected : Reporter :=
  mkReporter options
    [("a1b2-c3",
      mkResult "PROJ-1" "PASSED"
        (Some ("Test: PROJ-1: login works" ++ nl ++ "Status: passed" ++ nl
               ++ "Duration: 1200ms" ++ nl))
        (Some []) (Some 1200%Z))]
    1735689600000%Z.

End Sample.

(** ** How a handler treats the error it caught *)

Definition is_log (e : Event) : Prop :=
  match e with ELog _ _ => True | _ => False end.

(** The handler logs and does nothing else outside. *)
Definition only_logs (evs : list Event) : Prop :=
  evs <> [] /\ Forall is_log evs.

(** Log and continue: the fallback value is returned, nothing is sent,
    no state is changed. *)
Definition log_and_continue (h : Handler) : Prop :=
  forall c e w,
    let r := h_run h c e w in
    outcome r = Ret (h_fallback h) /\ only_logs (emitted r)
    /\ flag_after r = canCreateIssues w.

(** Log and throw: the error that was caught is thrown again, nothing is
    sent, no state is changed. *)
Definition log_and_throw (h : Handler) : Prop :=
  forall c e w,
    let r := h_run h c e w in
    outcome r = Throw e /\ only_logs (emitted r)
    /\ flag_after r = canCreateIssues w.

(** Log, switch creation off and continue. *)
Definition log_disable_and_continue (h : Handler) : Prop :=
  forall c e w,
    let r := h_run h c e w in
    outcome r = Ret (h_fallback h) /\ only_logs (emitted r)
    /\ flag_after r = false.

Definition tryCreateTestCase_handler : Handler :=
  mkHandler "XrayClientHybrid.tryCreateTestCase" (option string) None
    (fun c => XrayClientHybrid.tryCreateTestCase_catch (key c)).

(** ** [Environment] and [TestConfig]
       ([scripts/config/environment.js], [src/config/test-config.ts])

    Every logger, and so every client and reporter, is built on
    [TestConfig.getInstance()], which builds the [Environment].  The
    built-in [parseInt] and the type of the numbers it yields are
    parameters.  [console.warn] is not the logger: the warnings of
    [validateConfig] are returned beside its outcome. *)

Module Environment.

(** [v === s] for a value that is a string or [undefined]. *)
Definition is_string (v : option string) (s : string) : bool :=
  match v with
  | Some x => String.eqb x s
  | None => false
  end.

Record AzureConfig := mkAzure {
  connectionString : string;
  containerName : string
}.

Record LoggingConfig := mkLogging {
  level : string;
  toFile : bool;
  filePath : string
}.

Section Numbers.

Variable Num : Type.
Variable parseInt : string -> Num.

Record EmailConfig := mkEmail {
  email_host : string;
  email_port : Num;
  email_user : string;
  email_password : string;
  email_secure : bool
}.

Record SftpConfig := mkSftp {
  sftp_host : string;
  sftp_port : Num;
  sftp_username : string;
  sftp_password : option string;
  sftp_privateKeyPath : option string
}.

Record EnvironmentConfig := mkEnvironmentConfig {
  environment : string;
  baseUrl : string;
  headless : bool;
  slowMo : Num;
  timeout : Num;
  azure : AzureConfig;
  email : EmailConfig;
  sftp : SftpConfig;
  logging : LoggingConfig
}.

(** The object the constructor builds from [process.env]. *)
Definition config_of (process_env : string -> option string) : EnvironmentConfig :=
  {| environment := Js.or_default (process_env "ENVIRONMENT") "local";
     baseUrl := Js.or_default (process_env "BASE_URL") "https://www.google.com";
     headless := is_string (process_env "HEADLESS") "true"
                 || is_string (process_env "CI") "true";
     slowMo := parseInt (Js.or_default (process_env "SLOW_MO") "0");
     timeout := parseInt (Js.or_default (process_env "TIMEOUT") "30000");
     azure :=
       {| connectionString :=
            Js.or_default (process_env "AZURE_STORAGE_CONNECTION_STRING") "";
          containerName :=
            Js.or_default (process_env "AZURE_STORAGE_CONTAINER_NAME")
              "test-container" |};
     email :=
       {| email_host := Js.or_default (process_env "EMAIL_HOST") "smtp.gmail.com";
          email_port := parseInt (Js.or_default (process_env "EMAIL_PORT") "587");
          email_user := Js.or_default (process_env "EMAIL_USER") "";
          email_password := Js.or_default (process_env "EMAIL_PASSWORD") "";
          email_secure := is_string (process_env "EMAIL_SECURE") "true" |};
     sftp :=
       {| sftp_host := Js.or_default (process_env "SFTP_HOST") "";
          sftp_port := parseInt (Js.or_default (process_env "SFTP_PORT") "22");
          sftp_username := Js.or_default (process_env "SFTP_USERNAME") "";
          sftp_password := process_env "SFTP_PASSWORD";
          sftp_privateKeyPath := process_env "SFTP_PRIVATE_KEY_PATH" |};
     logging :=
       {| level := Js.or_default (process_env "LOG_LEVEL") "info";
          toFile := is_string (process_env "LOG_TO_FILE") "true";
          filePath := Js.or_default (process_env "LOG_FILE_PATH") "./logs/test.log" |}
  |}.

Definition azure_warning : string :=
  "AZURE_STORAGE_CONNECTION_STRING is not set. Azure Blob Storage utilities will not work.".

Definition email_warning : string :=
  "Email credentials are not set. Email validation utilities will not work.".

Definition sftp_warning : string :=
  "SFTP credentials are not set. SFTP utilities will not work.".

(** [validateConfig]: the warnings it prints, in order, and how it
    ends. *)
Definition validateConfig (c : EnvironmentConfig)
  : list string * Outcome unit :=
  let errors :=
    if negb (Js.truthy (Some (baseUrl c))) then ["BASE_URL is required"] else [] in
  let warnings :=
    ((if String.eqb (connectionString (azure c)) "" then [azure_warning] else [])
     ++ (if String.eqb (email_user (email c)) ""
            || String.eqb (email_password (email c)) ""
         then [email_warning] else [])
     ++ (if String.eqb (sftp_host (sftp c)) ""
            || String.eqb (sftp_username (sftp c)) ""
         then [sftp_warning] else []))%list in
  (warnings,
   match errors with
   | [] => Ret tt
   | _ :: _ =>
       Throw (Js.NewError ("Environment configuration errors: "
                           ++ Js.join ", " errors))
   end).

(** [new Environment()]: the instance exists when validation returns. *)
Definition new (process_env : string -> option string)
  : list string * Outcome EnvironmentConfig :=
  let c := config_of process_env in
  match validateConfig c with
  | (warnings, Ret _) => (warnings, Ret c)
  | (warnings, Throw e) => (warnings, Throw e)
  end.

End Numbers.

Arguments email_host {Num} _.
Arguments email_port {Num} _.
Arguments email_user {Num} _.
Arguments email_password {Num} _.
Arguments email_secure {Num} _.
Arguments sftp_host {Num} _.
Arguments sftp_port {Num} _.
Arguments sftp_username {Num} _.
Arguments sftp_password {Num} _.
Arguments sftp_privateKeyPath {Num} _.
Arguments environment {Num} _.
Arguments baseUrl {Num} _.
Arguments headless {Num} _.
Arguments slowMo {Num} _.
Arguments timeout {Num} _.
Arguments azure {Num} _.
Arguments email {Num} _.
Arguments sftp {Num} _.
Arguments logging {Num} _.
Arguments config_of {Num} parseInt process_env.
Arguments validateConfig {Num} c.
Arguments new {Num} parseInt process_env.

End Environment.

Module TestConfig.

Section Numbers.

Variable Num : Type.

Definition isCI (process_env : string -> option string)
    (config : Environment.EnvironmentConfig Num) : bool :=
  Environment.is_string (process_env "CI") "true"
  || String.eqb (Environment.environment config) "ci".

Definition isLocal (config : Environment.EnvironmentConfig Num) : bool :=
  String.eqb (Environment.environment config) "local".

End Numbers.

Arguments isCI {Num} process_env config.
Arguments isLocal {Num} config.

End TestConfig.

(** ** Vocabulary of the further properties *)

(** [Map.prototype.get] on the result map. *)
Fixpoint Map_get (m : list (string * XrayTestResult)) (k : string)
  : option XrayTestResult :=
  match m with
  | [] => None
  | (k', v) :: rest => if String.eqb k' k then Some v else Map_get rest k
  end.

(** The variables [validateConfig] needs. *)
Definition required_variables : list string :=
  ["JIRA_BASE_URL"; "JIRA_USERNAME"; "JIRA_API_TOKEN"; "JIRA_PROJECT_KEY"].

(** A computation that returns, whatever the world it starts in. *)
Definition never_throws {A} (m : M A) : Prop :=
  forall w, exists a, outcome (m w) = Ret a.

(** A computation that leaves [canCreateIssues] as it found it. *)
Definition keeps_flag {A} (m : M A) : Prop :=
  forall w, flag_after (m w) = canCreateIssues w.

Definition not_write (e : Event) : Prop :=
  match e with EWrite _ _ => False | _ => True end.

(** The requests the clients make, by kind. *)
Definition is_lookup (r : Request) : Prop := exists k, r = lookup k.

Definition status_update (r : Request) : Prop :=
  exists k name, r = mkRequest PUT ("/issue/" ++ k) (BStatus name).

Definition comment_post (r : Request) : Prop :=
  exists k body, r = mkRequest POST ("/issue/" ++ k ++ "/comment") (BComment body).

Definition issue_post (r : Request) : Prop :=
  exists fields, r = mkRequest POST "/issue" (BIssue fields).

Definition execution_post (r : Request) : Prop :=
  exists i ts, r = mkRequest POST "/testexecution" (BExecution i ts).

(** The lifecycle of a run on a fresh reporter, up to and including
    [onEnd]. *)
Definition basic_lifecycle (env : Env) (opts : Options) (cs : list Callback)
  : M unit :=
  this <- XrayReporter.new env opts ;
  this <- Lifecycle.run (Lifecycle.step_basic env) this cs ;
  XrayReporter.onEnd env this.

Definition hybrid_lifecycle (env : Env) (opts : Options) (cs : list Callback)
  : M unit :=
  this <- XrayReporterHybrid.new env opts ;
  this <- Lifecycle.run (Lifecycle.step_hybrid env) this cs ;
  XrayReporterHybrid.onEnd env this.

(** The requests [XrayReporterHybrid] makes. *)
Definition hybrid_report_request (r : Request) : Prop :=
  is_lookup r \/ status_update r \/ comment_post r \/ execution_post r.

(** [after] is [before] with [r] set as the result of [test]: one entry
    per test id. *)
Definition records (before after : Reporter) (test : TestCase)
    (r : XrayTestResult) : Prop :=
  Map_get (testResults after) (id test) = Some r
  /\ (forall i, i <> id test ->
        Map_get (testResults after) i = Map_get (testResults before) i)
  /\ length (testResults after)
     = match Map_get (testResults before) (id test) with
       | Some _ => length (testResults before)
       | None => S (length (testResults before))
       end.

(** The callbacks of the full reporter, and the three lifecycles. *)
Definition step_full (env : Env) (this : Reporter) (c : Callback) : M Reporter :=
  match c with
  | Begin => XrayReporterFull.onBegin env this
  | TestBegin t r => XrayReporterFull.onTestBegin env this t r
  | TestEnd t r => XrayReporterFull.onTestEnd env this t r
  end.

Definition full_lifecycle (env : Env) (opts : Options) (cs : list Callback)
  : M unit :=
  this <- XrayReporterFull.new env opts ;
  this <- Lifecycle.run (step_full env) this cs ;
  XrayReporterFull.onEnd env this.

(** No test of the run carries a key. *)
Definition keyless (cs : list Callback) : Prop :=
  forall t, In (Some t) (map callback_test cs) ->
            XrayReporter.extractTestKey t = None.

(** A path that is there: neither [undefined] nor empty. *)
Definition defined_path (p : option string) : Prop := Js.truthy p = true.

(** No white-space character starts anywhere in [s]. *)
Fixpoint no_space_b (s : string) : bool :=
  match s with
  | EmptyString => true
  | String _ s' => (space_length s =? 0)%nat && no_space_b s'
  end.

Definition no_space (s : string) : Prop := no_space_b s = true.

(** * Properties *)

(** ** Status mappings *)

Lemma eqb_cases (s t : string) : String.eqb s t = true /\ s = t \/ String.eqb s t = false.
Proof.
  destruct (String.eqb s t) eqn:E; [left | right]; auto.
  split; auto. now apply String.eqb_eq.
Qed.

Ltac by_string_cases s lits :=
  match lits with
  | nil => idtac
  | ?l :: ?rest =>
      let E := fresh "E" in
      destruct (eqb_cases s l) as [[E ->] | E];
      [ | rewrite ?E; by_string_cases s rest ]
  end.

(** C6. [XrayClientFull.mapXrayStatusToJira] and
    [XrayClientHybrid.mapXrayStatusToJira] return the same result on every
    input: 'Done' for 'PASSED', 'In Progress' for 'FAILED' and 'EXECUTING',
    and 'To Do' for 'SKIPPED', 'TODO' and every other string. *)
Theorem mapXrayStatusToJira_agree (xrayStatus : string) :
  XrayClientFull.mapXrayStatusToJira xrayStatus
  = XrayClientHybrid.mapXrayStatusToJira xrayStatus
  /\ XrayClientFull.mapXrayStatusToJira xrayStatus
     = (if String.eqb xrayStatus "PASSED" then "Done"
        else if String.eqb xrayStatus "FAILED" || String.eqb xrayStatus "EXECUTING"
             then "In Progress"
             else "To Do")
  /\ XrayClientFull.mapXrayStatusToJira "SKIPPED" = "To Do"
  /\ XrayClientFull.mapXrayStatusToJira "TODO" = "To Do".
Proof.
  repeat split.
  unfold XrayClientFull.mapXrayStatusToJira.
  by_string_cases xrayStatus
    ["PASSED"; "FAILED"; "SKIPPED"; "TODO"; "EXECUTING"]; reflexivity.
Qed.

Lemma mapTestStatus_cases (playwrightStatus : string) :
  XrayReporter.mapTestStatus playwrightStatus
  = (if String.eqb playwrightStatus "passed" then "PASSED"
     else if String.eqb playwrightStatus "skipped" then "SKIPPED"
     else "FAILED").
Proof.
  unfold XrayReporter.mapTestStatus.
  by_string_cases playwrightStatus ["passed"; "failed"; "skipped"; "timedOut"];
    reflexivity.
Qed.

(** C10. In every reporter variant [mapTestStatus] is a total function
    with a result among 'PASSED', 'FAILED', 'SKIPPED': 'passed' gives
    'PASSED', 'skipped' gives 'SKIPPED', and every other status
    ('timedOut', 'interrupted', anything unknown) gives 'FAILED'; the
    basic and the hybrid reporter agree on every input, and so do the
    other variants. *)
Theorem mapTestStatus_total (playwrightStatus : string) :
  XrayReporter.mapTestStatus playwrightStatus
  = XrayReporterHybrid.mapTestStatus playwrightStatus
  /\ XrayReporter.mapTestStatus playwrightStatus
     = (if String.eqb playwrightStatus "passed" then "PASSED"
        else if String.eqb playwrightStatus "skipped" then "SKIPPED"
        else "FAILED")
  /\ In (XrayReporter.mapTestStatus playwrightStatus)
        ["PASSED"; "FAILED"; "SKIPPED"]
  /\ XrayReporter.mapTestStatus "timedOut" = "FAILED"
  /\ XrayReporter.mapTestStatus "interrupted" = "FAILED"
  /\ Forall (fun variant : string -> string =>
               variant playwrightStatus
               = XrayReporter.mapTestStatus playwrightStatus)
       [XrayReporterFull.mapTestStatus; XrayReporterServer.mapTestStatus;
        XrayReporterSimple.mapTestStatus; XrayReporterServerCopy.mapTestStatus;
        XrayReporterTs.mapTestStatus; XrayReporterCloud.mapTestStatus].
Proof.
  split; [reflexivity |].
  split; [apply mapTestStatus_cases |].
  split.
  { rewrite mapTestStatus_cases.
    destruct (String.eqb playwrightStatus "passed"); [simpl; auto |].
    destruct (String.eqb playwrightStatus "skipped"); simpl; auto. }
  repeat split; repeat constructor.
Qed.

(** ** The page object *)

Lemma toLowerCase_app (a b : string) :
  Js.toLowerCase (a ++ b) = Js.toLowerCase a ++ Js.toLowerCase b.
Proof.
  induction a as [| c a IH]; simpl; [reflexivity | now rewrite IH].
Qed.

Lemma startsWith_app (p rest : string) : Js.startsWith p (p ++ rest) = true.
Proof.
  induction p as [| c p IH]; simpl; [reflexivity |].
  now rewrite Ascii.eqb_refl.
Qed.

Lemma includes_startsWith (s needle : string) :
  Js.startsWith needle s = true -> Js.includes s needle = true.
Proof.
  intros H. destruct s; simpl; rewrite H; reflexivity.
Qed.

Lemma includes_app (pre mid post : string) :
  Js.includes (pre ++ mid ++ post) mid = true.
Proof.
  induction pre as [| c pre IH].
  - cbn [append]. apply includes_startsWith, startsWith_app.
  - simpl. rewrite IH. apply orb_true_r.
Qed.

Lemma verifyPageLoaded_outcome (page : Page) (w : World) :
  googleLogo_visible page = true ->
  searchInput_visible page = true ->
  outcome (GoogleHomePage.verifyPageLoaded page w)
  = if Js.includes (Js.toLowerCase (page_title page)) "google"
    then Ret tt
    else Throw (Js.NewError ("Expected page title to contain 'Google', but got: "
                             ++ page_title page)).
Proof.
  intros Hlogo Hinput.
  unfold GoogleHomePage.verifyPageLoaded, BasePage.assertElementVisible,
    BasePage.getTitle.
  rewrite Hlogo, Hinput.
  cbn [bind logger emit outcome ret Js.or_default].
  destruct (Js.includes (Js.toLowerCase (page_title page)) "google");
    reflexivity.
Qed.

(** C8. Once the logo and the search input have been seen,
    [verifyPageLoaded] throws an [Error] exactly when the lower-cased page
    title does not contain 'google', and returns normally for every title
    that contains 'google' in any letter case. *)
Theorem verifyPageLoaded_title (page : Page) (w : World) :
  googleLogo_visible page = true ->
  searchInput_visible page = true ->
  let r := GoogleHomePage.verifyPageLoaded page w in
  (Js.includes (Js.toLowerCase (page_title page)) "google" = false
   <-> outcome r
       = Throw (Js.NewError ("Expected page title to contain 'Google', but got: "
                             ++ page_title page)))
  /\ (Js.includes (Js.toLowerCase (page_title page)) "google" = true
      <-> outcome r = Ret tt)
  /\ (forall pre mid post : string,
        page_title page = pre ++ mid ++ post ->
        Js.toLowerCase mid = "google" ->
        outcome r = Ret tt).
Proof.
  intros Hlogo Hinput r. subst r.
  rewrite (verifyPageLoaded_outcome page w Hlogo Hinput).
  split; [| split].
  - destruct (Js.includes _ _); split; intros H; congruence.
  - destruct (Js.includes _ _); split; intros H; congruence.
  - intros pre mid post Htitle Hmid.
    rewrite Htitle, !toLowerCase_app, Hmid, includes_app. reflexivity.
Qed.

Lemma verifyPageLoaded_title_witness :
  let page := mkPage true true "Google" in
  let r := GoogleHomePage.verifyPageLoaded page initial_world in
  (forall pre mid post : string,
     page_title page = pre ++ mid ++ post ->
     Js.toLowerCase mid = "google" ->
     outcome r = Ret tt)
  /\ outcome r = Ret tt.
Proof.
  pose proof (verifyPageLoaded_title (mkPage true true "Google") initial_world
                eq_refl eq_refl) as H.
  cbv zeta in H. destruct H as (_ & _ & H3).
  split; [exact H3 |].
  exact (H3 "" "Google" "" eq_refl eq_refl).
Defined.

(** ** Paths

    [path.join] on the output directories a project may configure: the
    result is normalised, so a leading ['./'], a doubled or trailing
    separator and a ['..'] do not show in the name of the file. *)

Lemma Path_join_normalises :
  Path.join "out" "xray-execution-key.txt" = "out/xray-execution-key.txt"
  /\ Path.join "./out" "xray-execution-key.txt" = "out/xray-execution-key.txt"
  /\ Path.join "out/" "xray-execution-key.txt" = "out/xray-execution-key.txt"
  /\ Path.join "/tmp//out/./" "xray-integration-results.json"
     = "/tmp/out/xray-integration-results.json"
  /\ Path.join "results/../out" "xray-integration-results.json"
     = "out/xray-integration-results.json"
  /\ Path.join "../out" "xray-integration-results.json"
     = "../out/xray-integration-results.json"
  /\ Path.join "." "xray-execution-key.txt" = "xray-execution-key.txt"
  /\ Path.normalize "/.." = "/"
  /\ Path.normalize "./" = "./"
  /\ Path.normalize "a/../.." = "..".
Proof. repeat split; vm_compute; reflexivity. Qed.

(** ** Key extraction *)

Section RegexFacts.

Lemma take_drop (n : nat) (s : string) : Js.take n s ++ drop n s = s.
Proof.
  revert s; induction n as [| n IH]; intros [| c s]; simpl; try reflexivity.
  now rewrite IH.
Qed.

Lemma take_app (a b : string) : Js.take (String.length a) (a ++ b) = a.
Proof. induction a as [| c a IH]; simpl; [now destruct b | now rewrite IH]. Qed.

Lemma drop_app (a b : string) : drop (String.length a) (a ++ b) = b.
Proof. induction a as [| c a IH]; simpl; [now destruct b | exact IH]. Qed.

Lemma take_span_all (p : ascii -> bool) (s : string) :
  all_chars p (Js.take (span_len p s) s) = true.
Proof.
  induction s as [| c s IH]; simpl; [reflexivity |].
  destruct (p c) eqn:E; simpl; [now rewrite E, IH | reflexivity].
Qed.

Lemma length_take_span (p : ascii -> bool) (s : string) :
  String.length (Js.take (span_len p s) s) = span_len p s.
Proof.
  induction s as [| c s IH]; simpl; [reflexivity |].
  destruct (p c); simpl; [now rewrite IH | reflexivity].
Qed.

Lemma span_len_app (p : ascii -> bool) (a b : string) :
  all_chars p a = true -> span_len p (a ++ b) = String.length a + span_len p b.
Proof.
  induction a as [| c a IH]; simpl; [reflexivity |].
  intros H; apply andb_true_iff in H as [Hc Ha].
  now rewrite Hc, IH.
Qed.

Lemma exec_plus_unfold (cls : ascii -> bool) (rest : list Regex.item)
    (pos : nat) (s : string) :
  Regex.exec (Regex.Plus cls :: rest) pos s
  = match s with
    | String c s' =>
        if cls c then
          match Regex.exec (Regex.Plus cls :: rest) (S pos) s' with
          | Some r => Some r
          | None => Regex.exec rest (S pos) s'
          end
        else None
    | EmptyString => None
    end.
Proof. destruct s; reflexivity. Qed.

(** A greedy class whose continuation cannot start on a character of the
    class takes the longest run, with nothing to backtrack to. *)
Lemma exec_plus_longest (cls : ascii -> bool) (rest : list Regex.item) :
  (forall c s' pos, cls c = true -> Regex.exec rest pos (String c s') = None) ->
  forall (s : string) (pos : nat),
    Regex.exec (Regex.Plus cls :: rest) pos s
    = match span_len cls s with
      | 0 => None
      | S n => Regex.exec rest (pos + S n) (drop (S n) s)
      end.
Proof.
  intros Hrest s; induction s as [| c s IH]; intros pos.
  - reflexivity.
  - rewrite exec_plus_unfold. cbn [span_len].
    destruct (cls c) eqn:Ec; [| reflexivity].
    rewrite IH.
    destruct (span_len cls s) as [| n] eqn:En.
    + cbn [drop]. now replace (pos + 1) with (S pos) by lia.
    + change (drop (S (S n)) (String c s)) with (drop (S n) s).
      replace (S pos + S n) with (pos + S (S n)) by lia.
      destruct (Regex.exec rest (pos + S (S n)) (drop (S n) s)); [reflexivity |].
      destruct s as [| d s]; [discriminate |].
      cbn [span_len] in En. destruct (cls d) eqn:Ed; [| discriminate].
      now apply Hrest.
Qed.

(** A greedy class at the end of the group takes the longest run too:
    the longer match is tried first. *)
Lemma exec_plus_close (cls : ascii -> bool) (s : string) (pos : nat) :
  Regex.exec [Regex.Plus cls; Regex.CloseGroup] pos s
  = match span_len cls s with
    | 0 => None
    | S n => Some (Some (pos + S n))
    end.
Proof.
  revert pos; induction s as [| c s IH]; intros pos.
  - reflexivity.
  - rewrite exec_plus_unfold. cbn [span_len].
    destruct (cls c) eqn:Ec; [| reflexivity].
    rewrite IH.
    destruct (span_len cls s) as [| n].
    + cbn [Regex.exec]. now replace (pos + 1) with (S pos) by lia.
    + now replace (S pos + S n) with (pos + S (S n)) by lia.
Qed.

End RegexFacts.

Section KeyFacts.

Lemma append_assoc_s (a b c : string) : (a ++ b) ++ c = a ++ b ++ c.
Proof. induction a as [| x a IH]; simpl; [reflexivity | now rewrite IH]. Qed.

Lemma length_append_s (a b : string) :
  String.length (a ++ b) = String.length a + String.length b.
Proof. induction a as [| x a IH]; simpl; [reflexivity | now rewrite IH]. Qed.

Lemma length_nonempty (a : string) : a <> "" -> exists n, String.length a = S n.
Proof. destruct a; [congruence | intros _; simpl; eauto]. Qed.

Lemma upper_not_dash (c : ascii) : Js.isUpper c = true -> Ascii.eqb "-" c = false.
Proof.
  destruct c as [[] [] [] [] [] [] [] []]; vm_compute; congruence.
Qed.

Lemma digit_not_colon (c : ascii) : Js.isDigit c = true -> Ascii.eqb ":" c = false.
Proof.
  destruct c as [[] [] [] [] [] [] [] []]; vm_compute; congruence.
Qed.

Lemma after_upper (rest : list Regex.item) (c : ascii) (s' : string) (pos : nat) :
  Js.isUpper c = true ->
  Regex.exec (Regex.Lit "-" :: rest) pos (String c s') = None.
Proof. intros H. cbn [Regex.exec]. now rewrite (upper_not_dash c H). Qed.

Lemma after_digit (c : ascii) (s' : string) (pos : nat) :
  Js.isDigit c = true ->
  Regex.exec [Regex.CloseGroup; Regex.Lit ":"] pos (String c s') = None.
Proof. intros H. cbn [Regex.exec]. now rewrite (digit_not_colon c H). Qed.

Lemma exec_lit (c : ascii) (rest : list Regex.item) (pos : nat) (c' : ascii)
    (s' : string) :
  Regex.exec (Regex.Lit c :: rest) pos (String c' s')
  = if Ascii.eqb c c' then Regex.exec rest (S pos) s' else None.
Proof. reflexivity. Qed.

(** The title pattern, step by step: the longest run of letters, a
    dash, the longest run of digits, a colon. *)
Lemma exec_title (s : string) :
  Regex.exec Regex.title_re 0 s
  = match span_len Js.isUpper s with
    | 0 => None
    | S n1 =>
        match drop (S n1) s with
        | String c s2 =>
            if Ascii.eqb "-" c then
              match span_len Js.isDigit s2 with
              | 0 => None
              | S n2 =>
                  match drop (S n2) s2 with
                  | String d _ =>
                      if Ascii.eqb ":" d then Some (Some (S n1 + 1 + S n2))
                      else None
                  | EmptyString => None
                  end
              end
            else None
        | EmptyString => None
        end
    end.
Proof.
  unfold Regex.title_re.
  rewrite (exec_plus_longest Js.isUpper _ (after_upper _)).
  destruct (span_len Js.isUpper s) as [| n1]; [reflexivity |].
  destruct (drop (S n1) s) as [| c s2]; [reflexivity |].
  rewrite exec_lit. destruct (Ascii.eqb "-" c); [| reflexivity].
  rewrite (exec_plus_longest Js.isDigit _ after_digit).
  destruct (span_len Js.isDigit s2) as [| n2]; [reflexivity |].
  destruct (drop (S n2) s2) as [| d s3]; [reflexivity |].
  cbn [Regex.exec]. destruct (Ascii.eqb ":" d); [| reflexivity].
  f_equal. f_equal. lia.
Qed.

(** The file pattern: the same without the colon. *)
Lemma exec_file (s : string) :
  Regex.exec Regex.file_re 0 s
  = match span_len Js.isUpper s with
    | 0 => None
    | S n1 =>
        match drop (S n1) s with
        | String c s2 =>
            if Ascii.eqb "-" c then
              match span_len Js.isDigit s2 with
              | 0 => None
              | S n2 => Some (Some (S n1 + 1 + S n2))
              end
            else None
        | EmptyString => None
        end
    end.
Proof.
  unfold Regex.file_re.
  rewrite (exec_plus_longest Js.isUpper _ (after_upper _)).
  destruct (span_len Js.isUpper s) as [| n1]; [reflexivity |].
  destruct (drop (S n1) s) as [| c s2]; [reflexivity |].
  rewrite exec_lit. destruct (Ascii.eqb "-" c); [| reflexivity].
  rewrite exec_plus_close.
  destruct (span_len Js.isDigit s2) as [| n2]; [reflexivity |].
  f_equal. f_equal. lia.
Qed.

Lemma span_split (p : ascii -> bool) (s : string) (n : nat) :
  span_len p s = S n ->
  exists run : string,
    s = run ++ drop (S n) s /\ run <> "" /\ all_chars p run = true
    /\ String.length run = S n.
Proof.
  intros E. exists (Js.take (S n) s). rewrite take_drop.
  split; [reflexivity |].
  rewrite <- E. split; [| split].
  - intros H. pose proof (length_take_span p s) as L.
    rewrite H, E in L. discriminate.
  - apply take_span_all.
  - apply length_take_span.
Qed.

Lemma match1_title_sound (s k : string) :
  Regex.match1 Regex.title_re s = Some k -> begins_with_key_colon s k.
Proof.
  unfold Regex.match1. rewrite exec_title.
  destruct (span_len Js.isUpper s) as [| n1] eqn:E1; [discriminate |].
  destruct (span_split _ _ _ E1) as (letters & Hs & Hne1 & Hall1 & Hlen1).
  destruct (drop (S n1) s) as [| c s2]; [discriminate |].
  destruct (Ascii.eqb "-" c) eqn:Ec; [| discriminate].
  apply Ascii.eqb_eq in Ec; subst c.
  destruct (span_len Js.isDigit s2) as [| n2] eqn:E2; [discriminate |].
  destruct (span_split _ _ _ E2) as (digits & Hs2 & Hne2 & Hall2 & Hlen2).
  destruct (drop (S n2) s2) as [| d s3]; [discriminate |].
  destruct (Ascii.eqb ":" d) eqn:Ed; [| discriminate].
  apply Ascii.eqb_eq in Ed; subst d.
  intros H; injection H as Hk.
  assert (Hsplit : s = (letters ++ "-" ++ digits) ++ ":" ++ s3).
  { rewrite Hs, Hs2 at 1. now rewrite !append_assoc_s. }
  assert (Hlen : S n1 + 1 + S n2 = String.length (letters ++ "-" ++ digits)).
  { rewrite !length_append_s, Hlen1, Hlen2. simpl. lia. }
  assert (Hk' : k = letters ++ "-" ++ digits).
  { rewrite <- Hk.
    transitivity (Js.take (String.length (letters ++ "-" ++ digits)) s).
    - rewrite <- Hlen. reflexivity.
    - rewrite Hsplit. apply take_app. }
  clear Hk. subst k.
  split.
  - exists letters, digits. auto.
  - now exists s3.
Qed.

Lemma span_len_stop (p : ascii -> bool) (a : string) (c : ascii) (b : string) :
  all_chars p a = true -> p c = false ->
  span_len p (a ++ String c b) = String.length a.
Proof.
  intros Ha Hc. rewrite span_len_app by assumption.
  simpl. rewrite Hc. lia.
Qed.

Lemma dash_not_upper : Js.isUpper "-" = false.
Proof. reflexivity. Qed.

Lemma colon_not_digit : Js.isDigit ":" = false.
Proof. reflexivity. Qed.

Lemma match1_title_complete (s k : string) :
  begins_with_key_colon s k -> Regex.match1 Regex.title_re s = Some k.
Proof.
  intros [(letters & digits & -> & Hne1 & Hall1 & Hne2 & Hall2) [rest ->]].
  unfold Regex.match1. rewrite exec_title.
  rewrite !append_assoc_s. cbn [append].
  rewrite (span_len_stop _ letters "-" _ Hall1 dash_not_upper).
  destruct (length_nonempty letters Hne1) as [n1 Hn1]. rewrite Hn1.
  rewrite <- Hn1, drop_app. rewrite Ascii.eqb_refl.
  rewrite (span_len_stop _ digits ":" _ Hall2 colon_not_digit).
  destruct (length_nonempty digits Hne2) as [n2 Hn2]. rewrite Hn2.
  rewrite <- Hn2, drop_app. rewrite Ascii.eqb_refl.
  f_equal.
  replace (String.length letters + 1 + String.length digits)
    with (String.length (letters ++ "-" ++ digits))
    by (rewrite !length_append_s; simpl; lia).
  transitivity (Js.take (String.length (letters ++ "-" ++ digits))
                  ((letters ++ "-" ++ digits) ++ ":" ++ rest)).
  - f_equal. now rewrite !append_assoc_s.
  - apply take_app.
Qed.

Lemma match1_file_sound (s k : string) :
  Regex.match1 Regex.file_re s = Some k -> begins_with_key s k.
Proof.
  unfold Regex.match1. rewrite exec_file.
  destruct (span_len Js.isUpper s) as [| n1] eqn:E1; [discriminate |].
  destruct (span_split _ _ _ E1) as (letters & Hs & Hne1 & Hall1 & Hlen1).
  destruct (drop (S n1) s) as [| c s2]; [discriminate |].
  destruct (Ascii.eqb "-" c) eqn:Ec; [| discriminate].
  apply Ascii.eqb_eq in Ec; subst c.
  destruct (span_len Js.isDigit s2) as [| n2] eqn:E2; [discriminate |].
  destruct (span_split _ _ _ E2) as (digits & Hs2 & Hne2 & Hall2 & Hlen2).
  intros H; injection H as Hk.
  assert (Hsplit : s = (letters ++ "-" ++ digits) ++ drop (S n2) s2).
  { rewrite Hs, Hs2 at 1. now rewrite !append_assoc_s. }
  assert (Hlen : S n1 + 1 + S n2 = String.length (letters ++ "-" ++ digits)).
  { rewrite !length_append_s, Hlen1, Hlen2. simpl. lia. }
  assert (Hk' : k = letters ++ "-" ++ digits).
  { rewrite <- Hk.
    transitivity (Js.take (String.length (letters ++ "-" ++ digits)) s).
    - rewrite <- Hlen. reflexivity.
    - rewrite Hsplit. apply take_app. }
  clear Hk. subst k.
  split.
  - exists letters, digits. auto.
  - now exists (drop (S n2) s2).
Qed.

(** The file pattern returns the longest key the name begins with: a
    key at the start of the name, extended by the digits that follow
    it. *)
Lemma match1_file_complete (k rest : string) :
  is_key k ->
  Regex.match1 Regex.file_re (k ++ rest)
  = Some (k ++ Js.take (span_len Js.isDigit rest) rest).
Proof.
  intros (letters & digits & -> & Hne1 & Hall1 & Hne2 & Hall2).
  unfold Regex.match1. rewrite exec_file.
  rewrite !append_assoc_s. cbn [append].
  rewrite (span_len_stop _ letters "-" _ Hall1 dash_not_upper).
  destruct (length_nonempty letters Hne1) as [n1 Hn1]. rewrite Hn1.
  rewrite <- Hn1, drop_app. rewrite Ascii.eqb_refl.
  rewrite (span_len_app _ digits rest Hall2).
  destruct (length_nonempty digits Hne2) as [n2 Hn2]. rewrite Hn2.
  cbn [Nat.add].
  f_equal.
  set (more := Js.take (span_len Js.isDigit rest) rest).
  assert (Hrest : rest = more ++ drop (span_len Js.isDigit rest) rest)
    by (symmetry; apply take_drop).
  assert (Hlen : String.length letters + 1 + S (n2 + span_len Js.isDigit rest)
                 = String.length ((letters ++ "-" ++ digits) ++ more)).
  { rewrite !length_append_s. unfold more. rewrite length_take_span, Hn2.
    simpl. lia. }
  rewrite Hlen.
  transitivity (Js.take (String.length ((letters ++ "-" ++ digits) ++ more))
                  (((letters ++ "-" ++ digits) ++ more)
                   ++ drop (span_len Js.isDigit rest) rest)).
  - f_equal. rewrite Hrest at 1. now rewrite !append_assoc_s.
  - rewrite take_app. now rewrite !append_assoc_s.
Qed.

Lemma take_span_stop (p : ascii -> bool) (rest : string) :
  (forall c r, rest = String c r -> p c = false) ->
  Js.take (span_len p rest) rest = "".
Proof.
  intros H. destruct rest as [| c r]; [reflexivity |].
  simpl. now rewrite (H c r eq_refl).
Qed.

Lemma append_empty_r (a : string) : a ++ "" = a.
Proof. induction a as [| c a IH]; simpl; [reflexivity | now rewrite IH]. Qed.

Lemma extractTestKey_title (test : TestCase) (k : string) :
  begins_with_key_colon (title test) k ->
  XrayReporter.extractTestKey test = Some k.
Proof.
  intros H. unfold XrayReporter.extractTestKey.
  now rewrite (match1_title_complete _ _ H).
Qed.

Lemma extractTestKey_no_title (test : TestCase) :
  (forall k, ~ begins_with_key_colon (title test) k) ->
  XrayReporter.extractTestKey test
  = Regex.match1 Regex.file_re (fileName_of test).
Proof.
  intros H. unfold XrayReporter.extractTestKey, fileName_of.
  destruct (Regex.match1 Regex.title_re (title test)) as [k |] eqn:E.
  - exfalso. exact (H k (match1_title_sound _ _ E)).
  - now destruct (Regex.match1 Regex.file_re _).
Qed.

End KeyFacts.

(** ** Laws of the monad *)

Section MonadFacts.

Context {A B : Type}.

Lemma outcome_bind (m : M A) (k : A -> M B) (w : World) :
  outcome (bind m k w)
  = match outcome (m w) with
    | Ret a => outcome (k a (after w (m w)))
    | Throw e => Throw e
    end.
Proof. unfold bind. now destruct (outcome (m w)). Qed.

Lemma emitted_bind (m : M A) (k : A -> M B) (w : World) :
  emitted (bind m k w)
  = (emitted (m w)
     ++ match outcome (m w) with
        | Ret a => emitted (k a (after w (m w)))
        | Throw _ => []
        end)%list.
Proof.
  unfold bind. destruct (outcome (m w)); simpl; [reflexivity |].
  now rewrite app_nil_r.
Qed.

Lemma flag_bind (m : M A) (k : A -> M B) (w : World) :
  flag_after (bind m k w)
  = match outcome (m w) with
    | Ret a => flag_after (k a (after w (m w)))
    | Throw _ => flag_after (m w)
    end.
Proof. unfold bind. now destruct (outcome (m w)). Qed.

Lemma outcome_try_catch (m : M A) (h : Js.Error -> M A) (w : World) :
  outcome (try_catch m h w)
  = match outcome (m w) with
    | Ret a => Ret a
    | Throw e => outcome (h e (after w (m w)))
    end.
Proof. unfold try_catch. now destruct (outcome (m w)) eqn:E. Qed.

Lemma emitted_try_catch (m : M A) (h : Js.Error -> M A) (w : World) :
  emitted (try_catch m h w)
  = (emitted (m w)
     ++ match outcome (m w) with
        | Ret _ => []
        | Throw e => emitted (h e (after w (m w)))
        end)%list.
Proof.
  unfold try_catch. destruct (outcome (m w)); simpl; [| reflexivity].
  now rewrite app_nil_r.
Qed.

Lemma flag_try_catch (m : M A) (h : Js.Error -> M A) (w : World) :
  flag_after (try_catch m h w)
  = match outcome (m w) with
    | Ret _ => flag_after (m w)
    | Throw e => flag_after (h e (after w (m w)))
    end.
Proof. unfold try_catch. now destruct (outcome (m w)). Qed.

End MonadFacts.

Lemma requests_of_app (l1 l2 : list Event) :
  requests_of (l1 ++ l2) = (requests_of l1 ++ requests_of l2)%list.
Proof.
  induction l1 as [| e l1 IH]; simpl; [reflexivity |].
  destruct e; simpl; now rewrite ?IH.
Qed.

(** ** What the reporter records *)

Section Recording.

Variable env : Env.

Lemma Map_set_In (m : list (string * XrayTestResult)) (k : string)
    (v : XrayTestResult) (i : string) (r : XrayTestResult) :
  In (i, r) (Map_set m k v) -> (i, r) = (k, v) \/ In (i, r) m.
Proof.
  induction m as [| [k' v'] m IH]; simpl.
  - intros [H | []]; auto.
  - destruct (String.eqb k' k); simpl.
    + intros [H | H]; auto.
    + intros [H | H]; auto. destruct (IH H); auto.
Qed.

Lemma step_hybrid_returns (this : Reporter) (c : Callback) (w : World) :
  exists this',
    outcome (Lifecycle.step_hybrid env this c w) = Ret this'
    /\ options this' = options this
    /\ (forall i r, In (i, r) (testResults this') ->
        In (i, r) (testResults this)
        \/ exists t, callback_test c = Some t /\ id t = i
                     /\ XrayReporterHybrid.extractTestKey t = Some (testKey r)).
Proof.
  destruct c as [| t res | t res]; simpl.
  - eexists; split; [reflexivity |]. simpl; auto.
  - unfold XrayReporterHybrid.onTestBegin.
    destruct (XrayReporterHybrid.extractTestKey t) as [k |] eqn:E.
    + eexists; split; [reflexivity |]. split; [reflexivity |].
      simpl. intros i r H. apply Map_set_In in H as [H | H]; auto.
      injection H as -> ->. right. exists t. auto.
    + eexists; split; [reflexivity |]. auto.
  - unfold XrayReporterHybrid.onTestEnd.
    destruct (XrayReporterHybrid.extractTestKey t) as [k |] eqn:E.
    + eexists; split; [reflexivity |]. split; [reflexivity |].
      simpl. intros i r H. apply Map_set_In in H as [H | H]; auto.
      injection H as -> ->. right. exists t. auto.
    + eexists; split; [reflexivity |]. auto.
Qed.

Lemma run_hybrid_records (cs : list Callback) :
  forall (this : Reporter) (w : World),
  exists this',
    outcome (Lifecycle.run (Lifecycle.step_hybrid env) this cs w) = Ret this'
    /\ (forall i r, In (i, r) (testResults this') ->
        In (i, r) (testResults this)
        \/ exists t, In (Some t) (map callback_test cs) /\ id t = i
                     /\ XrayReporterHybrid.extractTestKey t = Some (testKey r)).
Proof.
  induction cs as [| c cs IH]; intros this w.
  - exists this. split; [reflexivity | auto].
  - cbn [Lifecycle.run]. rewrite outcome_bind.
    destruct (step_hybrid_returns this c w) as (this1 & H1 & _ & R1).
    rewrite H1.
    destruct (IH this1 (after w (Lifecycle.step_hybrid env this c w)))
      as (this2 & H2 & R2).
    exists this2. split; [exact H2 |].
    intros i r Hin. destruct (R2 i r Hin) as [Hin1 | (t & Ht & Hid & Hk)].
    + destruct (R1 i r Hin1) as [Hin0 | (t & Ht & Hid & Hk)]; auto.
      right. exists t. simpl. rewrite Ht. auto.
    + right. exists t. simpl. auto.
Qed.

End Recording.

(** C5. [extractTestKey] returns the key (upper-case letters, a dash,
    digits) when the title begins with such a key immediately followed by
    a colon; otherwise, when the base name of the test's file begins with
    such a key, it returns that key (with every digit that follows it);
    otherwise it returns [null].  Only tests with a key are recorded in
    the result map of the reporter, the map whose values are forwarded. *)
Theorem extractTestKey_correlates (test : TestCase) :
  (forall k, begins_with_key_colon (title test) k ->
             XrayReporter.extractTestKey test = Some k)
  /\ (forall k rest,
        (forall k', ~ begins_with_key_colon (title test) k') ->
        is_key k -> fileName_of test = k ++ rest ->
        XrayReporter.extractTestKey test
        = Some (k ++ Js.take (span_len Js.isDigit rest) rest))
  /\ (forall k rest,
        (forall k', ~ begins_with_key_colon (title test) k') ->
        is_key k -> fileName_of test = k ++ rest ->
        (forall c r, rest = String c r -> Js.isDigit c = false) ->
        XrayReporter.extractTestKey test = Some k)
  /\ ((forall k', ~ begins_with_key_colon (title test) k') ->
      (forall k', ~ begins_with_key (fileName_of test) k') ->
      XrayReporter.extractTestKey test = None)
  /\ XrayReporterHybrid.extractTestKey test = XrayReporter.extractTestKey test
  /\ (forall env this result w,
        XrayReporter.extractTestKey test = None ->
        outcome (XrayReporterHybrid.onTestBegin env this test result w) = Ret this
        /\ outcome (XrayReporterHybrid.onTestEnd env this test result w) = Ret this)
  /\ (forall env this cs w,
        testResults this = [] ->
        exists this',
          outcome (Lifecycle.run (Lifecycle.step_hybrid env) this cs w) = Ret this'
          /\ forall i r, In (i, r) (testResults this') ->
             exists t, In (Some t) (map callback_test cs) /\ id t = i
                       /\ XrayReporter.extractTestKey t = Some (testKey r)).
Proof.
  split; [| split; [| split; [| split; [| split; [| split]]]]].
  - intros k H. now apply extractTestKey_title.
  - intros k rest Hno Hk Hfile.
    rewrite (extractTestKey_no_title test Hno), Hfile.
    now apply match1_file_complete.
  - intros k rest Hno Hk Hfile Hstop.
    rewrite (extractTestKey_no_title test Hno), Hfile.
    rewrite (match1_file_complete k rest Hk), (take_span_stop _ rest Hstop).
    now rewrite append_empty_r.
  - intros Hno Hnofile.
    rewrite (extractTestKey_no_title test Hno).
    destruct (Regex.match1 Regex.file_re (fileName_of test)) as [k |] eqn:E;
      [| reflexivity].
    exfalso. exact (Hnofile k (match1_file_sound _ _ E)).
  - reflexivity.
  - intros env this result w H.
    unfold XrayReporterHybrid.onTestBegin, XrayReporterHybrid.onTestEnd.
    change (XrayReporterHybrid.extractTestKey test)
      with (XrayReporter.extractTestKey test).
    rewrite H. split; reflexivity.
  - intros env this cs w Hempty.
    destruct (run_hybrid_records env cs this w) as (this' & Hrun & Hrec).
    exists this'. split; [exact Hrun |].
    intros i r Hin. destruct (Hrec i r Hin) as [Hin0 | H]; [| exact H].
    rewrite Hempty in Hin0. destruct Hin0.
Qed.

Lemma extractTestKey_correlates_witness :
  let test := mkTestCase "id-1" "PROJ-123: login works"
                (Some (mkLocation "/repo/tests/login.spec.ts")) in
  begins_with_key_colon (title test) "PROJ-123"
  /\ XrayReporter.extractTestKey test = Some "PROJ-123".
Proof.
  intros test.
  assert (H : begins_with_key_colon (title test) "PROJ-123").
  { split.
    - exists "PROJ", "123". repeat split; try reflexivity; discriminate.
    - exists " login works". reflexivity. }
  split; [exact H |].
  exact (proj1 (extractTestKey_correlates test) "PROJ-123" H).
Defined.

(** ** Where the reporter talks to the outside *)

Section Frame.

Variable env : Env.

Lemma local_no_requests (evs : list Event) :
  Forall local_event evs -> requests_of evs = [].
Proof.
  induction 1 as [| e evs He _ IH]; [reflexivity |].
  destruct e; simpl in *; try contradiction; exact IH.
Qed.

Lemma generateEvidence_local (test : TestCase) (result : TestResult) (w : World) :
  let r := XrayReporter.generateEvidence env test result w in
  Forall local_event (emitted r)
  /\ flag_after r = canCreateIssues w
  /\ exists ev, outcome r = Ret ev.
Proof.
  unfold XrayReporter.generateEvidence.
  destruct (String.eqb (r_status result) "failed" && _).
  - cbn. destruct (file_exists env _); cbn; repeat split; eauto;
      repeat constructor.
  - cbn. repeat split; eauto.
Qed.

Lemma step_basic_local (this : Reporter) (c : Callback) (w : World) :
  let r := Lifecycle.step_basic env this c w in
  Forall local_event (emitted r)
  /\ flag_after r = canCreateIssues w
  /\ exists this',
       outcome r = Ret this' /\ options this' = options this
       /\ match c with
          | Begin => testResults this' = testResults this
          | TestBegin _ _ | TestEnd _ _ => startTime this' = startTime this
          end.
Proof.
  destruct c as [| t res | t res]; cbn [Lifecycle.step_basic].
  - cbn. repeat split; eauto. repeat constructor.
  - unfold XrayReporter.onTestBegin.
    destruct (XrayReporter.extractTestKey t); cbn; repeat split; eauto.
  - unfold XrayReporter.onTestEnd.
    destruct (XrayReporter.extractTestKey t) as [k |]; [| cbn; repeat split; eauto].
    destruct (generateEvidence_local t res w) as (Hloc & Hflag & ev & Hev).
    rewrite emitted_bind, flag_bind, outcome_bind, Hev.
    cbn. repeat split; eauto.
    apply Forall_app. split; [exact Hloc | repeat constructor].
Qed.

Lemma run_basic_local (cs : list Callback) :
  forall (this : Reporter) (w : World),
    let r := Lifecycle.run (Lifecycle.step_basic env) this cs w in
    Forall local_event (emitted r)
    /\ flag_after r = canCreateIssues w
    /\ exists this', outcome r = Ret this' /\ options this' = options this.
Proof.
  induction cs as [| c cs IH]; intros this w; cbn [Lifecycle.run].
  - cbn. repeat split; eauto.
  - destruct (step_basic_local this c w) as (L1 & F1 & this1 & O1 & P1 & _).
    rewrite emitted_bind, flag_bind, outcome_bind, O1.
    destruct (IH this1 (after w (Lifecycle.step_basic env this c w)))
      as (L2 & F2 & this2 & O2 & P2).
    split; [apply Forall_app; auto |].
    split; [rewrite F2; exact F1 |].
    exists this2. split; [exact O2 | congruence].
Qed.

Lemma onEnd_incomplete (this : Reporter) (w : World) :
  XrayConfigManager.validateConfig (config env) = false ->
  XrayReporter.onEnd env this w
  = mkRun (Ret tt)
      [ELog Info "Xray Reporter: Test execution completed";
       ELog Warn "Xray configuration is incomplete. Skipping Xray reporting."]
      (canCreateIssues w).
Proof.
  intros H. unfold XrayReporter.onEnd. rewrite H. reflexivity.
Qed.

End Frame.

(** C7. [onBegin], [onTestBegin] and [onTestEnd] change only the fields
    of the reporter (never its options, nor the client) and send no HTTP
    request: all they do outside is log and look for a screenshot file.
    Whatever is sent to Xray is therefore sent from [onEnd], and [onEnd]
    sends nothing when the Xray configuration is incomplete. *)
Theorem reporter_forwards_only_at_end (env : Env) (this : Reporter) (w : World) :
  (forall c : Callback,
     let r := Lifecycle.step_basic env this c w in
     requests_of (emitted r) = []
     /\ Forall local_event (emitted r)
     /\ flag_after r = canCreateIssues w
     /\ exists this',
          outcome r = Ret this' /\ options this' = options this
          /\ match c with
             | Begin => testResults this' = testResults this
             | TestBegin _ _ | TestEnd _ _ => startTime this' = startTime this
             end)
  /\ (forall cs : list Callback,
        requests_of (emitted (Lifecycle.run (Lifecycle.step_basic env) this cs w))
        = [])
  /\ (XrayConfigManager.validateConfig (config env) = false ->
      requests_of (emitted (XrayReporter.onEnd env this w)) = []
      /\ outcome (XrayReporter.onEnd env this w) = Ret tt).
Proof.
  split; [| split].
  - intros c r. destruct (step_basic_local env this c w) as (L & F & H).
    split; [now apply local_no_requests |]. auto.
  - intros cs. apply local_no_requests. apply run_basic_local.
  - intros H. rewrite (onEnd_incomplete env this w H). split; reflexivity.
Qed.

Lemma reporter_forwards_only_at_end_witness :
  let env := mkEnv (fun _ _ => Resolved None) (fun _ => 0%Z) (fun _ => "")
               (fun _ => false) (fun _ => None)
               (XrayConfigManager.new (fun _ => None)) in
  let this := mkReporter (mkOptions None None None None) [] 0%Z in
  XrayConfigManager.validateConfig (config env) = false
  /\ requests_of (emitted (XrayReporter.onEnd env this initial_world)) = [].
Proof.
  intros env this. split; [reflexivity |].
  exact (proj1 (proj2 (proj2 (reporter_forwards_only_at_end env this initial_world))
                 eq_refl)).
Defined.

(** ** The creation latch of the hybrid client *)

Section Latch.

Variable env : Env.

Lemma keeps_off_ret {A} (a : A) : keeps_off (ret a).
Proof. intros w H; exact H. Qed.

Lemma keeps_off_throw {A} (e : Js.Error) : keeps_off (@throw A e).
Proof. intros w H; exact H. Qed.

Lemma keeps_off_emit (e : Event) : keeps_off (emit e).
Proof. intros w H; exact H. Qed.

Lemma keeps_off_logger (l : Level) (msg : string) : keeps_off (logger l msg).
Proof. intros w H; exact H. Qed.

Lemma keeps_off_get_events : keeps_off get_events.
Proof. intros w H; exact H. Qed.

Lemma keeps_off_get_flag : keeps_off get_canCreateIssues.
Proof. intros w H; exact H. Qed.

Lemma keeps_off_set_false : keeps_off (set_canCreateIssues false).
Proof. intros w H; reflexivity. Qed.

Lemma keeps_off_bind {A B} (m : M A) (k : A -> M B) :
  keeps_off m -> (forall a, keeps_off (k a)) -> keeps_off (bind m k).
Proof.
  intros Hm Hk w Hw. rewrite flag_bind.
  destruct (outcome (m w)); [| now apply Hm].
  apply Hk. simpl. now apply Hm.
Qed.

Lemma keeps_off_try_catch {A} (m : M A) (h : Js.Error -> M A) :
  keeps_off m -> (forall e, keeps_off (h e)) -> keeps_off (try_catch m h).
Proof.
  intros Hm Hh w Hw. rewrite flag_try_catch.
  destruct (outcome (m w)); [now apply Hm |].
  apply Hh. simpl. now apply Hm.
Qed.

Ltac keeps_off_step :=
  first
    [ apply keeps_off_bind; [| intros ? ]
    | apply keeps_off_try_catch; [| intros ? ]
    | apply keeps_off_ret
    | apply keeps_off_throw
    | apply keeps_off_logger
    | apply keeps_off_emit
    | apply keeps_off_get_events
    | apply keeps_off_get_flag
    | apply keeps_off_set_false
    | match goal with
      | |- keeps_off (if ?b then _ else _) => destruct b
      | |- keeps_off (match ?x with _ => _ end) => destruct x
      end
    | progress unfold issuetype_name, data_key, executionKey_of ].

Ltac keeps_off_auto := repeat keeps_off_step.

Lemma keeps_off_axios (m : Method) (url : string) (b : Body) :
  keeps_off (axios env m url b).
Proof. unfold axios, onRejected. keeps_off_auto. Qed.

Lemma keeps_off_findTestCase (k : string) :
  keeps_off (XrayClientHybrid.findTestCase env k).
Proof.
  unfold XrayClientHybrid.findTestCase, XrayClientHybrid.findTestCase_catch,
    issuetype_name.
  keeps_off_auto; try apply keeps_off_axios; keeps_off_auto.
Qed.

Lemma keeps_off_tryCreateTestCase (k t : string) (d : option string) :
  keeps_off (XrayClientHybrid.tryCreateTestCase env k t d).
Proof.
  unfold XrayClientHybrid.tryCreateTestCase,
    XrayClientHybrid.tryCreateTestCase_catch, data_key, Date_toISOString.
  keeps_off_auto; try apply keeps_off_axios; keeps_off_auto.
Qed.

Lemma keeps_off_ensureTestCaseExists (k t : string) (d : option string) :
  keeps_off (XrayClientHybrid.ensureTestCaseExists env k t d).
Proof.
  unfold XrayClientHybrid.ensureTestCaseExists.
  keeps_off_auto;
    try apply keeps_off_findTestCase; try apply keeps_off_tryCreateTestCase;
    keeps_off_auto.
Qed.

Lemma keeps_off_updateTestCaseStatus (k st : string) :
  keeps_off (XrayClientHybrid.updateTestCaseStatus env k st).
Proof.
  unfold XrayClientHybrid.updateTestCaseStatus,
    XrayClientHybrid.updateTestCaseStatus_catch.
  keeps_off_auto;
    try apply keeps_off_findTestCase; try apply keeps_off_axios; keeps_off_auto.
Qed.

Lemma keeps_off_updateAll_loop (rs : list XrayTestResult) :
  forall n, keeps_off (XrayClientHybrid.updateAll_loop env rs n).
Proof.
  induction rs as [| r rs IH]; intros n; cbn [XrayClientHybrid.updateAll_loop].
  - apply keeps_off_ret.
  - apply keeps_off_bind; [apply keeps_off_updateTestCaseStatus |].
    intros success. apply IH.
Qed.

Lemma keeps_off_addTestExecutionComment (k st : string) (t : option Z)
    (c : option string) :
  keeps_off (XrayClientHybrid.addTestExecutionComment env k st t c).
Proof.
  unfold XrayClientHybrid.addTestExecutionComment,
    XrayClientHybrid.addTestExecutionComment_catch, Date_toISOString.
  keeps_off_auto;
    try apply keeps_off_findTestCase; try apply keeps_off_axios; keeps_off_auto.
Qed.

Lemma keeps_off_find_loop (ts : list XrayTestResult) :
  forall acc, keeps_off (XrayClientHybrid.find_loop env ts acc).
Proof.
  induction ts as [| t ts IH]; intros acc; cbn [XrayClientHybrid.find_loop].
  - apply keeps_off_ret.
  - apply keeps_off_bind; [apply keeps_off_findTestCase |].
    intros [data |]; [apply IH |].
    apply keeps_off_bind; [apply keeps_off_logger | intros _; apply IH].
Qed.

Lemma keeps_off_createTestExecution (ex : XrayTestExecution) :
  keeps_off (XrayClientHybrid.createTestExecution env ex).
Proof.
  unfold XrayClientHybrid.createTestExecution,
    XrayClientHybrid.createTestExecution_catch, executionKey_of,
    Date_toISOString.
  keeps_off_auto;
    try apply keeps_off_find_loop; try apply keeps_off_axios; keeps_off_auto.
Qed.

Lemma keeps_off_call_one (c : HybridCall) : keeps_off (HybridUse.call_one env c).
Proof.
  destruct c; cbn [HybridUse.call_one].
  - apply keeps_off_bind; [apply keeps_off_findTestCase | intros; apply keeps_off_ret].
  - apply keeps_off_bind; [apply keeps_off_tryCreateTestCase | intros; apply keeps_off_ret].
  - apply keeps_off_bind; [apply keeps_off_ensureTestCaseExists | intros; apply keeps_off_ret].
  - apply keeps_off_bind; [apply keeps_off_updateTestCaseStatus | intros; apply keeps_off_ret].
  - unfold XrayClientHybrid.updateAllTestCaseStatuses.
    apply keeps_off_bind; [apply keeps_off_updateAll_loop | intros; apply keeps_off_logger].
  - apply keeps_off_bind; [apply keeps_off_addTestExecutionComment | intros; apply keeps_off_ret].
  - apply keeps_off_bind; [apply keeps_off_createTestExecution | intros; apply keeps_off_ret].
Qed.

Lemma calls_keep_off (cs : list HybridCall) :
  forall w, canCreateIssues w = false ->
            canCreateIssues (HybridUse.calls env cs w) = false.
Proof.
  induction cs as [| c cs IH]; intros w Hw; cbn [HybridUse.calls]; [exact Hw |].
  apply IH. simpl. now apply keeps_off_call_one.
Qed.

Lemma tryCreateTestCase_disabled (k t : string) (d : option string) (w : World) :
  canCreateIssues w = false ->
  XrayClientHybrid.tryCreateTestCase env k t d w
  = mkRun (Ret None)
      [ELog Info ("Skipping test case creation for " ++ k ++ " - creation disabled")]
      false.
Proof.
  intros Hw. destruct w as [evs flag]. simpl in Hw. subst flag. reflexivity.
Qed.

Lemma axios_rejected (m : Method) (url : string) (b : Body) (w : World)
    (e : Js.Error) (resp : option (Z * string)) :
  server env (requests_of (events w)) (mkRequest m url b) = Rejected e resp ->
  outcome (axios env m url b w) = Throw e.
Proof.
  intros H. unfold axios.
  rewrite outcome_bind. cbn [get_events outcome].
  rewrite outcome_bind. cbn [emit outcome].
  rewrite H. unfold onRejected.
  rewrite outcome_bind. cbn [logger emit outcome].
  rewrite outcome_bind.
  destruct resp as [[st data] |]; reflexivity.
Qed.

Lemma tryCreateTestCase_failure (k t : string) (d : option string) (w : World) :
  canCreateIssues w = true ->
  (forall b, exists e resp,
     server env (requests_of (events w)) (mkRequest POST "/issue" b)
     = Rejected e resp) ->
  let r := XrayClientHybrid.tryCreateTestCase env k t d w in
  outcome r = Ret None /\ flag_after r = false.
Proof.
  intros Hw Hrej r. subst r.
  unfold XrayClientHybrid.tryCreateTestCase.
  rewrite outcome_bind, flag_bind. cbn [get_canCreateIssues outcome].
  rewrite Hw. cbn [negb].
  rewrite outcome_try_catch, flag_try_catch.
  match goal with
  | |- context [outcome (bind ?m ?k ?w1)] =>
      assert (Hbody : exists e, outcome (bind m k w1) = Throw e)
  end.
  { rewrite outcome_bind. cbn [logger emit outcome].
    unfold Date_toISOString.
    rewrite outcome_bind, outcome_bind. cbn [get_events ret outcome].
    rewrite outcome_bind.
    match goal with
    | |- context [axios env POST "/issue" ?b ?w1] =>
        destruct (Hrej b) as (e & resp & He);
        rewrite (axios_rejected POST "/issue" b w1 e resp)
    end.
    - eauto.
    - cbn in He |- *. rewrite !requests_of_app. cbn.
      rewrite !app_nil_r in He. rewrite !app_nil_r. exact He. }
  destruct Hbody as [e ->]. split; reflexivity.
Qed.

End Latch.

(** C9. [canCreateIssues] is a one-way latch: it starts [true], a failed
    creation request sets it to [false], and no method of the client sets
    it back; so after one failure every later [tryCreateTestCase] returns
    [null] without sending anything, whatever was called in between. *)
Theorem canCreateIssues_latch (env : Env) :
  canCreateIssues initial_world = true
  /\ (forall k t d w,
        canCreateIssues w = true ->
        (forall b, exists e resp,
           server env (requests_of (events w)) (mkRequest POST "/issue" b)
           = Rejected e resp) ->
        outcome (XrayClientHybrid.tryCreateTestCase env k t d w) = Ret None
        /\ flag_after (XrayClientHybrid.tryCreateTestCase env k t d w) = false)
  /\ (forall cs w,
        canCreateIssues w = false ->
        canCreateIssues (HybridUse.calls env cs w) = false)
  /\ (forall k t d w,
        canCreateIssues w = false ->
        let r := XrayClientHybrid.tryCreateTestCase env k t d w in
        outcome r = Ret None /\ requests_of (emitted r) = []
        /\ flag_after r = false)
  /\ (forall k t d w cs k' t' d',
        canCreateIssues w = true ->
        (forall b, exists e resp,
           server env (requests_of (events w)) (mkRequest POST "/issue" b)
           = Rejected e resp) ->
        let w1 := after w (XrayClientHybrid.tryCreateTestCase env k t d w) in
        let w2 := HybridUse.calls env cs w1 in
        let r := XrayClientHybrid.tryCreateTestCase env k' t' d' w2 in
        outcome r = Ret None /\ requests_of (emitted r) = []).
Proof.
  split; [reflexivity |].
  split; [intros; now apply tryCreateTestCase_failure |].
  split; [intros; now apply calls_keep_off |].
  split.
  - intros k t d w Hw r. subst r.
    rewrite (tryCreateTestCase_disabled env k t d w Hw). repeat split.
  - intros k t d w cs k' t' d' Hw Hrej w1 w2 r.
    assert (H1 : canCreateIssues w1 = false)
      by (apply (tryCreateTestCase_failure env k t d w Hw Hrej)).
    assert (H2 : canCreateIssues w2 = false) by (now apply calls_keep_off).
    subst r. rewrite (tryCreateTestCase_disabled env k' t' d' w2 H2).
    split; reflexivity.
Qed.

Lemma canCreateIssues_latch_witness :
  let env := mkEnv (fun _ _ => Rejected (Js.mkError "AxiosError" "Request failed with status code 403") None)
               (fun _ => 0%Z) (fun _ => "2025-01-01T00:00:00.000Z")
               (fun _ => false) (fun _ => None)
               (XrayConfigManager.new (fun _ => Some "x")) in
  let w1 := after initial_world
              (XrayClientHybrid.tryCreateTestCase env "PROJ-1" "t" None initial_world) in
  let w2 := HybridUse.calls env [CallFindTestCase "PROJ-2"] w1 in
  let r := XrayClientHybrid.tryCreateTestCase env "PROJ-2" "t" None w2 in
  outcome r = Ret None /\ requests_of (emitted r) = [].
Proof.
  intros env.
  refine (proj2 (proj2 (proj2 (proj2 (canCreateIssues_latch env))))
            "PROJ-1" "t" None initial_world [CallFindTestCase "PROJ-2"]
            "PROJ-2" "t" None eq_refl _).
  intros b. eexists _, _. reflexivity.
Defined.

(** ** Running a method step by step *)

Section Stepping.

Context {A B : Type}.

Lemma run_bind (m : M A) (k : A -> M B) (w : World)
    (o1 : Outcome A) (e1 : list Event) (f1 : bool) (r2 : Run B) :
  m w = mkRun o1 e1 f1 ->
  match o1 with
  | Ret a => k a (mkWorld (events w ++ e1) f1)
  | Throw e => mkRun (Throw e) [] f1
  end = r2 ->
  bind m k w = mkRun (outcome r2) (e1 ++ emitted r2) (flag_after r2).
Proof.
  intros H1 H2. unfold bind. rewrite H1. cbn [outcome emitted flag_after].
  destruct o1; subst r2; cbn [outcome emitted flag_after after];
    [reflexivity | now rewrite app_nil_r].
Qed.

Lemma run_try_catch (m : M A) (h : Js.Error -> M A) (w : World)
    (o1 : Outcome A) (e1 : list Event) (f1 : bool) (r2 : Run A) :
  m w = mkRun o1 e1 f1 ->
  match o1 with
  | Ret a => mkRun (Ret a) [] f1
  | Throw e => h e (mkWorld (events w ++ e1) f1)
  end = r2 ->
  try_catch m h w = mkRun (outcome r2) (e1 ++ emitted r2) (flag_after r2).
Proof.
  intros H1 H2. unfold try_catch. rewrite H1. cbn [outcome emitted flag_after].
  destruct o1; subst r2; cbn [outcome emitted flag_after after];
    [now rewrite app_nil_r | reflexivity].
Qed.

End Stepping.

Lemma axios_run (env : Env) (m : Method) (url : string) (b : Body) (w : World) :
  axios env m url b w
  = match server env (requests_of (events w)) (mkRequest m url b) with
    | Resolved data =>
        mkRun (Ret data)
          [EHttp (mkRequest m url b);
           ELog Info ("Xray API call successful: " ++ Method_toUpperCase m
                      ++ " " ++ url)]
          (canCreateIssues w)
    | Rejected e resp =>
        mkRun (Throw e)
          (EHttp (mkRequest m url b)
           :: ELog ErrorLevel ("Xray API call failed: " ++ Method_toUpperCase m
                               ++ " " ++ url ++ " - " ++ Js.err_message e)
           :: match resp with
              | Some (st, data) =>
                  [ELog ErrorLevel ("Response status: " ++ Js.show_Z st);
                   ELog ErrorLevel ("Response data: " ++ data)]
              | None => []
              end)
          (canCreateIssues w)
    end.
Proof.
  unfold axios.
  eapply eq_trans.
  { eapply run_bind; [reflexivity |]. cbv beta iota.
    eapply eq_trans.
    { eapply run_bind; [reflexivity |]. cbv beta iota. cbn [events app].
      reflexivity. }
    cbn [outcome emitted flag_after]. reflexivity. }
  cbn [outcome emitted flag_after app].
  destruct (server env (requests_of (events w)) (mkRequest m url b))
    as [data | e [[st data] |]]; reflexivity.
Qed.

(** Log lines do not change what the server has seen. *)
Ltac hist_norm :=
  cbn [events canCreateIssues];
  repeat rewrite requests_of_app;
  cbn [requests_of app];
  repeat rewrite app_nil_r;
  repeat match goal with
         | H : requests_of ?e = _ |- context [requests_of ?e] => rewrite H
         end.

(** A run is followed through its binds: the first computation is run,
    then the continuation in the world it leaves.  A request is answered
    from what is known of the server; whatever else is left is solved by
    computation. *)
Ltac mnorm :=
  cbn [outcome emitted flag_after ret throw emit logger get_events
       get_canCreateIssues set_canCreateIssues after events canCreateIssues].

Ltac mrun :=
  lazymatch goal with
  | |- bind _ _ _ = _ =>
      eapply eq_trans;
      [ eapply run_bind; [ mrun | mnorm; cbv beta iota; mrun ]
      | mnorm; reflexivity ]
  | |- try_catch _ _ _ = _ =>
      eapply eq_trans;
      [ eapply run_try_catch; [ mrun | mnorm; cbv beta iota; mrun ]
      | mnorm; reflexivity ]
  | |- axios _ _ _ _ _ = _ =>
      rewrite axios_run; hist_norm;
      match goal with
      | H : server _ _ _ = _ |- _ => rewrite H
      end;
      reflexivity
  | |- Date_toISOString _ _ = _ => unfold Date_toISOString; mrun
  | |- Date_now _ _ = _ => unfold Date_now; mrun
  | |- _ =>
      first
        [ eassumption
        | repeat match goal with
                 | H : ?x = _ |- context [?x] => rewrite H
                 end;
          reflexivity ]
  end.

(** ** Building a client

    The constructors of the three clients fail on the call of
    [getJiraApiUrlV2], so [getInstance] never hands out an instance, and
    a reporter that has collected results stops there: [reportToXray]
    logs the error and throws it again. *)

Section Building.

Variable env : Env.

Lemma full_getInstance_run (w : World) :
  XrayClientFull.getInstance env w
  = mkRun (Throw constructor_error) [] (canCreateIssues w).
Proof. reflexivity. Qed.

Lemma ro_getInstance_run (w : World) :
  XrayClientReadOnly.getInstance env w
  = mkRun (Throw constructor_error) [] (canCreateIssues w).
Proof. reflexivity. Qed.

Lemma hybrid_getInstance_run (w : World) :
  XrayClientHybrid.getInstance env w
  = mkRun (Throw constructor_error) [] (canCreateIssues w).
Proof. reflexivity. Qed.

Lemma basic_reportToXray_run (this : Reporter) (w : World) :
  XrayReporter.reportToXray env this w
  = match Map_values (testResults this) with
    | [] => mkRun (Ret tt) [ELog Warn "No test results to report to Xray"]
              (canCreateIssues w)
    | _ :: _ => mkRun (Throw constructor_error) [report_failure]
                  (canCreateIssues w)
    end.
Proof.
  unfold XrayReporter.reportToXray.
  destruct (Map_values (testResults this)); reflexivity.
Qed.

Lemma hybrid_reportToXray_run (this : Reporter) (w : World) :
  XrayReporterHybrid.reportToXray env this w
  = match Map_values (testResults this) with
    | [] => mkRun (Ret tt) [ELog Warn "No test results to report to Xray"]
              (canCreateIssues w)
    | _ :: _ => mkRun (Throw constructor_error) [report_failure]
                  (canCreateIssues w)
    end.
Proof.
  unfold XrayReporterHybrid.reportToXray.
  destruct (Map_values (testResults this)); reflexivity.
Qed.

Lemma full_reportToXray_run (this : Reporter) (w : World) :
  XrayReporterFull.reportToXray env this w
  = match Map_values (testResults this) with
    | [] => mkRun (Ret tt) [ELog Warn "No test results to report to Xray"]
              (canCreateIssues w)
    | _ :: _ => mkRun (Throw constructor_error) [report_failure]
                  (canCreateIssues w)
    end.
Proof.
  unfold XrayReporterFull.reportToXray.
  destruct (Map_values (testResults this)); reflexivity.
Qed.

(** Whatever it has collected, a reporter sends nothing from
    [reportToXray]. *)
Lemma basic_reportToXray_sends_nothing (this : Reporter) (w : World) :
  requests_of (emitted (XrayReporter.reportToXray env this w)) = [].
Proof.
  rewrite basic_reportToXray_run.
  destruct (Map_values (testResults this)); reflexivity.
Qed.


End Building.

(** ** Looking test cases up *)

Section Lookup.

Variable env : Env.

(** The three clients look a test case up the same way, and differ in
    what they log. *)
Lemma ro_findTestCase_run (k : string) (w : World) :
  exists evs,
    XrayClientReadOnly.findTestCase env k w
    = mkRun (Ret (found_data (server env (requests_of (events w)) (lookup k))))
        evs (canCreateIssues w)
    /\ requests_of evs = [lookup k].
Proof.
  unfold XrayClientReadOnly.findTestCase, XrayClientReadOnly.findTestCase_catch,
    issuetype_name, lookup.
  destruct (server env (requests_of (events w))
              (mkRequest GET ("/issue/" ++ k) BNone))
    as [[d |] | e [[st data] |]] eqn:Es; cbn [found_data];
    [ destruct (d_fields d) as [f |] eqn:Ef;
      [ destruct (issuetype f) as [it |] eqn:Ei | ] | .. ];
    (eexists; split; [mrun | reflexivity]).
Qed.

Lemma hybrid_findTestCase_run (k : string) (w : World) :
  exists evs,
    XrayClientHybrid.findTestCase env k w
    = mkRun (Ret (found_data (server env (requests_of (events w)) (lookup k))))
        evs (canCreateIssues w)
    /\ requests_of evs = [lookup k].
Proof.
  unfold XrayClientHybrid.findTestCase, XrayClientHybrid.findTestCase_catch,
    issuetype_name, lookup.
  destruct (server env (requests_of (events w))
              (mkRequest GET ("/issue/" ++ k) BNone))
    as [[d |] | e [[st data] |]] eqn:Es; cbn [found_data];
    [ destruct (d_fields d) as [f |] eqn:Ef;
      [ destruct (issuetype f) as [it |] eqn:Ei | ] | .. ];
    (eexists; split; [mrun | reflexivity]).
Qed.

Lemma full_findTestCase_run (k : string) (w : World) :
  exists evs,
    XrayClientFull.findTestCase env k w
    = mkRun (Ret (found_data (server env (requests_of (events w)) (lookup k))))
        evs (canCreateIssues w)
    /\ requests_of evs = [lookup k].
Proof.
  unfold XrayClientFull.findTestCase, XrayClientFull.findTestCase_catch,
    issuetype_name, lookup.
  destruct (server env (requests_of (events w))
              (mkRequest GET ("/issue/" ++ k) BNone))
    as [[d |] | e [[st data] |]] eqn:Es; cbn [found_data];
    [ destruct (d_fields d) as [f |] eqn:Ef;
      [ destruct (issuetype f) as [it |] eqn:Ei | ] | .. ];
    (eexists; split; [mrun | reflexivity]).
Qed.

Lemma resolves_found (r : Response) :
  resolves r = match found_data r with Some _ => true | None => false end.
Proof. reflexivity. Qed.

(** The loop of [XrayClientReadOnly.createTestExecution]: one lookup per
    test, in order, and the tests whose lookup resolved are kept. *)
Lemma ro_find_loop_run (ts : list XrayTestResult) :
  forall (acc : list (XrayTestResult * option string)) (w : World),
  exists evs l,
    XrayClientReadOnly.find_loop env ts acc w
    = mkRun (Ret l) evs (canCreateIssues w)
    /\ map fst l
       = (map fst acc ++ found_tests env (requests_of (events w)) ts)%list
    /\ requests_of evs = map (fun t => lookup (testKey t)) ts.
Proof.
  induction ts as [| t ts IH]; intros acc w.
  - exists [], acc. cbn. now rewrite app_nil_r.
  - destruct (ro_findTestCase_run (testKey t) w) as (e1 & H1 & R1).
    cbn [XrayClientReadOnly.find_loop found_tests map].
    rewrite resolves_found.
    erewrite run_bind; [| exact H1 | reflexivity].
    destruct (found_data (server env (requests_of (events w)) (lookup (testKey t))))
      as [d |].
    + erewrite run_bind; [| reflexivity | reflexivity].
      match goal with
      | |- context [XrayClientReadOnly.find_loop env ts ?acc' ?w'] =>
          destruct (IH acc' w') as (e2 & l & H2 & L2 & R2); rewrite H2
      end.
      cbn [outcome emitted flag_after events canCreateIssues] in *.
      eexists _, l. split; [reflexivity |]. split.
      * rewrite L2, map_app, !requests_of_app, R1. cbn.
        now rewrite <- !app_assoc.
      * rewrite !requests_of_app, R1, R2. reflexivity.
    + erewrite run_bind; [| reflexivity | reflexivity].
      match goal with
      | |- context [XrayClientReadOnly.find_loop env ts ?acc' ?w'] =>
          destruct (IH acc' w') as (e2 & l & H2 & L2 & R2); rewrite H2
      end.
      cbn [outcome emitted flag_after events canCreateIssues] in *.
      eexists _, l. split; [reflexivity |]. split.
      * rewrite L2, !requests_of_app, R1. cbn. now rewrite app_nil_r.
      * rewrite !requests_of_app, R1, R2. reflexivity.
Qed.

Lemma hybrid_find_loop_run (ts : list XrayTestResult) :
  forall (acc : list (XrayTestResult * option string)) (w : World),
  exists evs l,
    XrayClientHybrid.find_loop env ts acc w
    = mkRun (Ret l) evs (canCreateIssues w)
    /\ map fst l
       = (map fst acc ++ found_tests env (requests_of (events w)) ts)%list
    /\ requests_of evs = map (fun t => lookup (testKey t)) ts.
Proof.
  induction ts as [| t ts IH]; intros acc w.
  - exists [], acc. cbn. now rewrite app_nil_r.
  - destruct (hybrid_findTestCase_run (testKey t) w) as (e1 & H1 & R1).
    cbn [XrayClientHybrid.find_loop found_tests map].
    rewrite resolves_found.
    erewrite run_bind; [| exact H1 | reflexivity].
    destruct (found_data (server env (requests_of (events w)) (lookup (testKey t))))
      as [d |].
    + match goal with
      | |- context [XrayClientHybrid.find_loop env ts ?acc' ?w'] =>
          destruct (IH acc' w') as (e2 & l & H2 & L2 & R2); rewrite H2
      end.
      cbn [outcome emitted flag_after events canCreateIssues] in *.
      eexists _, l. split; [reflexivity |]. split.
      * rewrite L2, map_app, !requests_of_app, R1. cbn.
        now rewrite <- !app_assoc.
      * rewrite !requests_of_app, R1, R2. reflexivity.
    + erewrite run_bind; [| reflexivity | reflexivity].
      match goal with
      | |- context [XrayClientHybrid.find_loop env ts ?acc' ?w'] =>
          destruct (IH acc' w') as (e2 & l & H2 & L2 & R2); rewrite H2
      end.
      cbn [outcome emitted flag_after events canCreateIssues] in *.
      eexists _, l. split; [reflexivity |]. split.
      * rewrite L2, !requests_of_app, R1. cbn. now rewrite app_nil_r.
      * rewrite !requests_of_app, R1, R2. reflexivity.
Qed.

(** [XrayClientReadOnly.createTestExecution], seen from the server: the
    lookups, then one request that creates the execution with the tests
    found, or a throw when none was found. *)
Lemma ro_createTestExecution_run (ex : XrayTestExecution) (w : World) :
  let found := found_tests env (requests_of (events w)) (tests ex) in
  let lookups := map (fun t => lookup (testKey t)) (tests ex) in
  exists evs o,
    XrayClientReadOnly.createTestExecution env ex w
    = mkRun o evs (canCreateIssues w)
    /\ match found with
       | [] =>
           o = Throw (Js.NewError "No existing test cases found to execute")
           /\ requests_of evs = lookups
       | _ :: _ =>
           exists i,
             requests_of evs
             = (lookups ++ [mkRequest POST "/testexecution"
                              (BExecution i (map payloadTest found))])%list
       end.
Proof.
  intros found lookups.
  destruct (ro_find_loop_run (tests ex) [] w) as (e1 & l & H1 & L1 & R1).
  cbn [map app] in L1. fold found in L1. fold lookups in R1.
  unfold XrayClientReadOnly.createTestExecution,
    XrayClientReadOnly.createTestExecution_catch.
  destruct l as [| p l].
  - rewrite <- L1. eexists _, _. split; [mrun |].
    split; [reflexivity |]. hist_norm. reflexivity.
  - rewrite <- L1. cbn [map].
    destruct (server env (requests_of (events w) ++ lookups)
                (mkRequest POST "/testexecution"
                   (executionData env
                      "Automated test execution from Playwright (Read-only mode)"
                      (info ex) (now_iso env (events w ++ e1))
                      (map fst (p :: l)))))
      as [[d |] | e [[st data] |]] eqn:Es.
    all: eexists _, _; split; [mrun |].
    all: unfold executionData; eexists; hist_norm; reflexivity.
Qed.

(** [XrayClientHybrid.createTestExecution], seen from the server: the
    same lookups and the same request, but [null] when none was found. *)
Lemma hybrid_createTestExecution_run (ex : XrayTestExecution) (w : World) :
  let found := found_tests env (requests_of (events w)) (tests ex) in
  let lookups := map (fun t => lookup (testKey t)) (tests ex) in
  exists evs o,
    XrayClientHybrid.createTestExecution env ex w
    = mkRun o evs (canCreateIssues w)
    /\ match found with
       | [] => o = Ret None /\ requests_of evs = lookups
       | _ :: _ =>
           exists i,
             requests_of evs
             = (lookups ++ [mkRequest POST "/testexecution"
                              (BExecution i (map payloadTest found))])%list
       end.
Proof.
  intros found lookups.
  destruct (hybrid_find_loop_run (tests ex) [] w) as (e1 & l & H1 & L1 & R1).
  cbn [map app] in L1. fold found in L1. fold lookups in R1.
  unfold XrayClientHybrid.createTestExecution,
    XrayClientHybrid.createTestExecution_catch.
  destruct l as [| p l].
  - rewrite <- L1. eexists _, _. split; [mrun |].
    split; [reflexivity |]. hist_norm. reflexivity.
  - rewrite <- L1. cbn [map].
    destruct (server env (requests_of (events w) ++ lookups)
                (mkRequest POST "/testexecution"
                   (executionData env
                      "Automated test execution from Playwright"
                      (info ex) (now_iso env (events w ++ e1))
                      (map fst (p :: l)))))
      as [[d |] | e [[st data] |]] eqn:Es.
    all: eexists _, _; split; [mrun |].
    all: unfold executionData; eexists; hist_norm; reflexivity.
Qed.

Lemma found_tests_none (hist : list Request) (ts : list XrayTestResult) :
  (forall h t, In t ts -> resolves (server env h (lookup (testKey t))) = false) ->
  found_tests env hist ts = [].
Proof.
  revert hist; induction ts as [| t ts IH]; intros hist H; [reflexivity |].
  cbn [found_tests]. rewrite (H hist t (or_introl eq_refl)). cbn [app].
  apply IH. intros h t' Hin. apply H. now right.
Qed.

(** The tests found are tests of the report, in the order of the
    report. *)
Lemma found_tests_sublist (hist : list Request) (ts : list XrayTestResult) :
  forall t, In t (found_tests env hist ts) -> In t ts.
Proof.
  revert hist; induction ts as [| t0 ts IH]; intros hist t; [auto |].
  cbn [found_tests]. intros H. apply in_app_or in H as [H | H].
  - destruct (resolves _); [| destruct H]. destruct H as [<- | []]. now left.
  - right. now apply (IH _ _ H).
Qed.

End Lookup.

Section Degrading.

Variable env : Env.

Lemma lookups_not_posts (ts : list XrayTestResult) (r : Request) :
  In r (map (fun t => lookup (testKey t)) ts) -> is_execution_post r = false.
Proof.
  intros H. apply in_map_iff in H as (t & <- & _). reflexivity.
Qed.

Lemma found_tests_resolved (hist : list Request) (ts : list XrayTestResult) :
  forall t, In t (found_tests env hist ts) ->
            exists h, resolves (server env h (lookup (testKey t))) = true.
Proof.
  revert hist; induction ts as [| t0 ts IH]; intros hist t; [intros [] |].
  cbn [found_tests]. intros H. apply in_app_or in H as [H | H].
  - destruct (resolves _) eqn:E; [| destruct H].
    destruct H as [<- | []]. eauto.
  - now apply (IH _ _ H).
Qed.

Lemma payload_of_run (found : list XrayTestResult) (lookups reqs : list Request)
    (ts : list XrayTestResult) :
  lookups = map (fun t => lookup (testKey t)) ts ->
  match found with
  | [] => reqs = lookups
  | _ :: _ =>
      exists i, reqs = (lookups ++ [mkRequest POST "/testexecution"
                                      (BExecution i (map payloadTest found))])%list
  end ->
  forall r, In r reqs -> is_execution_post r = true ->
            creates_execution r (map payloadTest found).
Proof.
  intros -> H r Hin Hpost.
  destruct found as [| t found].
  - subst reqs. rewrite (lookups_not_posts _ _ Hin) in Hpost. discriminate.
  - destruct H as [i ->]. apply in_app_or in Hin as [Hin | [<- | []]].
    + rewrite (lookups_not_posts _ _ Hin) in Hpost. discriminate.
    + now exists i.
Qed.

Lemma ro_createTestExecution_none (ex : XrayTestExecution) (w : World) :
  found_tests env (requests_of (events w)) (tests ex) = [] ->
  exists evs,
    XrayClientReadOnly.createTestExecution env ex w
    = mkRun (Throw (Js.NewError "No existing test cases found to execute"))
        (evs ++ [ELog ErrorLevel
                   "Failed to create test execution: Error: No existing test cases found to execute"])
        (canCreateIssues w)
    /\ requests_of evs = map (fun t => lookup (testKey t)) (tests ex).
Proof.
  intros Hnone.
  destruct (ro_find_loop_run env (tests ex) [] w) as (e1 & l & H1 & L1 & R1).
  cbn [map app] in L1. rewrite Hnone in L1. apply map_eq_nil in L1. subst l.
  exists e1. split; [| exact R1].
  unfold XrayClientReadOnly.createTestExecution,
    XrayClientReadOnly.createTestExecution_catch.
  erewrite run_try_catch;
    [| erewrite run_bind; [reflexivity | exact H1 | reflexivity] | reflexivity].
  cbn [outcome emitted flag_after throw]. now rewrite !app_nil_r.
Qed.

Lemma hybrid_createTestExecution_none (ex : XrayTestExecution) (w : World) :
  found_tests env (requests_of (events w)) (tests ex) = [] ->
  exists evs,
    XrayClientHybrid.createTestExecution env ex w
    = mkRun (Ret None)
        (evs ++ [ELog Warn "No existing test cases found for execution"])
        (canCreateIssues w)
    /\ requests_of evs = map (fun t => lookup (testKey t)) (tests ex).
Proof.
  intros Hnone.
  destruct (hybrid_find_loop_run env (tests ex) [] w) as (e1 & l & H1 & L1 & R1).
  cbn [map app] in L1. rewrite Hnone in L1. apply map_eq_nil in L1. subst l.
  exists e1. split; [| exact R1].
  unfold XrayClientHybrid.createTestExecution,
    XrayClientHybrid.createTestExecution_catch.
  erewrite run_try_catch;
    [| erewrite run_bind; [reflexivity | exact H1 | reflexivity] | reflexivity].
  cbn [outcome emitted flag_after]. now rewrite !app_nil_r.
Qed.

End Degrading.

(** C4. On a report none of whose keys resolves to an existing issue,
    [XrayClientReadOnly.createTestExecution] logs the failure and throws
    'No existing test cases found to execute', while
    [XrayClientHybrid.createTestExecution] logs the warning 'No existing
    test cases found for execution' and returns [null]; both have sent
    the lookups and nothing else.  When some key resolves, both send,
    after the lookups, one request that creates the execution, and its
    payload holds the tests whose lookup resolved, in the order of the
    report, and no other: a test whose key is not found is left out. *)
Theorem readonly_throws_hybrid_returns_null (env : Env) (ex : XrayTestExecution)
    (w : World) :
  let ro := XrayClientReadOnly.createTestExecution env ex w in
  let hy := XrayClientHybrid.createTestExecution env ex w in
  let found := found_tests env (requests_of (events w)) (tests ex) in
  let lookups := map (fun t => lookup (testKey t)) (tests ex) in
  (found = [] ->
   outcome ro = Throw (Js.NewError "No existing test cases found to execute")
   /\ outcome hy = Ret None
   /\ (exists evs,
         emitted hy
         = (evs ++ [ELog Warn "No existing test cases found for execution"])%list)
   /\ (exists evs,
         emitted ro
         = (evs ++ [ELog ErrorLevel
                      "Failed to create test execution: Error: No existing test cases found to execute"])%list)
   /\ requests_of (emitted ro) = lookups
   /\ requests_of (emitted hy) = lookups)
  /\ ((forall h t, In t (tests ex) ->
                   resolves (server env h (lookup (testKey t))) = false) ->
      found = [])
  /\ (found <> [] ->
      exists i1 i2,
        requests_of (emitted ro)
        = (lookups ++ [mkRequest POST "/testexecution"
                         (BExecution i1 (map payloadTest found))])%list
        /\ requests_of (emitted hy)
           = (lookups ++ [mkRequest POST "/testexecution"
                            (BExecution i2 (map payloadTest found))])%list)
  /\ (forall r, In r (requests_of (emitted ro)) -> is_execution_post r = true ->
                creates_execution r (map payloadTest found))
  /\ (forall r, In r (requests_of (emitted hy)) -> is_execution_post r = true ->
                creates_execution r (map payloadTest found))
  /\ (forall t, In t found ->
                In t (tests ex)
                /\ exists h, resolves (server env h (lookup (testKey t))) = true)
  /\ (forall t, (forall h, resolves (server env h (lookup (testKey t))) = false) ->
                ~ In t found).
Proof.
  intros ro hy found lookups.
  destruct (ro_createTestExecution_run env ex w) as (e1 & o1 & H1 & P1).
  destruct (hybrid_createTestExecution_run env ex w) as (e2 & o2 & H2 & P2).
  fold found in P1, P2. fold ro in H1. fold hy in H2. fold lookups in P1, P2.
  split; [| split; [| split; [| split; [| split; [| split]]]]].
  - intros Hnone.
    destruct (ro_createTestExecution_none env ex w Hnone) as (a1 & E1 & R1).
    destruct (hybrid_createTestExecution_none env ex w Hnone) as (a2 & E2 & R2).
    fold ro in E1. fold hy in E2. fold lookups in R1, R2.
    rewrite E1, E2. cbn [outcome emitted].
    rewrite !requests_of_app, R1, R2. cbn [requests_of]. rewrite !app_nil_r.
    repeat split; eauto.
  - intros Hno. now apply found_tests_none.
  - intros Hne. destruct found as [| t0 found']; [congruence |].
    destruct P1 as [i1 P1], P2 as [i2 P2].
    exists i1, i2. rewrite H1, H2. cbn [emitted]. now split.
  - rewrite H1. cbn [emitted].
    apply (payload_of_run found _ _ (tests ex) eq_refl).
    destruct found; [now destruct P1 | exact P1].
  - rewrite H2. cbn [emitted].
    apply (payload_of_run found _ _ (tests ex) eq_refl).
    destruct found; [now destruct P2 | exact P2].
  - intros t Hin. split.
    + now apply (found_tests_sublist env _ _ t Hin).
    + now apply (found_tests_resolved env _ _ t Hin).
  - intros t Hno Hin.
    destruct (found_tests_resolved env _ _ t Hin) as [h Hh].
    rewrite Hno in Hh. discriminate.
Qed.

Lemma readonly_throws_hybrid_returns_null_witness :
  let known := mkResult "PROJ-1" "PASSED" None None None in
  let unknown := mkResult "PROJ-2" "FAILED" None None None in
  let info := mkInfo "run" None None None None None None in
  found_tests Sample.env [] [unknown] = []
  /\ outcome (XrayClientReadOnly.createTestExecution Sample.env
                (mkExecution info [unknown]) initial_world)
     = Throw (Js.NewError "No existing test cases found to execute")
  /\ outcome (XrayClientHybrid.createTestExecution Sample.env
                (mkExecution info [unknown]) initial_world)
     = Ret None
  /\ (exists evs,
        emitted (XrayClientHybrid.createTestExecution Sample.env
                   (mkExecution info [unknown]) initial_world)
        = (evs ++ [ELog Warn "No existing test cases found for execution"])%list)
  /\ found_tests Sample.env [] [unknown; known] <> []
  /\ exists i,
       requests_of (emitted (XrayClientHybrid.createTestExecution Sample.env
                               (mkExecution info [unknown; known]) initial_world))
       = [lookup "PROJ-2"; lookup "PROJ-1";
          mkRequest POST "/testexecution" (BExecution i [payloadTest known])].
Proof.
  intros known unknown info.
  assert (H0 : found_tests Sample.env [] [unknown] = []) by reflexivity.
  assert (H1 : found_tests Sample.env [] [unknown; known] <> [])
    by (vm_compute; discriminate).
  split; [exact H0 |].
  destruct (proj1 (readonly_throws_hybrid_returns_null Sample.env
                     (mkExecution info [unknown]) initial_world) H0)
    as (A & B & C & _).
  split; [exact A |]. split; [exact B |]. split; [exact C |].
  split; [exact H1 |].
  destruct (proj1 (proj2 (proj2 (readonly_throws_hybrid_returns_null Sample.env
                     (mkExecution info [unknown; known]) initial_world))) H1)
    as (i1 & i2 & _ & E).
  exists i2. exact E.
Defined.

(** ** What kind of requests a method sends *)

Section Kinds.

Variable env : Env.
Variable P : Request -> Prop.

Lemma emits_only_ret {A} (a : A) : emits_only P (ret a).
Proof. intros w; constructor. Qed.

Lemma emits_only_throw {A} (e : Js.Error) : emits_only P (@throw A e).
Proof. intros w; constructor. Qed.

Lemma emits_only_logger (l : Level) (msg : string) : emits_only P (logger l msg).
Proof. intros w; constructor. Qed.

Lemma emits_only_get_events : emits_only P get_events.
Proof. intros w; constructor. Qed.

Lemma emits_only_get_flag : emits_only P get_canCreateIssues.
Proof. intros w; constructor. Qed.

Lemma emits_only_set_flag (b : bool) : emits_only P (set_canCreateIssues b).
Proof. intros w; constructor. Qed.

Lemma emits_only_exists (path : string) : emits_only P (emit (EExists path)).
Proof. intros w; constructor. Qed.

Lemma emits_only_write (path : string) (c : FileContent) :
  emits_only P (emit (EWrite path c)).
Proof. intros w; constructor. Qed.

Lemma emits_only_bind {A B} (m : M A) (k : A -> M B) :
  emits_only P m -> (forall a, emits_only P (k a)) -> emits_only P (bind m k).
Proof.
  intros Hm Hk w. rewrite emitted_bind, requests_of_app.
  apply Forall_app. split; [apply Hm |].
  destruct (outcome (m w)); [apply Hk | constructor].
Qed.

Lemma emits_only_try_catch {A} (m : M A) (h : Js.Error -> M A) :
  emits_only P m -> (forall e, emits_only P (h e)) ->
  emits_only P (try_catch m h).
Proof.
  intros Hm Hh w. rewrite emitted_try_catch, requests_of_app.
  apply Forall_app. split; [apply Hm |].
  destruct (outcome (m w)); [constructor | apply Hh].
Qed.

Lemma emits_only_axios (m : Method) (url : string) (b : Body) :
  P (mkRequest m url b) -> emits_only P (axios env m url b).
Proof.
  intros H w. rewrite axios_run.
  destruct (server env _ _) as [d | e [[st data] |]]; cbn; repeat constructor;
    exact H.
Qed.

End Kinds.

Ltac emits_step :=
  first
    [ apply emits_only_axios; first [reflexivity | discriminate]
    | apply emits_only_bind; [| intros ? ]
    | apply emits_only_try_catch; [| intros ? ]
    | apply emits_only_ret
    | apply emits_only_throw
    | apply emits_only_logger
    | apply emits_only_get_events
    | apply emits_only_get_flag
    | apply emits_only_set_flag
    | apply emits_only_exists
    | apply emits_only_write
    | match goal with
      | |- emits_only _ (if ?b then _ else _) => destruct b
      | |- emits_only _ (match ?x with _ => _ end) => destruct x
      end
    | progress unfold issuetype_name, data_key, executionKey_of,
        Date_toISOString, Date_now, writeFileSync, call,
        XrayClientReadOnly.fields_summary ].

Ltac emits_auto := repeat emits_step.

(** ** The order of the hybrid reporter's requests *)



Lemma sample_collected :
  outcome ((this <- XrayReporterHybrid.new Sample.env Sample.options ;
            Lifecycle.run (Lifecycle.step_hybrid Sample.env) this Sample.callbacks)
             initial_world)
  = Ret Sample.collected
  /\ outcome ((this <- XrayReporter.new Sample.env Sample.options ;
               Lifecycle.run (Lifecycle.step_basic Sample.env) this Sample.callbacks)
                initial_world)
     = Ret Sample.collected.
Proof. split; vm_compute; reflexivity. Qed.

(** ** The full client ensures before it creates *)

Section FullClient.

Variable env : Env.

Lemma full_findTestCase_kind (P : Request -> Prop) (k : string) :
  P (lookup k) -> emits_only P (XrayClientFull.findTestCase env k).
Proof.
  intros H w. destruct (full_findTestCase_run env k w) as (evs & E & R).
  rewrite E. cbn [emitted]. rewrite R. repeat constructor. exact H.
Qed.

Lemma ensures_lookup (k : string) : ensures_test_case (lookup k).
Proof. left. now exists k. Qed.

Lemma ensures_issue (f : IssueFieldsPayload) :
  ensures_test_case (mkRequest POST "/issue" (BIssue f)).
Proof. right. now exists f. Qed.

Lemma ensureTestCaseExists_kind (k t : string) (d : option string) :
  emits_only ensures_test_case (XrayClientFull.ensureTestCaseExists env k t d).
Proof.
  unfold XrayClientFull.ensureTestCaseExists.
  apply emits_only_bind; [apply full_findTestCase_kind, ensures_lookup |].
  intros [data |]; [apply emits_only_ret |].
  apply emits_only_bind; [apply emits_only_logger | intros _].
  apply emits_only_bind; [| intros key; apply emits_only_ret].
  unfold XrayClientFull.createTestCase, XrayClientFull.createTestCase_catch.
  apply emits_only_try_catch; [| intros e; emits_auto].
  apply emits_only_bind; [apply emits_only_logger | intros _].
  apply emits_only_bind; [emits_auto | intros iso].
  apply emits_only_bind; [apply emits_only_axios, ensures_issue |].
  intros data. emits_auto.
Qed.

Lemma ensure_loop_kind (ts : list XrayTestResult) :
  forall acc, emits_only ensures_test_case (XrayClientFull.ensure_loop env ts acc).
Proof.
  induction ts as [| t ts IH]; intros acc; cbn [XrayClientFull.ensure_loop].
  - apply emits_only_ret.
  - apply emits_only_bind; [apply ensureTestCaseExists_kind |].
    intros key. apply IH.
Qed.

(** When the loop completes, every test of the report is in
    [existingTestCases]. *)
Lemma ensure_loop_all (ts : list XrayTestResult) :
  forall acc w l,
    outcome (XrayClientFull.ensure_loop env ts acc w) = Ret l ->
    map fst l = (map fst acc ++ ts)%list.
Proof.
  induction ts as [| t ts IH]; intros acc w l; cbn [XrayClientFull.ensure_loop].
  - cbn. intros H; injection H as <-. now rewrite app_nil_r.
  - rewrite outcome_bind.
    destruct (outcome (XrayClientFull.ensureTestCaseExists env _ _ _ w));
      [| discriminate].
    intros H. apply IH in H. rewrite H, map_app. cbn.
    now rewrite <- app_assoc.
Qed.

(** It completes only after each test case has been looked up. *)
Lemma ensure_loop_lookups (ts : list XrayTestResult) :
  forall acc w l,
    outcome (XrayClientFull.ensure_loop env ts acc w) = Ret l ->
    forall t, In t ts ->
      In (lookup (testKey t))
         (requests_of (emitted (XrayClientFull.ensure_loop env ts acc w))).
Proof.
  induction ts as [| t0 ts IH]; intros acc w l; cbn [XrayClientFull.ensure_loop];
    [intros _ t [] |].
  rewrite outcome_bind, emitted_bind, requests_of_app.
  destruct (outcome (XrayClientFull.ensureTestCaseExists env _ _ _ w)) eqn:Eo;
    [| discriminate].
  intros H t [<- | Hin]; apply in_or_app.
  - left. unfold XrayClientFull.ensureTestCaseExists.
    rewrite emitted_bind, requests_of_app.
    destruct (full_findTestCase_run env (testKey t0) w) as (evs & E & R).
    rewrite E. cbn [emitted]. rewrite R. now left.
  - right. exact (IH _ _ _ H t Hin).
Qed.

(** [createTestExecution] either stops before creating anything, or
    completes the loop and then sends one request, which carries every
    test the loop returned. *)
Lemma full_createTestExecution_shape (ex : XrayTestExecution) (w : World) :
  let r := XrayClientFull.createTestExecution env ex w in
  let loop := XrayClientFull.ensure_loop env (tests ex) [] w in
  exists post,
    requests_of (emitted r) = (requests_of (emitted loop) ++ post)%list
    /\ ((post = [] /\ exists e, outcome r = Throw e)
        \/ exists i l,
             outcome loop = Ret l /\ l <> []
             /\ post = [mkRequest POST "/testexecution"
                          (BExecution i (map payloadTest (map fst l)))]).
Proof.
  intros r loop. subst r loop.
  unfold XrayClientFull.createTestExecution,
    XrayClientFull.createTestExecution_catch.
  destruct (XrayClientFull.ensure_loop env (tests ex) [] w)
    as [o1 e1 f1] eqn:E1.
  cbn [outcome emitted].
  destruct o1 as [[| p l] | e].
  - exists []. split; [| left; split; [reflexivity |]].
    + erewrite run_try_catch;
        [| erewrite run_bind; [reflexivity | exact E1 | reflexivity]
         | reflexivity].
      mnorm. hist_norm. reflexivity.
    + erewrite run_try_catch;
        [| erewrite run_bind; [reflexivity | exact E1 | reflexivity]
         | reflexivity].
      mnorm. eexists. reflexivity.
  - destruct (server env (requests_of (events w) ++ requests_of e1)
                (mkRequest POST "/testexecution"
                   (executionData env "Automated test execution from Playwright"
                      (info ex) (now_iso env (events w ++ e1))
                      (map fst (p :: l)))))
      as [[d |] | e [[st data] |]] eqn:Es.
    all: eexists; split;
      [| right; eexists _, (p :: l); split; [reflexivity |];
         split; [discriminate | reflexivity] ].
    all: erewrite run_try_catch; [| mrun | reflexivity]; mnorm;
      unfold executionData; hist_norm; reflexivity.
  - exists []. split; [| left; split; [reflexivity |]].
    + erewrite run_try_catch;
        [| erewrite run_bind; [reflexivity | exact E1 | reflexivity]
         | reflexivity].
      mnorm. hist_norm. reflexivity.
    + erewrite run_try_catch;
        [| erewrite run_bind; [reflexivity | exact E1 | reflexivity]
         | reflexivity].
      mnorm. eexists. reflexivity.
Qed.

(** Part of C1 that holds: [XrayClientFull.createTestExecution] sends the
    request that creates the execution last, after it has looked every
    test case up and created the missing ones, and with every test of the
    report in it; or else it throws and never sends that request. *)
Lemma full_ensures_before_creating (ex : XrayTestExecution) (w : World) :
  let r := XrayClientFull.createTestExecution env ex w in
  exists pre post,
    requests_of (emitted r) = (pre ++ post)%list
    /\ Forall ensures_test_case pre
    /\ ((post = [] /\ exists e, outcome r = Throw e)
        \/ ((exists i, post = [mkRequest POST "/testexecution"
                                 (BExecution i (map payloadTest (tests ex)))])
            /\ tests ex <> []
            /\ forall t, In t (tests ex) -> In (lookup (testKey t)) pre)).
Proof.
  intros r.
  destruct (full_createTestExecution_shape ex w) as (post & Hreq & Hshape).
  fold r in Hreq, Hshape.
  exists (requests_of (emitted (XrayClientFull.ensure_loop env (tests ex) [] w))),
    post.
  split; [exact Hreq |]. split; [apply ensure_loop_kind |].
  destruct Hshape as [Hstop | (i & l & Hl & Hne & ->)]; [now left | right].
  pose proof (ensure_loop_all _ _ _ _ Hl) as Hall. cbn [map app] in Hall.
  split; [exists i; now rewrite Hall |].
  split; [intros E; rewrite E in Hall; destruct l; [congruence | discriminate] |].
  exact (ensure_loop_lookups _ _ _ _ Hl).
Qed.

Lemma ensureTestCaseExists_fails (k t : string) (d : option string) (w : World) :
  resolves (server env (requests_of (events w)) (lookup k)) = false ->
  (forall h b, exists e resp,
     server env h (mkRequest POST "/issue" b) = Rejected e resp) ->
  exists e, outcome (XrayClientFull.ensureTestCaseExists env k t d w) = Throw e.
Proof.
  intros Hno Hrej. unfold XrayClientFull.ensureTestCaseExists.
  destruct (full_findTestCase_run env k w) as (evs & E & R).
  rewrite outcome_bind, E. cbn [outcome].
  unfold resolves in Hno.
  destruct (found_data (server env (requests_of (events w)) (lookup k)));
    [discriminate |].
  rewrite outcome_bind. cbn [logger emit outcome].
  rewrite outcome_bind.
  unfold XrayClientFull.createTestCase, XrayClientFull.createTestCase_catch.
  rewrite outcome_try_catch.
  match goal with
  | |- context [outcome (bind ?m ?k0 ?w1)] =>
      assert (Hbody : exists e, outcome (bind m k0 w1) = Throw e)
  end.
  { rewrite outcome_bind. cbn [logger emit outcome].
    unfold Date_toISOString.
    rewrite outcome_bind, outcome_bind. cbn [get_events ret outcome].
    rewrite outcome_bind.
    match goal with
    | |- context [axios env POST "/issue" ?b ?w1] =>
        destruct (Hrej (requests_of (events w1)) b) as (e & resp & He);
        rewrite (axios_rejected env POST "/issue" b w1 e resp He)
    end.
    eauto. }
  destruct Hbody as [e ->].
  rewrite outcome_bind. cbn [logger emit outcome throw]. eauto.
Qed.

(** When not a single test case can be found or created, the call throws
    and no request that creates an execution is sent. *)
Lemma full_none_ensured (ex : XrayTestExecution) (w : World) :
  (forall h t, In t (tests ex) ->
               resolves (server env h (lookup (testKey t))) = false) ->
  (forall h b, exists e resp,
     server env h (mkRequest POST "/issue" b) = Rejected e resp) ->
  let r := XrayClientFull.createTestExecution env ex w in
  (exists e, outcome r = Throw e)
  /\ Forall no_execution (requests_of (emitted r)).
Proof.
  intros Hno Hrej r.
  destruct (full_createTestExecution_shape ex w) as (post & Hreq & Hshape).
  fold r in Hreq, Hshape.
  assert (Hkind : Forall no_execution
                    (requests_of (emitted (XrayClientFull.ensure_loop env (tests ex) [] w)))).
  { eapply Forall_impl; [| apply ensure_loop_kind].
    intros q [[k ->] | [f ->]]; reflexivity. }
  destruct Hshape as [[-> Hthrow] | (i & l & Hl & Hne & _)].
  - split; [exact Hthrow |]. rewrite Hreq, app_nil_r. exact Hkind.
  - exfalso.
    pose proof (ensure_loop_all _ _ _ _ Hl) as Hall. cbn [map app] in Hall.
    destruct (tests ex) as [| t ts] eqn:Et.
    + destruct l; [congruence | discriminate].
    + cbn [XrayClientFull.ensure_loop] in Hl. rewrite outcome_bind in Hl.
      destruct (ensureTestCaseExists_fails (testKey t)
                  (XrayClientFull.testTitle_of t)
                  (Some (XrayClientFull.testDescription_of t)) w) as [e He].
      * apply Hno. now left.
      * exact Hrej.
      * rewrite He in Hl. discriminate.
Qed.

End FullClient.

(** ** The basic reporter and the status of the execution *)

Section BasicReporter.

Variable env : Env.

(** Had the execution been created, the call of
    [updateTestExecutionStatus] would be a call of [undefined]. *)
Lemma updateTestExecutionStatus_undefined (key : option string) (st : string)
    (w : World) :
  outcome (call "xrayClient.updateTestExecutionStatus"
             (option_map (fun f => f env key st)
                XrayClientReadOnly.updateTestExecutionStatus) w)
  = Throw (Js.TypeError "xrayClient.updateTestExecutionStatus is not a function").
Proof. reflexivity. Qed.

End BasicReporter.

(** C1, where the code departs from it.  The basic reporter never gets
    as far as creating the execution, let alone updating its status:
    once results have been collected, [reportToXray] stops at
    [XrayClientReadOnly.getInstance()], whose constructor calls
    [getJiraApiUrlV2], a method [XrayConfigManager] does not have.  In
    the sample run, whose final status would be 'PASSED', it logs the
    [TypeError] and throws it; [onEnd] logs it once more and returns.
    No run of the basic reporter sends any request, whatever the server
    and the configuration, and the read-only client declares no
    [updateTestExecutionStatus]. *)
Theorem basic_reporter_never_updates_status :
  XrayReporter.reportToXray Sample.env Sample.collected initial_world
  = mkRun (Throw constructor_error) [report_failure] true
  /\ XrayReporter.finalStatus (Map_values (testResults Sample.collected))
     = "PASSED"
  /\ Sample.basic_run initial_world
     = mkRun (Ret tt)
         [ELog Info "Xray Reporter: Test execution started";
          ELog Info "Test PROJ-1 completed with status: PASSED";
          ELog Info "Xray Reporter: Test execution completed";
          report_failure;
          ELog ErrorLevel
            "Failed to report to Xray: TypeError: this.config.getJiraApiUrlV2 is not a function"]
         true
  /\ (forall env this w,
        requests_of (emitted (XrayReporter.reportToXray env this w)) = []
        /\ (Map_values (testResults this) <> [] ->
            XrayReporter.reportToXray env this w
            = mkRun (Throw constructor_error) [report_failure]
                (canCreateIssues w)))
  /\ (forall env w,
        outcome (XrayClientReadOnly.getInstance env w) = Throw constructor_error)
  /\ XrayClientReadOnly.updateTestExecutionStatus = None.
Proof.
  split; [vm_compute; reflexivity |].
  split; [vm_compute; reflexivity |].
  split; [vm_compute; reflexivity |].
  split; [| split; [reflexivity | reflexivity]].
  intros env this w.
  split; [apply basic_reportToXray_sends_nothing |].
  rewrite basic_reportToXray_run.
  destruct (Map_values (testResults this)); [congruence | reflexivity].
Qed.

(** ** Failure handling *)

Ltac handler_run :=
  let c := fresh "c" in
  let e := fresh "e" in
  let w := fresh "w" in
  intros c e w; cbn;
  try (destruct (c_resp c) as [[? ?] |]; cbn);
  repeat split; try discriminate; repeat constructor.

Ltac classify_handler :=
  first
    [ left; left; solve [handler_run]
    | left; right; solve [handler_run]
    | right; split; [reflexivity | solve [handler_run]] ].

(** C3, as it holds.  Every handler of the reporters and of the Xray
    clients logs and then either returns its fallback value or throws the
    error it caught; none sends a request, and none changes any state,
    except the handler of [XrayClientHybrid.tryCreateTestCase], which
    also switches [canCreateIssues] off before it returns [null]. *)
Theorem handlers_log_and_continue_or_throw :
  Forall (fun h =>
            (log_and_continue h \/ log_and_throw h)
            \/ (h_name h = "XrayClientHybrid.tryCreateTestCase"
                /\ log_disable_and_continue h))
         handlers.
Proof.
  unfold handlers, catch_blocks, interceptors. cbn [app].
  repeat (apply Forall_cons; [classify_handler |]).
  apply Forall_nil.
Qed.

(** C3, as stated, fails: the handler of
    [XrayClientHybrid.tryCreateTestCase] is one of the handlers, and it is
    neither log-and-continue nor log-and-throw, since it leaves
    [canCreateIssues] changed. *)
Lemma tryCreateTestCase_handler_recovers :
  In tryCreateTestCase_handler handlers
  /\ ~ (log_and_continue tryCreateTestCase_handler
        \/ log_and_throw tryCreateTestCase_handler)
  /\ ~ Forall (fun h => log_and_continue h \/ log_and_throw h) handlers
  /\ flag_after (h_run tryCreateTestCase_handler
                   (mkCtx "PROJ-1" POST "/issue" None)
                   (Js.mkError "AxiosError" "Request failed with status code 403")
                   initial_world)
     = false.
Proof.
  assert (Hin : In tryCreateTestCase_handler handlers) by (cbn; tauto).
  assert (Hnot : ~ (log_and_continue tryCreateTestCase_handler
                    \/ log_and_throw tryCreateTestCase_handler)).
  { intros [H | H];
      destruct (H (mkCtx "PROJ-1" POST "/issue" None)
                  (Js.mkError "AxiosError" "Request failed with status code 403")
                  initial_world) as (_ & _ & Hflag);
      discriminate Hflag. }
  split; [exact Hin |]. split; [exact Hnot |]. split; [| reflexivity].
  intros Hall. apply Hnot.
  exact (proj1 (Forall_forall _ _) Hall _ Hin).
Qed.

(** * Further properties *)

(** ** Configuration *)

Lemma truthy_or_default (v : option string) :
  Js.truthy (Some (Js.or_default v "")) = Js.truthy v.
Proof. destruct v as [[| c s] |]; reflexivity. Qed.

(** X1. A configuration built from the process environment is valid
    exactly when JIRA_BASE_URL, JIRA_USERNAME, JIRA_API_TOKEN and
    JIRA_PROJECT_KEY are all set to non-empty strings; the optional
    variables play no part. *)
Theorem validateConfig_new (process_env : string -> option string) :
  XrayConfigManager.validateConfig (XrayConfigManager.new process_env) = true
  <-> forall v, In v required_variables -> Js.truthy (process_env v) = true.
Proof.
  unfold XrayConfigManager.validateConfig, XrayConfigManager.requiredFields,
    required_variables.
  cbn [forallb XrayConfigManager.new jiraBaseUrl jiraUsername jiraApiToken
       projectKey].
  rewrite !truthy_or_default, andb_true_r, !andb_true_iff.
  split.
  - intros (H1 & H2 & H3 & H4) v [<- | [<- | [<- | [<- | []]]]]; assumption.
  - intros H. repeat split; apply H; cbn; tauto.
Qed.

(** ** The end of a run *)

(** X2. [onEnd] never throws, in any of the three reporters: whatever
    the server answers, whatever the file system does and whatever was
    collected, a failure of the reporting is caught and the call
    returns. *)
Theorem onEnd_never_throws (env : Env) (this : Reporter) (w : World) :
  outcome (XrayReporter.onEnd env this w) = Ret tt
  /\ outcome (XrayReporterHybrid.onEnd env this w) = Ret tt
  /\ outcome (XrayReporterFull.onEnd env this w) = Ret tt.
Proof.
  unfold XrayReporter.onEnd, XrayReporterHybrid.onEnd, XrayReporterFull.onEnd.
  repeat split; rewrite outcome_bind; cbn [logger emit outcome];
    rewrite outcome_try_catch;
    match goal with
    | |- match outcome ?r with _ => _ end = _ => destruct (outcome r) as [[] | e]
    end; reflexivity.
Qed.

(** ** Computations that return *)

Section Returning.

Lemma never_throws_ret {A} (a : A) : never_throws (ret a).
Proof. intros w. now exists a. Qed.

Lemma never_throws_emit (e : Event) : never_throws (emit e).
Proof. intros w. now exists tt. Qed.

Lemma never_throws_logger (l : Level) (msg : string) : never_throws (logger l msg).
Proof. intros w. now exists tt. Qed.

Lemma never_throws_get_events : never_throws get_events.
Proof. intros w. eexists. reflexivity. Qed.

Lemma never_throws_get_flag : never_throws get_canCreateIssues.
Proof. intros w. eexists. reflexivity. Qed.

Lemma never_throws_set_flag (b : bool) : never_throws (set_canCreateIssues b).
Proof. intros w. now exists tt. Qed.

Lemma never_throws_bind {A B} (m : M A) (k : A -> M B) :
  never_throws m -> (forall a, never_throws (k a)) -> never_throws (bind m k).
Proof.
  intros Hm Hk w. rewrite outcome_bind. destruct (Hm w) as [a ->]. apply Hk.
Qed.

Lemma never_throws_try_catch {A} (m : M A) (h : Js.Error -> M A) :
  (forall e, never_throws (h e)) -> never_throws (try_catch m h).
Proof.
  intros Hh w. rewrite outcome_try_catch.
  destruct (outcome (m w)) as [a | e]; [now exists a | apply Hh].
Qed.

End Returning.

Ltac returns_step :=
  first
    [ apply never_throws_try_catch; intros ?
    | apply never_throws_bind; [| intros ? ]
    | apply never_throws_ret
    | apply never_throws_logger
    | apply never_throws_emit
    | apply never_throws_get_events
    | apply never_throws_get_flag
    | apply never_throws_set_flag
    | match goal with
      | |- never_throws (if ?b then _ else _) => destruct b
      | |- never_throws (match ?x with _ => _ end) => destruct x
      end
    | progress unfold Date_toISOString, Date_now ].

Ltac returns_auto := repeat returns_step.

Section HybridReturns.

Variable env : Env.

Lemma hybrid_findTestCase_returns (k : string) :
  never_throws (XrayClientHybrid.findTestCase env k).
Proof.
  unfold XrayClientHybrid.findTestCase, XrayClientHybrid.findTestCase_catch.
  returns_auto.
Qed.

Lemma tryCreateTestCase_returns (k t : string) (d : option string) :
  never_throws (XrayClientHybrid.tryCreateTestCase env k t d).
Proof.
  unfold XrayClientHybrid.tryCreateTestCase,
    XrayClientHybrid.tryCreateTestCase_catch.
  apply never_throws_bind; [apply never_throws_get_flag | intros can].
  destruct (negb can); returns_auto.
Qed.

Lemma hybrid_ensureTestCaseExists_returns (k t : string) (d : option string) :
  never_throws (XrayClientHybrid.ensureTestCaseExists env k t d).
Proof.
  unfold XrayClientHybrid.ensureTestCaseExists.
  apply never_throws_bind; [apply hybrid_findTestCase_returns |].
  intros [data |]; [apply never_throws_ret |].
  apply never_throws_bind; [apply tryCreateTestCase_returns | intros key].
  returns_auto.
Qed.

Lemma hybrid_updateTestCaseStatus_returns (k st : string) :
  never_throws (XrayClientHybrid.updateTestCaseStatus env k st).
Proof.
  unfold XrayClientHybrid.updateTestCaseStatus,
    XrayClientHybrid.updateTestCaseStatus_catch.
  returns_auto.
Qed.

Lemma hybrid_updateAll_loop_returns (rs : list XrayTestResult) :
  forall n, never_throws (XrayClientHybrid.updateAll_loop env rs n).
Proof.
  induction rs as [| r rs IH]; intros n; cbn [XrayClientHybrid.updateAll_loop].
  - apply never_throws_ret.
  - apply never_throws_bind; [apply hybrid_updateTestCaseStatus_returns |].
    intros success. apply IH.
Qed.

Lemma hybrid_updateAllTestCaseStatuses_returns (rs : list XrayTestResult) :
  never_throws (XrayClientHybrid.updateAllTestCaseStatuses env rs).
Proof.
  unfold XrayClientHybrid.updateAllTestCaseStatuses.
  apply never_throws_bind; [apply hybrid_updateAll_loop_returns | intros n].
  apply never_throws_logger.
Qed.

Lemma hybrid_addTestExecutionComment_returns (k st : string) (t : option Z)
    (c : option string) :
  never_throws (XrayClientHybrid.addTestExecutionComment env k st t c).
Proof.
  unfold XrayClientHybrid.addTestExecutionComment,
    XrayClientHybrid.addTestExecutionComment_catch.
  returns_auto.
Qed.

Lemma hybrid_createTestExecution_returns (ex : XrayTestExecution) :
  never_throws (XrayClientHybrid.createTestExecution env ex).
Proof.
  unfold XrayClientHybrid.createTestExecution,
    XrayClientHybrid.createTestExecution_catch.
  returns_auto.
Qed.

End HybridReturns.

(** X3. No public method of [XrayClientHybrid] ever throws: whatever the
    server answers (a rejection, a body without the expected fields, no
    body at all) and whatever the state of the instance, the call
    returns. *)
Theorem hybrid_client_never_throws (env : Env) (c : HybridCall) (w : World) :
  outcome (HybridUse.call_one env c w) = Ret tt.
Proof.
  assert (H : never_throws (HybridUse.call_one env c)).
  { destruct c; cbn [HybridUse.call_one];
      [ apply never_throws_bind; [| intros ?; apply never_throws_ret] ..
      | apply hybrid_updateAllTestCaseStatuses_returns
      | apply never_throws_bind; [| intros ?; apply never_throws_ret]
      | apply never_throws_bind; [| intros ?; apply never_throws_ret] ].
    - apply hybrid_findTestCase_returns.
    - apply tryCreateTestCase_returns.
    - apply hybrid_ensureTestCaseExists_returns.
    - apply hybrid_updateTestCaseStatus_returns.
    - apply hybrid_addTestExecutionComment_returns.
    - apply hybrid_createTestExecution_returns. }
  destruct (H w) as [[] E]. exact E.
Qed.

(** X4. Once results have been collected,
    [XrayReporterHybrid.reportToXray] always fails, whatever the server
    and the file system: [XrayClientHybrid.getInstance()] throws the
    [TypeError] of the constructor, which the reporter logs and throws
    again.  Nothing is sent and nothing is written.  [onEnd] catches the
    error, logs it a second time and returns; with an incomplete
    configuration or without results it logs one warning instead. *)
Theorem hybrid_reportToXray_outcome (env : Env) (this : Reporter) (w : World) :
  outcome (XrayReporterHybrid.reportToXray env this w)
  = match Map_values (testResults this) with
    | [] => Ret tt
    | _ :: _ => Throw constructor_error
    end
  /\ Forall is_log (emitted (XrayReporterHybrid.reportToXray env this w))
  /\ XrayReporterHybrid.onEnd env this w
     = mkRun (Ret tt)
         (ELog Info "Xray Reporter (Hybrid): Test execution completed"
          :: if XrayConfigManager.validateConfig (config env)
             then match Map_values (testResults this) with
                  | [] => [ELog Warn "No test results to report to Xray"]
                  | _ :: _ =>
                      [report_failure;
                       ELog ErrorLevel
                         "Failed to report to Xray: TypeError: this.config.getJiraApiUrlV2 is not a function"]
                  end
             else [ELog Warn
                     "Xray configuration is incomplete. Skipping Xray reporting."])
         (canCreateIssues w).
Proof.
  split; [| split].
  - rewrite hybrid_reportToXray_run.
    destruct (Map_values (testResults this)); reflexivity.
  - rewrite hybrid_reportToXray_run.
    destruct (Map_values (testResults this)); repeat constructor.
  - unfold XrayReporterHybrid.onEnd, XrayReporterHybrid.reportToXray.
    destruct (XrayConfigManager.validateConfig (config env)); [| reflexivity].
    destruct (Map_values (testResults this)); reflexivity.
Qed.

(** ** The requests of the hybrid reporter *)

Section HybridRequests.

Variable env : Env.

Lemma hybrid_reportToXray_kind (this : Reporter) :
  emits_only hybrid_report_request (XrayReporterHybrid.reportToXray env this)
  /\ keeps_flag (XrayReporterHybrid.reportToXray env this).
Proof.
  split; intros w; rewrite hybrid_reportToXray_run;
    destruct (Map_values (testResults this)); cbn;
    first [constructor | reflexivity].
Qed.

End HybridRequests.

Lemma hybrid_request_not_issue (q : Request) :
  hybrid_report_request q -> ~ issue_post q.
Proof.
  intros [[k ->] | [(k & n & ->) | [(k & b & ->) | (i & ts & ->)]]] [f H];
    discriminate H.
Qed.

(** X5. Despite its name, the hybrid reporter never creates a test case.
    Every request [XrayReporterHybrid.reportToXray] sends is a lookup of
    an issue, a status update, a result comment or the creation of the
    test execution; none is a POST to /issue, and the creation latch of
    the client is left as it was.  (By X4 the run stops before it sends
    anything at all.) *)
Theorem hybrid_reporter_creates_no_issue (env : Env) (this : Reporter) (w : World) :
  let r := XrayReporterHybrid.reportToXray env this w in
  Forall hybrid_report_request (requests_of (emitted r))
  /\ (forall q, In q (requests_of (emitted r)) -> ~ issue_post q)
  /\ flag_after r = canCreateIssues w.
Proof.
  intros r. destruct (hybrid_reportToXray_kind env this) as [Hk Hf].
  split; [apply Hk |]. split; [| apply Hf].
  intros q Hin. apply hybrid_request_not_issue.
  exact (proj1 (Forall_forall _ _) (Hk w) q Hin).
Qed.

(** ** Looking up, in the three clients *)

(** X6. [findTestCase] behaves the same in [XrayClientFull],
    [XrayClientReadOnly] and [XrayClientHybrid], log lines apart: it sends
    exactly one GET /issue/<key>, never throws, and returns the issue when
    the server resolved with data that carry [fields.issuetype]; a
    rejection, an empty body or a body without those fields all give
    [null]. *)
Theorem findTestCase_swallows_failures (env : Env) (k : string) (w : World) :
  let answer := server env (requests_of (events w)) (lookup k) in
  Forall (fun r : Run (option Data) =>
            outcome r = Ret (found_data answer)
            /\ requests_of (emitted r) = [lookup k]
            /\ flag_after r = canCreateIssues w)
    [XrayClientFull.findTestCase env k w;
     XrayClientReadOnly.findTestCase env k w;
     XrayClientHybrid.findTestCase env k w].
Proof.
  intros answer.
  destruct (full_findTestCase_run env k w) as (e1 & E1 & R1).
  destruct (ro_findTestCase_run env k w) as (e2 & E2 & R2).
  destruct (hybrid_findTestCase_run env k w) as (e3 & E3 & R3).
  rewrite E1, E2, E3. repeat constructor; assumption.
Qed.

(** ** The read-only client *)

Section ReadOnly.

Variable env : Env.

Lemma found_data_fields (r : Response) (d : Data) :
  found_data r = Some d -> exists f, d_fields d = Some f.
Proof.
  destruct r as [[d' |] | e resp]; cbn [found_data]; try discriminate.
  destruct (d_fields d') as [f |] eqn:Ef; [| discriminate].
  destruct (issuetype f); [| discriminate].
  intros H; injection H as <-. eauto.
Qed.

Lemma logTestResults_loop_run (rs : list XrayTestResult) :
  forall w, exists evs,
    XrayClientReadOnly.logTestResults_loop env rs w
    = mkRun (Ret tt) evs (canCreateIssues w)
    /\ requests_of evs = map (fun t => lookup (testKey t)) rs.
Proof.
  induction rs as [| t rs IH]; intros w.
  - exists []. split; reflexivity.
  - destruct (ro_findTestCase_run env (testKey t) w) as (e1 & H1 & R1).
    cbn [XrayClientReadOnly.logTestResults_loop map].
    destruct (found_data (server env (requests_of (events w)) (lookup (testKey t))))
      as [d |] eqn:Ef.
    + destruct (found_data_fields _ _ Ef) as [f Hf].
      erewrite run_bind; [| exact H1 | cbv beta iota].
      2:{ erewrite run_bind;
            [ reflexivity
            | unfold XrayClientReadOnly.fields_summary; rewrite Hf; mrun
            | reflexivity ]. }
      match goal with
      | |- context [XrayClientReadOnly.logTestResults_loop env rs ?w'] =>
          destruct (IH w') as (e2 & H2 & R2); rewrite H2
      end.
      cbn [outcome emitted flag_after events canCreateIssues] in *.
      eexists. split; [reflexivity |].
      rewrite !requests_of_app, R1, R2. reflexivity.
    + erewrite run_bind; [| exact H1 | cbv beta iota].
      2:{ erewrite run_bind; [reflexivity | reflexivity | reflexivity]. }
      match goal with
      | |- context [XrayClientReadOnly.logTestResults_loop env rs ?w'] =>
          destruct (IH w') as (e2 & H2 & R2); rewrite H2
      end.
      cbn [outcome emitted flag_after events canCreateIssues] in *.
      eexists. split; [reflexivity |].
      rewrite !requests_of_app, R1, R2. reflexivity.
Qed.

Lemma logTestResults_run (rs : list XrayTestResult) (w : World) :
  exists evs,
    XrayClientReadOnly.logTestResults env rs w
    = mkRun (Ret tt) evs (canCreateIssues w)
    /\ requests_of evs = map (fun t => lookup (testKey t)) rs.
Proof.
  unfold XrayClientReadOnly.logTestResults.
  match goal with
  | |- context [bind (logger ?l1 ?m1) (fun _ => bind (logger ?l2 ?m2) _)] =>
      destruct (logTestResults_loop_run rs
                  (mkWorld ((events w ++ [ELog l1 m1]) ++ [ELog l2 m2])
                     (canCreateIssues w)))
        as (evs & H & R)
  end.
  eexists. split; [mrun |].
  cbn [events canCreateIssues] in *.
  rewrite !requests_of_app, R. cbn [requests_of app]. now rewrite app_nil_r.
Qed.

End ReadOnly.

(** X7. [XrayClientReadOnly.logTestResults] only reads: it sends one
    lookup per result, in the order of the results, and nothing else, and
    it never throws.  In particular the summary of a found test case is
    always there to be logged, since [findTestCase] returns only issues
    that carry their fields. *)
Theorem logTestResults_reads_only (env : Env) (rs : list XrayTestResult)
    (w : World) :
  let r := XrayClientReadOnly.logTestResults env rs w in
  outcome r = Ret tt
  /\ requests_of (emitted r) = map (fun t => lookup (testKey t)) rs
  /\ flag_after r = canCreateIssues w.
Proof.
  intros r. subst r.
  destruct (logTestResults_run env rs w) as (evs & E & R).
  rewrite E. auto.
Qed.

(** ** The result map *)

Lemma Map_get_set_same (m : list (string * XrayTestResult)) (k : string)
    (v : XrayTestResult) :
  Map_get (Map_set m k v) k = Some v.
Proof.
  induction m as [| [k' v'] m IH]; cbn [Map_set Map_get].
  - now rewrite String.eqb_refl.
  - destruct (String.eqb k' k) eqn:E; cbn [Map_get].
    + now rewrite String.eqb_refl.
    + now rewrite E.
Qed.

Lemma Map_get_set_other (m : list (string * XrayTestResult)) (k : string)
    (v : XrayTestResult) (i : string) :
  i <> k -> Map_get (Map_set m k v) i = Map_get m i.
Proof.
  intros Hi. apply not_eq_sym in Hi. apply String.eqb_neq in Hi.
  induction m as [| [k' v'] m IH]; cbn [Map_set Map_get].
  - now rewrite Hi.
  - destruct (String.eqb k' k) eqn:E; cbn [Map_get].
    + apply String.eqb_eq in E. subst k'. now rewrite Hi.
    + now rewrite IH.
Qed.

Lemma length_Map_set (m : list (string * XrayTestResult)) (k : string)
    (v : XrayTestResult) :
  length (Map_set m k v)
  = match Map_get m k with Some _ => length m | None => S (length m) end.
Proof.
  induction m as [| [k' v'] m IH]; cbn [Map_set Map_get]; [reflexivity |].
  destruct (String.eqb k' k); cbn [length]; [reflexivity |].
  rewrite IH. now destruct (Map_get m k).
Qed.

Lemma records_Map_set (this : Reporter) (test : TestCase) (r : XrayTestResult) :
  records this
    (mkReporter (options this) (Map_set (testResults this) (id test) r)
       (startTime this))
    test r.
Proof.
  unfold records. cbn [testResults].
  split; [apply Map_get_set_same |].
  split; [intros i Hi; now apply Map_get_set_other | apply length_Map_set].
Qed.

(** X8. In the three reporters, [onTestEnd] on a test that carries a key
    stores one result under the test's id, with the key, the mapped
    status and the duration (0 when there is none): it replaces what was
    stored for that id (the placeholder of [onTestBegin], or the result
    of an earlier attempt when the test is retried) without adding an
    entry, and leaves the results of the other tests alone. *)
Theorem onTestEnd_replaces_result (env : Env) (this : Reporter) (test : TestCase)
    (result : TestResult) (w : World) (k : string) :
  XrayReporter.extractTestKey test = Some k ->
  Forall (fun r : Run Reporter =>
            exists after x,
              outcome r = Ret after
              /\ records this after test x
              /\ testKey x = k
              /\ status x = XrayReporter.mapTestStatus (r_status result)
              /\ executionTime x
                 = Some (match duration result with Some d => d | None => 0%Z end))
    [XrayReporter.onTestEnd env this test result w;
     XrayReporterHybrid.onTestEnd env this test result w;
     XrayReporterFull.onTestEnd env this test result w].
Proof.
  intros Hk.
  unfold XrayReporter.onTestEnd, XrayReporterHybrid.onTestEnd,
    XrayReporterFull.onTestEnd.
  change (XrayReporterHybrid.extractTestKey test)
    with (XrayReporter.extractTestKey test).
  change (XrayReporterFull.extractTestKey test)
    with (XrayReporter.extractTestKey test).
  rewrite Hk.
  repeat apply Forall_cons; [| | | apply Forall_nil].
  - destruct (generateEvidence_local env test result w) as (_ & _ & ev & Hev).
    rewrite outcome_bind, Hev. cbn [bind logger emit ret outcome].
    eexists _, _. split; [reflexivity |].
    split; [apply records_Map_set |]. repeat split.
  - cbn [bind logger emit ret outcome].
    eexists _, _. split; [reflexivity |].
    split; [apply records_Map_set |]. repeat split.
  - cbn [bind logger emit ret outcome].
    eexists _, _. split; [reflexivity |].
    split; [apply records_Map_set |]. repeat split.
Qed.

Lemma onTestEnd_replaces_result_witness :
  XrayReporter.extractTestKey Sample.test = Some "PROJ-1"
  /\ exists after x,
       outcome (XrayReporterHybrid.onTestEnd Sample.env Sample.collected
                  Sample.test Sample.result initial_world) = Ret after
       /\ records Sample.collected after Sample.test x
       /\ length (testResults after) = 1.
Proof.
  split; [reflexivity |].
  pose proof (onTestEnd_replaces_result Sample.env Sample.collected Sample.test
                Sample.result initial_world "PROJ-1" eq_refl) as H.
  apply Forall_inv_tail, Forall_inv in H.
  destruct H as (after & x & Ho & Hr & _).
  exists after, x. split; [exact Ho |]. split; [exact Hr |].
  destruct Hr as (_ & _ & Hlen). exact Hlen.
Defined.

(** ** Runs without keys *)

Section Keyless.

Variable env : Env.

Lemma step_keyless (this : Reporter) (c : Callback) (w : World) :
  (forall t, callback_test c = Some t -> XrayReporter.extractTestKey t = None) ->
  Forall (fun r : Run Reporter =>
            Forall is_log (emitted r)
            /\ exists this', outcome r = Ret this'
                             /\ testResults this' = testResults this)
    [Lifecycle.step_basic env this c w;
     Lifecycle.step_hybrid env this c w;
     step_full env this c w].
Proof.
  intros Hc.
  destruct c as [| t res | t res];
    cbn [Lifecycle.step_basic Lifecycle.step_hybrid step_full].
  - repeat apply Forall_cons; try apply Forall_nil;
      (split; [repeat constructor | eexists; split; reflexivity]).
  - unfold XrayReporter.onTestBegin, XrayReporterHybrid.onTestBegin,
      XrayReporterFull.onTestBegin.
    change (XrayReporterHybrid.extractTestKey t)
      with (XrayReporter.extractTestKey t).
    change (XrayReporterFull.extractTestKey t)
      with (XrayReporter.extractTestKey t).
    rewrite (Hc t eq_refl).
    repeat apply Forall_cons; try apply Forall_nil;
      (split; [constructor | eexists; split; reflexivity]).
  - unfold XrayReporter.onTestEnd, XrayReporterHybrid.onTestEnd,
      XrayReporterFull.onTestEnd.
    change (XrayReporterHybrid.extractTestKey t)
      with (XrayReporter.extractTestKey t).
    change (XrayReporterFull.extractTestKey t)
      with (XrayReporter.extractTestKey t).
    rewrite (Hc t eq_refl).
    repeat apply Forall_cons; try apply Forall_nil;
      (split; [constructor | eexists; split; reflexivity]).
Qed.

Lemma run_keyless (step : Reporter -> Callback -> M Reporter)
    (cs : list Callback) :
  (forall this c w,
     In c cs ->
     Forall is_log (emitted (step this c w))
     /\ exists this', outcome (step this c w) = Ret this'
                      /\ testResults this' = testResults this) ->
  forall this w,
    Forall is_log (emitted (Lifecycle.run step this cs w))
    /\ exists this', outcome (Lifecycle.run step this cs w) = Ret this'
                     /\ testResults this' = testResults this.
Proof.
  induction cs as [| c cs IH]; intros Hstep this w; cbn [Lifecycle.run].
  - split; [constructor | exists this; split; reflexivity].
  - destruct (Hstep this c w (or_introl eq_refl)) as (L1 & this1 & O1 & T1).
    rewrite emitted_bind, outcome_bind, O1.
    destruct (IH (fun t c' w' Hin => Hstep t c' w' (or_intror Hin)) this1
                (after w (step this c w))) as (L2 & this2 & O2 & T2).
    split; [apply Forall_app; auto |].
    exists this2. split; [exact O2 | congruence].
Qed.

Lemma keyless_callback (cs : list Callback) (c : Callback) :
  keyless cs -> In c cs ->
  forall t, callback_test c = Some t -> XrayReporter.extractTestKey t = None.
Proof.
  intros Hk Hin t Ht. apply Hk. rewrite <- Ht. now apply in_map.
Qed.

End Keyless.

Lemma lifecycle_keyless (new : M Reporter)
    (step : Reporter -> Callback -> M Reporter) (onEnd : Reporter -> M unit)
    (cs : list Callback) (w : World) :
  (forall w', exists this,
     outcome (new w') = Ret this /\ emitted (new w') = []
     /\ testResults this = []) ->
  (forall this c w',
     In c cs ->
     Forall is_log (emitted (step this c w'))
     /\ exists this', outcome (step this c w') = Ret this'
                      /\ testResults this' = testResults this) ->
  (forall this w',
     testResults this = [] ->
     outcome (onEnd this w') = Ret tt /\ Forall is_log (emitted (onEnd this w'))) ->
  let r := (this <- new ; this <- Lifecycle.run step this cs ; onEnd this) w in
  outcome r = Ret tt /\ Forall is_log (emitted r).
Proof.
  intros Hnew Hstep Hend r. subst r.
  destruct (Hnew w) as (this0 & O0 & E0 & T0).
  rewrite outcome_bind, emitted_bind, O0, E0. cbn [app].
  destruct (run_keyless step cs Hstep this0 (after w (new w)))
    as (L & this1 & O1 & T1).
  rewrite outcome_bind, emitted_bind, O1.
  destruct (Hend this1 (after (after w (new w))
                          (Lifecycle.run step this0 cs (after w (new w)))))
    as (O2 & L2); [congruence |].
  split; [exact O2 | apply Forall_app; auto].
Qed.

Ltac end_of_empty_run :=
  let this := fresh "this" in
  let w' := fresh "w" in
  let H := fresh "H" in
  intros this w' H;
  unfold XrayReporter.onEnd, XrayReporterHybrid.onEnd, XrayReporterFull.onEnd,
    XrayReporter.reportToXray, XrayReporterHybrid.reportToXray,
    XrayReporterFull.reportToXray, Map_values;
  rewrite H; cbn [map];
  destruct (XrayConfigManager.validateConfig _);
  (split; [reflexivity | repeat constructor]).

Ltac start_of_run :=
  let w' := fresh "w" in
  intros w'; eexists; split; [reflexivity | split; reflexivity].

(** X10. A run none of whose tests carries a key sends nothing and
    writes nothing, in any of the three reporters: from construction to
    the end of [onEnd] the only effects are log lines, and [onEnd]
    returns. *)
Theorem keyless_run_only_logs (env : Env) (opts : Options) (cs : list Callback)
    (w : World) :
  keyless cs ->
  Forall (fun r : Run unit => outcome r = Ret tt /\ Forall is_log (emitted r))
    [basic_lifecycle env opts cs w;
     hybrid_lifecycle env opts cs w;
     full_lifecycle env opts cs w].
Proof.
  intros Hk.
  repeat apply Forall_cons; try apply Forall_nil.
  - apply lifecycle_keyless; [start_of_run | | end_of_empty_run].
    intros this c w' Hin.
    pose proof (step_keyless env this c w' (keyless_callback cs c Hk Hin)) as H.
    now apply Forall_inv in H.
  - apply lifecycle_keyless; [start_of_run | | end_of_empty_run].
    intros this c w' Hin.
    pose proof (step_keyless env this c w' (keyless_callback cs c Hk Hin)) as H.
    now apply Forall_inv_tail, Forall_inv in H.
  - apply lifecycle_keyless; [start_of_run | | end_of_empty_run].
    intros this c w' Hin.
    pose proof (step_keyless env this c w' (keyless_callback cs c Hk Hin)) as H.
    now apply Forall_inv_tail, Forall_inv_tail, Forall_inv in H.
Qed.

Lemma keyless_run_only_logs_witness :
  let test := mkTestCase "t1" "login works"
                (Some (mkLocation "/repo/tests/login.spec.ts")) in
  let cs := [Begin; TestBegin test Sample.result; TestEnd test Sample.result] in
  keyless cs
  /\ outcome (full_lifecycle Sample.env Sample.options cs initial_world) = Ret tt
  /\ Forall is_log
       (emitted (full_lifecycle Sample.env Sample.options cs initial_world)).
Proof.
  intros test cs.
  assert (H : keyless cs).
  { intros t [Ht | [Ht | [Ht | []]]]; try discriminate Ht;
      injection Ht as <-; reflexivity. }
  split; [exact H |].
  pose proof (keyless_run_only_logs Sample.env Sample.options cs initial_world H)
    as Hall.
  apply Forall_inv_tail, Forall_inv_tail, Forall_inv in Hall. exact Hall.
Defined.

(** ** The basic reporter never completes a report *)

(** X11. Once results have been collected, [XrayReporter.reportToXray]
    never completes: on every server and every file system it ends by
    logging 'Failed to report test results to Xray' with the error and
    throwing that error again, so the line that announces success is
    never reached and the file xray-execution-key.txt is never written. *)
Theorem basic_reportToXray_never_completes (env : Env) (this : Reporter)
    (w : World) :
  Map_values (testResults this) <> [] ->
  let r := XrayReporter.reportToXray env this w in
  exists e pre,
    outcome r = Throw e
    /\ emitted r
       = (pre ++ [ELog ErrorLevel ("Failed to report test results to Xray: "
                                   ++ Js.Error_toString e)])%list
    /\ Forall not_write pre.
Proof.
  intros Hne r. subst r. rewrite basic_reportToXray_run.
  destruct (Map_values (testResults this)) as [| r0 rs]; [congruence |].
  exists constructor_error, [].
  split; [reflexivity |]. split; [reflexivity | constructor].
Qed.

Lemma basic_reportToXray_never_completes_witness :
  Map_values (testResults Sample.collected) <> []
  /\ exists e pre,
       outcome (XrayReporter.reportToXray Sample.env Sample.collected initial_world)
       = Throw e
       /\ emitted (XrayReporter.reportToXray Sample.env Sample.collected
                     initial_world)
          = (pre ++ [ELog ErrorLevel ("Failed to report test results to Xray: "
                                      ++ Js.Error_toString e)])%list
       /\ Forall not_write pre.
Proof.
  assert (H : Map_values (testResults Sample.collected) <> [])
    by (vm_compute; discriminate).
  split; [exact H |].
  exact (basic_reportToXray_never_completes Sample.env Sample.collected
           initial_world H).
Defined.

(** ** Ensuring a test case, in the full client *)

Section FullEnsure.

Variable env : Env.

(** What [createTestCase] makes of the server's answer. *)
Lemma full_createTestCase_run (k t : string) (d : option string) (w : World) :
  let iso := now_iso env (events w ++ [ELog Info ("Creating test case: " ++ k)]) in
  let q := mkRequest POST "/issue" (BIssue (testCaseData env k t d iso)) in
  exists evs,
    XrayClientFull.createTestCase env k t d w
    = mkRun
        match server env (requests_of (events w)) q with
        | Resolved (Some created) => Ret (d_key created)
        | Resolved None => Ret None
        | Rejected e _ => Throw e
        end
        evs (canCreateIssues w)
    /\ requests_of evs = [q].
Proof.
  intros iso q. subst iso q.
  unfold XrayClientFull.createTestCase, XrayClientFull.createTestCase_catch,
    data_key.
  destruct (server env (requests_of (events w))
              (mkRequest POST "/issue"
                 (BIssue (testCaseData env k t d
                            (now_iso env
                               (events w ++ [ELog Info ("Creating test case: " ++ k)]))))))
    as [[created |] | e [[st data] |]] eqn:Es;
    (eexists; split; [mrun | reflexivity]).
Qed.

End FullEnsure.


(** ** From the title of a test to the issue created for it *)

Lemma extractTestKey_is_key (test : TestCase) (k : string) :
  XrayReporter.extractTestKey test = Some k -> is_key k.
Proof.
  unfold XrayReporter.extractTestKey.
  destruct (Regex.match1 Regex.title_re (title test)) as [k1 |] eqn:E1.
  - intros H; injection H as <-. apply (match1_title_sound _ _ E1).
  - destruct (Regex.match1 Regex.file_re _) as [k2 |] eqn:E2; [| discriminate].
    intros H; injection H as <-. apply (match1_file_sound _ _ E2).
Qed.

Lemma split_head_letters (letters rest : string) :
  all_chars Js.isUpper letters = true ->
  Js.split_head "-" (letters ++ "-" ++ rest) = letters.
Proof.
  induction letters as [| c letters IH]; [reflexivity |].
  cbn [all_chars]. intros H. apply andb_true_iff in H as [Hc Hall].
  change (String c letters ++ "-" ++ rest)
    with (String c (letters ++ "-" ++ rest)).
  cbn [Js.split_head].
  rewrite Ascii.eqb_sym, (upper_not_dash c Hc). now rewrite IH.
Qed.

Lemma split_head_line (a b : string) (c : ascii) :
  Js.split_head c (a ++ String c b) = Js.split_head c a.
Proof.
  induction a as [| x a IH]; cbn [append Js.split_head].
  - now rewrite Ascii.eqb_refl.
  - destruct (Ascii.eqb x c); [reflexivity | now rewrite IH].
Qed.

Lemma generateTestComment_head (test : TestCase) (result : TestResult) :
  exists rest,
    XrayReporterFull.generateTestComment test result
    = "Test: " ++ title test ++ nl ++ rest.
Proof.
  unfold XrayReporterFull.generateTestComment.
  destruct (error result) as [e |]; eexists;
    rewrite !append_assoc_s; reflexivity.
Qed.

Lemma full_ensureTestCaseExists_sent (env : Env) (k t : string)
    (d : option string) (w : World) :
  resolves (server env (requests_of (events w)) (lookup k)) = false ->
  exists iso,
    requests_of (emitted (XrayClientFull.ensureTestCaseExists env k t d w))
    = [lookup k; mkRequest POST "/issue" (BIssue (testCaseData env k t d iso))].
Proof.
  intros Hno. unfold resolves in Hno.
  destruct (full_findTestCase_run env k w) as (e1 & H1 & R1).
  unfold XrayClientFull.ensureTestCaseExists.
  destruct (found_data (server env (requests_of (events w)) (lookup k)));
    [discriminate |].
  rewrite emitted_bind, H1. cbn [outcome emitted].
  rewrite emitted_bind. cbn [logger emit outcome emitted].
  rewrite emitted_bind.
  match goal with
  | |- context [XrayClientFull.createTestCase env k t d ?w1] =>
      destruct (full_createTestCase_run env k t d w1) as (e2 & H2 & R2);
      rewrite H2
  end.
  cbn [outcome emitted].
  match type of R2 with
  | _ = [mkRequest _ _ (BIssue (testCaseData _ _ _ _ ?iso))] => exists iso
  end.
  rewrite !requests_of_app, R1, R2. cbn [requests_of app].
  destruct (server env _ _) as [[c |] | e r]; cbn [emitted requests_of];
    now rewrite ?app_nil_r.
Qed.

Lemma full_createTestExecution_first (env : Env) (i : ExecutionInfo)
    (r : XrayTestResult) (rest : list XrayTestResult) (w : World) :
  resolves (server env (requests_of (events w)) (lookup (testKey r))) = false ->
  exists iso more,
    requests_of (emitted (XrayClientFull.createTestExecution env
                            (mkExecution i (r :: rest)) w))
    = lookup (testKey r)
      :: mkRequest POST "/issue"
           (BIssue (testCaseData env (testKey r) (XrayClientFull.testTitle_of r)
                      (Some (XrayClientFull.testDescription_of r)) iso))
      :: more.
Proof.
  intros Hno.
  destruct (full_createTestExecution_shape env (mkExecution i (r :: rest)) w)
    as (post & -> & _).
  cbn [tests XrayClientFull.ensure_loop].
  rewrite emitted_bind, requests_of_app.
  destruct (full_ensureTestCaseExists_sent env (testKey r)
              (XrayClientFull.testTitle_of r)
              (Some (XrayClientFull.testDescription_of r)) w Hno) as [iso ->].
  exists iso. eexists. cbn [app]. reflexivity.
Qed.

(** X9. From the title of a test to the issue [XrayClientFull] creates
    for it.  For a test that carries a key, [onTestEnd] of the full
    reporter stores a result; when a report starts with that result and
    the key does not resolve, [createTestExecution] looks the key up and
    then posts to /issue a test case whose project is the letters of the
    key, whose summary is 'Test: ' followed by the first line of the
    title, and whose description is the whole result comment; type,
    priority and assignee are fixed. *)
Theorem full_created_issue_fields (env : Env) (this : Reporter) (test : TestCase)
    (result : TestResult) (w : World) (k : string) :
  XrayReporterFull.extractTestKey test = Some k ->
  exists after r letters digits,
    outcome (XrayReporterFull.onTestEnd env this test result w) = Ret after
    /\ Map_get (testResults after) (id test) = Some r
    /\ k = letters ++ "-" ++ digits
    /\ letters <> "" /\ all_chars Js.isUpper letters = true
    /\ forall (i : ExecutionInfo) (rest : list XrayTestResult) (w' : World),
         resolves (server env (requests_of (events w')) (lookup k)) = false ->
         exists more,
           requests_of
             (emitted (XrayClientFull.createTestExecution env
                         (mkExecution i (r :: rest)) w'))
           = lookup k
             :: mkRequest POST "/issue"
                  (BIssue
                     {| ip_project := letters;
                        ip_summary :=
                          "Test: " ++ Js.split_head (ascii_of_nat 10) (title test);
                        ip_description :=
                          XrayReporterFull.generateTestComment test result;
                        ip_issuetype := "Test";
                        ip_priority := "Medium";
                        ip_assignee := jiraUsername (config env) |})
             :: more.
Proof.
  intros Hk.
  destruct (extractTestKey_is_key test k Hk)
    as (letters & digits & -> & Hne & Hup & _ & _).
  unfold XrayReporterFull.onTestEnd. rewrite Hk.
  cbn [bind logger emit ret outcome].
  eexists _, _, letters, digits.
  split; [reflexivity |]. cbn [testResults].
  split; [apply Map_get_set_same |].
  split; [reflexivity |]. split; [exact Hne |]. split; [exact Hup |].
  intros i rest w' Hno.
  match goal with
  | |- context [mkExecution i (?r :: rest)] =>
      destruct (full_createTestExecution_first env i r rest w' Hno)
        as (iso & more & E)
  end.
  exists more. rewrite E. cbn [testKey]. do 3 f_equal.
  unfold testCaseData, XrayClientFull.testTitle_of,
    XrayClientFull.testDescription_of.
  cbn [testKey comment option_map].
  destruct (generateTestComment_head test result) as [tl Hc].
  rewrite Hc. unfold nl at 1 2 3.
  replace ("Test: " ++ title test ++ String (ascii_of_nat 10) "" ++ tl)
    with (("Test: " ++ title test) ++ String (ascii_of_nat 10) tl)
    by (now rewrite append_assoc_s).
  rewrite split_head_line, split_head_letters by exact Hup.
  reflexivity.
Qed.

Lemma full_created_issue_fields_witness :
  XrayReporterFull.extractTestKey Sample.test = Some "PROJ-1"
  /\ exists after r,
       outcome (XrayReporterFull.onTestEnd Sample.env Sample.collected
                  Sample.test Sample.result initial_world) = Ret after
       /\ Map_get (testResults after) (id Sample.test) = Some r
       /\ exists more,
            map (fun q => (req_method q, req_url q))
              (requests_of
                 (emitted (XrayClientFull.createTestExecution
                             (mkEnv (fun _ _ => Sample.not_found) (now_ms Sample.env)
                                (now_iso Sample.env) (file_exists Sample.env)
                                (write_error Sample.env) (config Sample.env))
                             (mkExecution (mkInfo "run" None None None None None None)
                                [r])
                             initial_world)))
            = (GET, "/issue/PROJ-1") :: (POST, "/issue") :: more.
Proof.
  split; [reflexivity |].
  destruct (full_created_issue_fields
              (mkEnv (fun _ _ => Sample.not_found) (now_ms Sample.env)
                 (now_iso Sample.env) (file_exists Sample.env)
                 (write_error Sample.env) (config Sample.env))
              Sample.collected Sample.test
              Sample.result initial_world "PROJ-1" eq_refl)
    as (after & r & letters & digits & Ho & Hg & Hk & _ & _ & Hf).
  exists after, r.
  split; [exact Ho |]. split; [exact Hg |].
  destruct (Hf (mkInfo "run" None None None None None None) [] initial_world
              eq_refl) as [more E].
  exists (map (fun q => (req_method q, req_url q)) more).
  rewrite E. reflexivity.
Defined.

(** ** All or nothing, in the full client *)

Section FullAllOrNothing.

Variable env : Env.

Lemma ensure_loop_fails (t : XrayTestResult) (ts : list XrayTestResult) :
  (forall h, resolves (server env h (lookup (testKey t))) = false) ->
  (forall h b, exists e resp,
     server env h (mkRequest POST "/issue" b) = Rejected e resp) ->
  In t ts ->
  forall acc w, exists e, outcome (XrayClientFull.ensure_loop env ts acc w) = Throw e.
Proof.
  intros Hno Hrej.
  induction ts as [| t0 ts IH]; intros Hin acc w; [destruct Hin |].
  cbn [XrayClientFull.ensure_loop]. rewrite outcome_bind.
  destruct (outcome (XrayClientFull.ensureTestCaseExists env (testKey t0) _ _ w))
    as [key | e] eqn:E; [| eauto].
  destruct Hin as [-> | Hin]; [| now apply IH].
  destruct (ensureTestCaseExists_fails env (testKey t)
              (XrayClientFull.testTitle_of t)
              (Some (XrayClientFull.testDescription_of t)) w (Hno _) Hrej)
    as [e He].
  rewrite He in E. discriminate.
Qed.

End FullAllOrNothing.

(** X13. [XrayClientFull.createTestExecution] is all or nothing: one
    test whose key does not resolve and whose issue the server refuses to
    create makes the whole call throw, and no test execution is created,
    not even for the tests of the report that do exist. *)
Theorem full_one_failure_fails_all (env : Env) (ex : XrayTestExecution)
    (w : World) (t : XrayTestResult) :
  In t (tests ex) ->
  (forall h, resolves (server env h (lookup (testKey t))) = false) ->
  (forall h b, exists e resp,
     server env h (mkRequest POST "/issue" b) = Rejected e resp) ->
  let r := XrayClientFull.createTestExecution env ex w in
  (exists e, outcome r = Throw e)
  /\ Forall no_execution (requests_of (emitted r)).
Proof.
  intros Hin Hno Hrej r.
  destruct (full_createTestExecution_shape env ex w) as (post & Hreq & Hshape).
  fold r in Hreq, Hshape.
  destruct Hshape as [[-> Hthrow] | (i & l & Hl & _)].
  - split; [exact Hthrow |]. rewrite Hreq, app_nil_r.
    eapply Forall_impl; [| apply ensure_loop_kind].
    intros q [[k ->] | [f ->]]; reflexivity.
  - destruct (ensure_loop_fails env t (tests ex) Hno Hrej Hin [] w) as [e He].
    rewrite He in Hl. discriminate.
Qed.

Lemma full_one_failure_fails_all_witness :
  let known := mkResult "PROJ-1" "PASSED" None None None in
  let unknown := mkResult "PROJ-2" "FAILED" None None None in
  let ex := mkExecution (mkInfo "run" None None None None None None)
              [known; unknown] in
  resolves (server Sample.env [] (lookup (testKey known))) = true
  /\ (exists e, outcome (XrayClientFull.createTestExecution Sample.env ex
                           initial_world) = Throw e)
  /\ Forall no_execution
       (requests_of (emitted (XrayClientFull.createTestExecution Sample.env ex
                                initial_world))).
Proof.
  intros known unknown ex.
  split; [reflexivity |].
  apply (full_one_failure_fails_all Sample.env ex initial_world unknown).
  - right. left. reflexivity.
  - intros h. reflexivity.
  - intros h b. eexists _, _. reflexivity.
Defined.

(** ** What the answer to the creation request becomes *)

Section CreationAnswer.

Variable env : Env.



End CreationAnswer.



(** ** The full reporter stops before its first step *)

Section FullSteps.

Variable env : Env.

(** [addTestExecutionComment] posts the comment without looking the
    issue up, and swallows a refusal. *)
Lemma full_addTestExecutionComment_run (k st : string) (t : option Z)
    (c : option string) (w : World) :
  exists evs,
    XrayClientFull.addTestExecutionComment env k st t c w
    = mkRun (Ret tt) evs (canCreateIssues w)
    /\ requests_of evs
       = [mkRequest POST ("/issue/" ++ k ++ "/comment")
            (XrayClientFull.executionComment st t c (now_iso env (events w)))].
Proof.
  unfold XrayClientFull.addTestExecutionComment,
    XrayClientFull.addTestExecutionComment_catch.
  destruct (server env (requests_of (events w))
              (mkRequest POST ("/issue/" ++ k ++ "/comment")
                 (XrayClientFull.executionComment st t c
                    (now_iso env (events w)))))
    as [d | e [[s data] |]] eqn:Es;
    (eexists; split; [mrun | reflexivity]).
Qed.

End FullSteps.

(** X15. [XrayReporterFull.reportToXray] never reaches the first of its
    steps.  Once results have been collected it stops at
    [XrayClientFull.getInstance()], whose constructor throws a
    [TypeError]; it logs the failure and throws the error again, having
    sent and written nothing.  [onEnd] catches the error, logs it a
    second time and returns; with an incomplete configuration or without
    results it logs one warning instead. *)
Theorem full_reporter_stops_before_first_step (env : Env) (this : Reporter)
    (w : World) :
  XrayReporterFull.reportToXray env this w
  = match Map_values (testResults this) with
    | [] => mkRun (Ret tt) [ELog Warn "No test results to report to Xray"]
              (canCreateIssues w)
    | _ :: _ => mkRun (Throw constructor_error) [report_failure]
                  (canCreateIssues w)
    end
  /\ XrayClientFull.getInstance env w
     = mkRun (Throw constructor_error) [] (canCreateIssues w)
  /\ XrayReporterFull.onEnd env this w
     = mkRun (Ret tt)
         (ELog Info "Xray Reporter (Full): Test execution completed"
          :: if XrayConfigManager.validateConfig (config env)
             then match Map_values (testResults this) with
                  | [] => [ELog Warn "No test results to report to Xray"]
                  | _ :: _ =>
                      [report_failure;
                       ELog ErrorLevel
                         "Failed to report to Xray: TypeError: this.config.getJiraApiUrlV2 is not a function"]
                  end
             else [ELog Warn
                     "Xray configuration is incomplete. Skipping Xray reporting."])
         (canCreateIssues w).
Proof.
  split; [apply full_reportToXray_run |]. split; [reflexivity |].
  unfold XrayReporterFull.onEnd, XrayReporterFull.reportToXray.
  destruct (XrayConfigManager.validateConfig (config env)); [| reflexivity].
  destruct (Map_values (testResults this)); reflexivity.
Qed.

(** ** Updating the status of a test case *)

Section StatusUpdate.

Variable env : Env.

Lemma hybrid_updateTestCaseStatus_run (k st : string) (w : World) :
  let hist := requests_of (events w) in
  let put := mkRequest PUT ("/issue/" ++ k)
               (BStatus (XrayClientHybrid.mapXrayStatusToJira st)) in
  exists evs,
    XrayClientHybrid.updateTestCaseStatus env k st w
    = mkRun
        (Ret match found_data (server env hist (lookup k)) with
             | None => false
             | Some _ =>
                 match server env (hist ++ [lookup k]) put with
                 | Resolved _ => true
                 | Rejected _ _ => false
                 end
             end)
        evs (canCreateIssues w)
    /\ requests_of evs
       = lookup k :: match found_data (server env hist (lookup k)) with
                     | None => []
                     | Some _ => [put]
                     end.
Proof.
  intros hist put. subst hist put.
  destruct (hybrid_findTestCase_run env k w) as (e1 & H1 & R1).
  unfold XrayClientHybrid.updateTestCaseStatus,
    XrayClientHybrid.updateTestCaseStatus_catch.
  destruct (found_data (server env (requests_of (events w)) (lookup k)))
    as [data |].
  - destruct (server env (requests_of (events w) ++ [lookup k])
                (mkRequest PUT ("/issue/" ++ k)
                   (BStatus (XrayClientHybrid.mapXrayStatusToJira st))))
      as [d | e [[s body] |]] eqn:Es;
      (eexists; split; [mrun | hist_norm; reflexivity]).
  - eexists; split; [mrun | hist_norm; reflexivity].
Qed.

Lemma full_updateTestCaseStatus_run (k st : string) (w : World) :
  let hist := requests_of (events w) in
  let put := mkRequest PUT ("/issue/" ++ k)
               (BStatus (XrayClientFull.mapXrayStatusToJira st)) in
  exists evs,
    XrayClientFull.updateTestCaseStatus env k st w
    = mkRun (Ret tt) evs (canCreateIssues w)
    /\ requests_of evs
       = lookup k :: match found_data (server env hist (lookup k)) with
                     | None => []
                     | Some _ => [put]
                     end.
Proof.
  intros hist put. subst hist put.
  destruct (full_findTestCase_run env k w) as (e1 & H1 & R1).
  unfold XrayClientFull.updateTestCaseStatus,
    XrayClientFull.updateTestCaseStatus_catch.
  destruct (found_data (server env (requests_of (events w)) (lookup k)))
    as [data |].
  - destruct (server env (requests_of (events w) ++ [lookup k])
                (mkRequest PUT ("/issue/" ++ k)
                   (BStatus (XrayClientFull.mapXrayStatusToJira st))))
      as [d | e [[s body] |]] eqn:Es;
      (eexists; split; [mrun | hist_norm; reflexivity]).
  - eexists; split; [mrun | hist_norm; reflexivity].
Qed.

End StatusUpdate.

(** X16. [updateTestCaseStatus], in the full and in the hybrid client,
    looks the issue up and sends the PUT only when the issue was found;
    the PUT carries the Jira status the Xray status maps to.  Neither
    throws.  The hybrid client returns [true] exactly when the issue was
    found and the server accepted the PUT. *)
Theorem updateTestCaseStatus_after_lookup (env : Env) (k st : string) (w : World) :
  let hist := requests_of (events w) in
  let found := found_data (server env hist (lookup k)) in
  let put jira := mkRequest PUT ("/issue/" ++ k) (BStatus jira) in
  let full := XrayClientFull.updateTestCaseStatus env k st w in
  let hybrid := XrayClientHybrid.updateTestCaseStatus env k st w in
  outcome full = Ret tt
  /\ requests_of (emitted full)
     = lookup k :: match found with
                   | None => []
                   | Some _ => [put (XrayClientFull.mapXrayStatusToJira st)]
                   end
  /\ requests_of (emitted hybrid) = requests_of (emitted full)
  /\ outcome hybrid
     = Ret match found with
           | None => false
           | Some _ =>
               match server env (hist ++ [lookup k])
                       (put (XrayClientHybrid.mapXrayStatusToJira st)) with
               | Resolved _ => true
               | Rejected _ _ => false
               end
           end.
Proof.
  intros hist found put full hybrid. subst hist found put full hybrid.
  destruct (full_updateTestCaseStatus_run env k st w) as (e1 & E1 & R1).
  destruct (hybrid_updateTestCaseStatus_run env k st w) as (e2 & E2 & R2).
  rewrite E1, E2. cbn [outcome emitted]. rewrite R1, R2.
  repeat split; reflexivity.
Qed.

(** ** The page object, in full *)

(** Membership of a log line in a short list of log lines. *)
Ltac log_cases :=
  repeat match goal with
         | H : _ /\ _ |- _ => destruct H
         | H : _ \/ _ |- _ => destruct H as [H | H]
         | H : False |- _ => destruct H
         | H : ELog _ _ = ELog _ _ |- _ => discriminate H
         end.

(** X17. [GoogleHomePage.verifyPageLoaded] returns exactly when the
    logo is visible, the search input is visible and the lower-cased
    title contains 'google'; it logs 'Google home page verified
    successfully' exactly when it returns; and it reads the title only
    once both elements have been seen. *)
Theorem verifyPageLoaded_returns_iff (page : Page) (w : World) :
  let r := GoogleHomePage.verifyPageLoaded page w in
  (outcome r = Ret tt
   <-> googleLogo_visible page = true /\ searchInput_visible page = true
       /\ Js.includes (Js.toLowerCase (page_title page)) "google" = true)
  /\ (In (ELog Info "Google home page verified successfully") (emitted r)
      <-> outcome r = Ret tt)
  /\ (In (ELog Debug ("Page title: " ++ page_title page)) (emitted r) ->
      googleLogo_visible page = true /\ searchInput_visible page = true)
  /\ requests_of (emitted r) = []
  /\ flag_after r = canCreateIssues w.
Proof.
  destruct page as [logo input title].
  unfold GoogleHomePage.verifyPageLoaded, BasePage.assertElementVisible,
    BasePage.getTitle.
  cbn [page_title googleLogo_visible searchInput_visible Js.or_default].
  destruct logo, input;
    try destruct (Js.includes (Js.toLowerCase title) "google") eqn:E;
    cbn; rewrite ?E; cbn;
    repeat split; intros; log_cases; auto; discriminate.
Qed.

(** ** Ensuring a test case, in the hybrid client *)

Section HybridEnsure.

Variable env : Env.


End HybridEnsure.


(** ** The environment behind every logger *)

Lemma or_default_empty (v : option string) :
  String.eqb (Js.or_default v "") "" = negb (Js.truthy v).
Proof. destruct v as [[| c s] |]; reflexivity. Qed.

Lemma or_default_truthy (v : option string) (c : ascii) (d : string) :
  Js.truthy (Some (Js.or_default v (String c d))) = true.
Proof. destruct v as [[| c' s] |]; reflexivity. Qed.

(** X19. Building the [Environment] never fails: the base URL falls back
    to a default, so the one check that could throw never fires, whatever
    the process environment holds.  Each warning is printed exactly when
    the setting it names is missing or empty. *)
Theorem Environment_new_never_throws (Num : Type) (parseInt : string -> Num)
    (process_env : string -> option string) :
  let r := Environment.new parseInt process_env in
  snd r = Ret (Environment.config_of parseInt process_env)
  /\ Environment.baseUrl (Environment.config_of parseInt process_env) <> ""
  /\ (In Environment.azure_warning (fst r)
      <-> Js.truthy (process_env "AZURE_STORAGE_CONNECTION_STRING") = false)
  /\ (In Environment.email_warning (fst r)
      <-> Js.truthy (process_env "EMAIL_USER") = false
          \/ Js.truthy (process_env "EMAIL_PASSWORD") = false)
  /\ (In Environment.sftp_warning (fst r)
      <-> Js.truthy (process_env "SFTP_HOST") = false
          \/ Js.truthy (process_env "SFTP_USERNAME") = false).
Proof.
  intros r. subst r.
  unfold Environment.new, Environment.validateConfig, Environment.config_of.
  cbn [Environment.baseUrl Environment.azure Environment.email Environment.sftp
       Environment.connectionString Environment.email_user
       Environment.email_password Environment.sftp_host
       Environment.sftp_username].
  rewrite or_default_truthy, !or_default_empty. cbn [negb fst snd].
  split; [reflexivity |].
  split; [destruct (process_env "BASE_URL") as [[| c s] |]; discriminate |].
  destruct (Js.truthy (process_env "AZURE_STORAGE_CONNECTION_STRING"));
    destruct (Js.truthy (process_env "EMAIL_USER"));
    destruct (Js.truthy (process_env "EMAIL_PASSWORD"));
    destruct (Js.truthy (process_env "SFTP_HOST"));
    destruct (Js.truthy (process_env "SFTP_USERNAME"));
    cbn; repeat split; intros; auto;
    repeat match goal with
           | H : _ \/ _ |- _ => destruct H as [H | H]
           | H : False |- _ => destruct H
           | H : _ = _ |- _ => discriminate H
           end.
Qed.

(** X20. [isLocal] is the default: it holds when ENVIRONMENT is unset or
    empty, or is 'local'.  CI=true makes the run headless and makes
    [isCI] hold without changing the environment name, so [isCI] and
    [isLocal] hold together exactly when CI is 'true' and the
    environment is local. *)
Theorem isCI_isLocal (Num : Type) (parseInt : string -> Num)
    (process_env : string -> option string) :
  let c := Environment.config_of parseInt process_env in
  (TestConfig.isLocal c = true
   <-> Js.truthy (process_env "ENVIRONMENT") = false
       \/ process_env "ENVIRONMENT" = Some "local")
  /\ (process_env "CI" = Some "true" ->
      Environment.headless c = true
      /\ TestConfig.isCI process_env c = true)
  /\ (TestConfig.isCI process_env c && TestConfig.isLocal c = true
      <-> process_env "CI" = Some "true" /\ TestConfig.isLocal c = true).
Proof.
  intros c. subst c.
  unfold TestConfig.isLocal, TestConfig.isCI, Environment.config_of.
  cbn [Environment.environment Environment.headless].
  split; [| split].
  - destruct (process_env "ENVIRONMENT") as [[| ch s] |]; cbn [Js.or_default Js.truthy].
    + split; auto.
    + rewrite String.eqb_eq. split.
      * intros ->. now right.
      * intros [H | H]; [discriminate | congruence].
    + split; auto.
  - intros ->. cbn. now rewrite orb_true_r.
  - rewrite andb_true_iff, orb_true_iff. split.
    + intros [[Hci | Hci] Hloc]; split; try exact Hloc.
      * destruct (process_env "CI") as [v |]; [| discriminate].
        cbn in Hci. apply String.eqb_eq in Hci. now subst v.
      * apply String.eqb_eq in Hci, Hloc. rewrite Hci in Hloc. discriminate.
    + intros [-> Hloc]. split; [now left | exact Hloc].
Qed.

Lemma isCI_isLocal_witness :
  let process_env := fun name : string =>
    if String.eqb name "CI" then Some "true" else None in
  let c := Environment.config_of (fun _ : string => @None Z) process_env in
  process_env "CI" = Some "true"
  /\ Environment.headless c = true
  /\ TestConfig.isCI process_env c = true
  /\ TestConfig.isLocal c = true.
Proof.
  intros process_env c.
  destruct (isCI_isLocal (option Z) (fun _ => None) process_env)
    as (_ & H & _).
  destruct (H eq_refl) as [Hh Hci].
  split; [reflexivity |]. split; [exact Hh |].
  split; [exact Hci | reflexivity].
Defined.

(** ** Evidence *)

Lemma attachment_paths_defined (l : list Attachment) :
  Forall defined_path (XrayReporter.attachment_paths l).
Proof.
  unfold XrayReporter.attachment_paths.
  induction l as [| a l IH]; cbn [flat_map map]; [constructor |].
  rewrite map_app. apply Forall_app. split; [| exact IH].
  destruct (path a) as [[| c s] |]; cbn; repeat constructor.
Qed.

Lemma isSpace3_dash_second (a c : nat) : isSpace3 a 45 c = false.
Proof.
  unfold isSpace3.
  destruct (a =? 225)%nat, (a =? 226)%nat, (a =? 227)%nat, (a =? 239)%nat;
    reflexivity.
Qed.

Lemma isSpace3_dash_third (a b : nat) : isSpace3 a b 45 = false.
Proof.
  unfold isSpace3.
  destruct (a =? 225)%nat, (a =? 226)%nat, (a =? 227)%nat, (a =? 239)%nat,
    (b =? 154)%nat, (b =? 128)%nat, (b =? 129)%nat, (b =? 187)%nat;
    reflexivity.
Qed.

Lemma space_length_dash (s : string) : space_length (String "-" s) = 0%nat.
Proof. destruct s as [| c1 [| c2 s]]; reflexivity. Qed.

Lemma replace_spaces_head (s : string) :
  replace_spaces_from 0 false s
  = match s with
    | EmptyString => EmptyString
    | String c s' =>
        match space_length s with
        | S n => String "-" (replace_spaces_from n true s')
        | O => String c (replace_spaces_from 0 false s')
        end
    end.
Proof. destruct s; reflexivity. Qed.

Lemma space_length_kept (c : ascii) (s : string) :
  space_length (String c s) = 0%nat ->
  space_length (String c (replace_spaces_from 0 false s)) = 0%nat.
Proof.
  intros H. destruct s as [| c1 s2]; [exact H |].
  rewrite replace_spaces_head.
  assert (Hc : isSpace c = false).
  { cbn [space_length] in H. destruct (isSpace c); [discriminate | reflexivity]. }
  destruct (space_length (String c1 s2)) eqn:E1.
  - destruct s2 as [| c2 s3]; [exact H |].
    rewrite replace_spaces_head.
    destruct (space_length (String c2 s3)) eqn:E2; [exact H |].
    cbn [space_length] in H |- *. rewrite Hc in H |- *.
    destruct ((nat_of_ascii c =? 194)%nat && (nat_of_ascii c1 =? 160)%nat);
      [discriminate |].
    replace (nat_of_ascii "-") with 45%nat by reflexivity.
    now rewrite isSpace3_dash_third.
  - cbn [space_length]. rewrite Hc.
    replace (nat_of_ascii "-") with 45%nat by reflexivity.
    rewrite andb_false_r.
    destruct (replace_spaces_from n true s2); [reflexivity |].
    now rewrite isSpace3_dash_second.
Qed.

Lemma replace_spaces_from_no_space (s : string) :
  forall skip in_run, no_space (replace_spaces_from skip in_run s).
Proof.
  unfold no_space.
  induction s as [| c s IH]; intros skip in_run; [reflexivity |].
  cbn [replace_spaces_from].
  destruct skip as [| n]; [| apply IH].
  destruct (space_length (String c s)) as [| n] eqn:E.
  - cbn [no_space_b]. rewrite (space_length_kept c s E), IH. reflexivity.
  - destruct in_run; [apply IH |].
    cbn [no_space_b]. rewrite space_length_dash, IH. reflexivity.
Qed.

(** X21. The evidence the basic reporter attaches holds defined paths
    only: attachments without a path are left out, in contrast with the
    hybrid and the full reporter, which keep one entry per attachment,
    defined or not.  The basic reporter looks for a failure screenshot
    exactly for a test that failed with an error, under the name
    test-results/failure-<title>-<time>.png, where <title> is the title
    of the test with every run of white space replaced by one dash, so
    that no white space is left in it, and <time> is the clock in
    milliseconds; the screenshot is attached when the file exists. *)
Theorem basic_evidence_defined (env : Env) (test : TestCase)
    (result : TestResult) (w : World) :
  let r := XrayReporter.generateEvidence env test result w in
  let paths := match attachments result with
               | Some l => XrayReporter.attachment_paths l
               | None => []
               end in
  let looks := String.eqb (r_status result) "failed"
               && match error result with Some _ => true | None => false end in
  let name := replace_spaces false (title test) in
  let p := "test-results/failure-" ++ name ++ "-"
           ++ Js.show_Z (now_ms env (events w)) ++ ".png" in
  outcome r
  = Ret (paths ++ if looks && file_exists env p then [Some p] else [])%list
  /\ emitted r = (if looks then [EExists p] else [])
  /\ Forall defined_path paths
  /\ no_space name
  /\ replace_spaces false
       ("login" ++ String (ascii_of_nat 9) (String (ascii_of_nat 194)
                     (String (ascii_of_nat 160) " works")))
     = "login-works"
  /\ length (XrayReporterHybrid.generateEvidence test result)
     = match attachments result with Some l => length l | None => 0%nat end
  /\ XrayReporterFull.generateEvidence test result
     = XrayReporterHybrid.generateEvidence test result.
Proof.
  intros r paths looks name p. subst r.
  unfold XrayReporter.generateEvidence. fold paths. fold looks.
  split; [| split; [| split; [| split; [| split; [| split]]]]].
  - destruct looks; [| cbn; now rewrite app_nil_r].
    rewrite outcome_bind. cbn [Date_now bind get_events ret outcome].
    rewrite outcome_bind. cbn [emit outcome]. fold name. fold p.
    cbn [andb]. destruct (file_exists env p); cbn [ret outcome];
      [reflexivity | now rewrite app_nil_r].
  - destruct looks; [| reflexivity].
    rewrite emitted_bind. cbn [Date_now bind get_events ret outcome emitted app].
    rewrite emitted_bind. cbn [emit outcome emitted]. fold name. fold p.
    destruct (file_exists env p); reflexivity.
  - subst paths. destruct (attachments result);
      [apply attachment_paths_defined | constructor].
  - apply replace_spaces_from_no_space.
  - vm_compute. reflexivity.
  - unfold XrayReporterHybrid.generateEvidence.
    destruct (attachments result); [apply length_map | reflexivity].
  - reflexivity.
Qed.

(** ** Commenting on a test case *)

Section Commenting.

Variable env : Env.

Lemma hybrid_addTestExecutionComment_run (k st : string) (t : option Z)
    (c : option string) (w : World) :
  let hist := requests_of (events w) in
  exists evs body,
    let q := mkRequest POST ("/issue/" ++ k ++ "/comment") (BComment body) in
    XrayClientHybrid.addTestExecutionComment env k st t c w
    = mkRun
        (Ret match found_data (server env hist (lookup k)) with
             | None => false
             | Some _ =>
                 match server env (hist ++ [lookup k]) q with
                 | Resolved _ => true
                 | Rejected _ _ => false
                 end
             end)
        evs (canCreateIssues w)
    /\ requests_of evs
       = lookup k :: match found_data (server env hist (lookup k)) with
                     | None => []
                     | Some _ => [q]
                     end.
Proof.
  intros hist. subst hist.
  destruct (hybrid_findTestCase_run env k w) as (e1 & H1 & R1).
  unfold XrayClientHybrid.addTestExecutionComment,
    XrayClientHybrid.addTestExecutionComment_catch,
    XrayClientFull.executionComment.
  destruct (found_data (server env (requests_of (events w)) (lookup k)))
    as [data |].
  - destruct (server env (requests_of (events w) ++ [lookup k])
                (mkRequest POST ("/issue/" ++ k ++ "/comment")
                   (XrayClientFull.executionComment st t c
                      (now_iso env (events w ++ e1)))))
      as [d | e [[s body] |]] eqn:Es;
      unfold XrayClientFull.executionComment in Es;
      (eexists _, _; cbv zeta; rewrite Es;
       split; [mrun | hist_norm; reflexivity]).
  - eexists _, "". split; [mrun | hist_norm; reflexivity].
Qed.

End Commenting.

(** X23. The two clients comment differently.  [XrayClientFull]
    posts the result comment whether or not the issue exists, and never
    throws.  [XrayClientHybrid] looks the issue up first and posts the
    comment only when the issue was found; it returns [true] exactly when
    the issue was found and the server accepted the comment. *)
Theorem addTestExecutionComment_full_and_hybrid (env : Env) (k st : string)
    (t : option Z) (c : option string) (w : World) :
  let hist := requests_of (events w) in
  let found := found_data (server env hist (lookup k)) in
  let full := XrayClientFull.addTestExecutionComment env k st t c w in
  let hybrid := XrayClientHybrid.addTestExecutionComment env k st t c w in
  (outcome full = Ret tt
   /\ exists body,
        requests_of (emitted full)
        = [mkRequest POST ("/issue/" ++ k ++ "/comment") (BComment body)])
  /\ exists body,
       let q := mkRequest POST ("/issue/" ++ k ++ "/comment") (BComment body) in
       requests_of (emitted hybrid)
       = lookup k :: match found with None => [] | Some _ => [q] end
       /\ outcome hybrid
          = Ret match found with
                | None => false
                | Some _ =>
                    match server env (hist ++ [lookup k]) q with
                    | Resolved _ => true
                    | Rejected _ _ => false
                    end
                end.
Proof.
  intros hist found full hybrid. subst hist found full hybrid.
  destruct (full_addTestExecutionComment_run env k st t c w) as (e1 & E1 & R1).
  destruct (hybrid_addTestExecutionComment_run env k st t c w)
    as (e2 & body & E2 & R2).
  rewrite E1, E2. cbn [outcome emitted]. split.
  - split; [reflexivity |]. rewrite R1. unfold XrayClientFull.executionComment.
    eexists. reflexivity.
  - exists body. split; [exact R2 | reflexivity].
Qed.

(** ** The comments of the basic and of the hybrid reporter *)


